(** * PostPro scheduling engine: a shallow embedding of [src/lib/store.ts]

    The development follows the layout of the TypeScript module:
    the command parser, the date parser, the dependency checker and the
    zustand store actions ([moveMilestone], [processCommand],
    [fetchProjectData], [loadDemoData]).  JavaScript values are modelled as
    follows.

    - Strings are sequences of 8-bit characters ([string]); the character
      classes, [toLowerCase], [toUpperCase] and [trim] are the ASCII ones, so
      the texts of the model are the ASCII texts.
    - A [Date] object is its time value, an integer number of milliseconds or
      the NaN of an invalid date.  Calendar fields are read on the local time
      line of a zone with a fixed offset, so that one day is always
      [msPerDay] milliseconds.
    - A JavaScript number is an integer, in the range where the arithmetic
      of doubles is exact; one that may be NaN is an [option Z].
    - [undefined] / [null] fields are [option]s.
    - The clock ([new Date()], [Date.now()]) is an argument [now] of the
      actions that read it; the reads of one action are identified.
    - The requests of the API client, [parseISO] of date-fns and the
      locale-dependent rendering of dates are parameters.
    - Regular expressions are syntax trees run by a backtracking matcher with
      greedy quantifiers and capture groups. *)

From Stdlib Require Import ZArith Lia Bool List Ascii String DecimalString.
Import ListNotations.
Open Scope string_scope.
Open Scope Z_scope.

(* ====================================================================== *)
(** ** JavaScript strings                                                  *)
(* ====================================================================== *)

Module JsString.

Definition code (c : ascii) : N := N_of_ascii c.

Definition between (lo hi : N) (c : ascii) : bool :=
  ((lo <=? code c) && (code c <=? hi))%N.

Definition isDigit (c : ascii) : bool := between 48 57 c.
Definition isUpper (c : ascii) : bool := between 65 90 c.
Definition isLower (c : ascii) : bool := between 97 122 c.

(** [\w] : letters, digits and the underscore. *)
Definition isWord (c : ascii) : bool :=
  isDigit c || isUpper c || isLower c || (code c =? 95)%N.

(** [\s] and the characters removed by [trim]: tab, line feed, vertical tab,
    form feed, carriage return and space.  JavaScript also takes the
    no-break space, the byte order mark, the line and paragraph separators
    and the other Unicode space separators; they are not ASCII and so are
    outside the texts of this model. *)
Definition isSpace (c : ascii) : bool :=
  between 9 13 c || (code c =? 32)%N.

(** [.] : any character but a line terminator. *)
Definition isDot (c : ascii) : bool :=
  negb ((code c =? 10)%N || (code c =? 13)%N).

Definition lowerChar (c : ascii) : ascii :=
  if isUpper c then ascii_of_N (code c + 32) else c.

Definition upperChar (c : ascii) : ascii :=
  if isLower c then ascii_of_N (code c - 32) else c.

Fixpoint mapChars (f : ascii -> ascii) (s : string) : string :=
  match s with
  | EmptyString => EmptyString
  | String c s' => String (f c) (mapChars f s')
  end.

Definition toLowerCase : string -> string := mapChars lowerChar.
Definition toUpperCase : string -> string := mapChars upperChar.

Fixpoint trimStart (s : string) : string :=
  match s with
  | String c s' => if isSpace c then trimStart s' else s
  | EmptyString => EmptyString
  end.

(** [trimEnd] keeps a character when it is not a space or when something
    remains after it. *)
Fixpoint trimEnd (s : string) : string :=
  match s with
  | EmptyString => EmptyString
  | String c s' =>
      match trimEnd s' with
      | EmptyString => if isSpace c then EmptyString else String c EmptyString
      | t => String c t
      end
  end.

Definition trim (s : string) : string := trimEnd (trimStart s).

Fixpoint startsWith (p s : string) : bool :=
  match p, s with
  | EmptyString, _ => true
  | String a p', String b s' => Ascii.eqb a b && startsWith p' s'
  | String _ _, EmptyString => false
  end.

(** [s.includes(p)] : [p] occurs at some index of [s]. *)
Fixpoint includes (s p : string) : bool :=
  startsWith p s ||
  match s with
  | EmptyString => false
  | String _ s' => includes s' p
  end.

(** The first [n] characters. *)
Fixpoint take (n : nat) (s : string) : string :=
  match n, s with
  | S n', String c s' => String c (take n' s')
  | _, _ => EmptyString
  end.

(** The part of [s] consumed when [rest] is what remains of it. *)
Definition consumed (s rest : string) : string :=
  take (String.length s - String.length rest) s.

(** [parseInt] on the text of a group of digits: the parsers apply it to
    non-empty strings of decimal digits only. *)
Fixpoint parseDigits (acc : Z) (s : string) : Z :=
  match s with
  | String c s' =>
      if isDigit c then parseDigits (10 * acc + Z.of_N (code c - 48)) s' else acc
  | EmptyString => acc
  end.

Definition parseInt (s : string) : Z := parseDigits 0 s.

(** A text between double quotes. *)
Definition quoted (s : string) : string :=
  String (ascii_of_nat 34) s ++ String (ascii_of_nat 34) EmptyString.

(** Template-literal rendering of a non-negative count. *)
Definition ofNat (n : nat) : string := NilEmpty.string_of_uint (Nat.to_uint n).

Fixpoint join (sep : string) (l : list string) : string :=
  match l with
  | [] => ""
  | [x] => x
  | x :: rest => x ++ sep ++ join sep rest
  end.

End JsString.

(* ====================================================================== *)
(** ** Regular expressions                                                 *)
(* ====================================================================== *)

Module RegExp.
Import JsString.

(** Syntax of the patterns used by the parsers.  [Quant a lo hi] is the
    greedy quantifier [a{lo,hi}] ([hi = None] for no upper bound) and
    [Group i a] is the [i]-th capturing group. *)
Inductive re : Type :=
| Empty
| Lit (c : ascii)
| Class (p : ascii -> bool)
| Cat (a b : re)
| Or (a b : re)
| Quant (a : re) (lo : nat) (hi : option nat)
| Group (i : nat) (a : re).

(** The match array: entry 0 is the whole match, entry [i] the text of
    group [i], [None] for a group that did not take part. *)
Definition captures := list (option string).

Fixpoint setCapture (i : nat) (v : string) (caps : captures) : captures :=
  match i, caps with
  | O, _ :: rest => Some v :: rest
  | S i', c :: rest => c :: setCapture i' v rest
  | _, [] => []
  end.

Definition underMax (count : nat) (hi : option nat) : bool :=
  match hi with
  | None => true
  | Some h => Nat.ltb count h
  end.

Definition charMatches (ignoreCase : bool) (c x : ascii) : bool :=
  if ignoreCase then Ascii.eqb (lowerChar c) (lowerChar x) else Ascii.eqb c x.

Section Matcher.
Variable ignoreCase : bool.
Variable A : Type.

  (** Backtracking matcher in continuation-passing style: [run r s caps k]
      matches a prefix of [s] against [r] and hands the rest to [k]; when [k]
      fails the next alternative is tried.  A quantifier first tries one more
      iteration, then stopping; an iteration has to consume a character,
      which every quantified sub-pattern of this file does by itself, so the
      length of the remaining text bounds the number of iterations. *)
Fixpoint run (r : re) (s : string) (caps : captures)
           (k : string -> captures -> option A) {struct r} : option A :=
    match r with
    | Empty => k s caps
    | Lit c =>
        match s with
        | String x s' => if charMatches ignoreCase c x then k s' caps else None
        | EmptyString => None
        end
    | Class p =>
        match s with
        | String x s' => if p x then k s' caps else None
        | EmptyString => None
        end
    | Cat a b => run a s caps (fun s' caps' => run b s' caps' k)
    | Or a b =>
        match run a s caps k with
        | Some res => Some res
        | None => run b s caps k
        end
    | Group i a =>
        run a s caps (fun s' caps' => k s' (setCapture i (consumed s s') caps'))
    | Quant a lo hi =>
        (fix iterate (budget count : nat) (s : string) (caps : captures)
             {struct budget} : option A :=
           let stop := if Nat.leb lo count then k s caps else None in
           match budget with
           | O => stop
           | S budget' =>
               let more :=
                 if underMax count hi then
                   run a s caps (fun s' caps' =>
                     if Nat.ltb (String.length s') (String.length s)
                     then iterate budget' (S count) s' caps'
                     else None)
                 else None in
               match more with
               | Some res => Some res
               | None => stop
               end
           end) (String.length s) O s caps
    end.
End Matcher.

(** One attempt at a fixed start position. *)
Definition matchHere (ignoreCase : bool) (ngroups : nat) (r : re) (s : string)
  : option captures :=
  run ignoreCase captures r s (repeat None (S ngroups))
      (fun rest caps => Some (setCapture 0 (consumed s rest) caps)).

(** [s.match(r)] for a pattern without the global flag: the leftmost start
    position at which the pattern matches. *)
Fixpoint exec (ignoreCase : bool) (ngroups : nat) (r : re) (s : string)
  : option captures :=
  match matchHere ignoreCase ngroups r s with
  | Some caps => Some caps
  | None =>
      match s with
      | EmptyString => None
      | String _ s' => exec ignoreCase ngroups r s'
      end
  end.

(** Pattern combinators. *)
Fixpoint word (w : string) : re :=
  match w with
  | EmptyString => Empty
  | String c EmptyString => Lit c
  | String c w' => Cat (Lit c) (word w')
  end.

Fixpoint cat (l : list re) : re :=
  match l with
  | [] => Empty
  | [r] => r
  | r :: rest => Cat r (cat rest)
  end.

Definition opt (r : re) : re := Quant r 0 (Some 1%nat).
Definition plus (r : re) : re := Quant r 1 None.
Definition star (r : re) : re := Quant r 0 None.
Definition digit : re := Class isDigit.
Definition wordChar : re := Class isWord.
Definition space : re := Class isSpace.
Definition anyChar : re := Class isDot.

(** Group [i] of a match array, [None] when undefined. *)
Definition group (i : nat) (m : captures) : option string :=
  nth i m None.

End RegExp.

(* ====================================================================== *)
(** ** Dates                                                               *)
(* ====================================================================== *)

Module DateFns.

(** A [Date] object: its time value in milliseconds, or an invalid date
    (time value NaN). *)
Inductive Date : Type :=
| MkDate (tv : Z)
| InvalidDate.

Definition msPerDay : Z := 86400000.
Definition maxTime : Z := 8640000000000000.

(** A time value outside the representable range makes the date invalid. *)
Definition timeClip (t : Z) : Date :=
  if Z.abs t <=? maxTime then MkDate t else InvalidDate.

(** [date.getTime()], NaN as [None]. *)
Definition getTime (d : Date) : option Z :=
  match d with
  | MkDate t => Some t
  | InvalidDate => None
  end.

Definition isNaN (n : option Z) : bool :=
  match n with
  | Some _ => false
  | None => true
  end.

(** The day number of a time value: days since 1970-01-01, a Thursday. *)
Definition dayNumber (t : Z) : Z := t / msPerDay.

Definition weekDay (dn : Z) : Z := (dn + 4) mod 7.

(** [date.getDay()] : 0 for Sunday up to 6 for Saturday. *)
Definition getDay (d : Date) : option Z :=
  match d with
  | MkDate t => Some (weekDay (dayNumber t))
  | InvalidDate => None
  end.

(** Day number of the civil date [y]-[m]-[d] of the proleptic Gregorian
    calendar, [m] from 1 to 12. *)
Definition daysFromCivil (y m d : Z) : Z :=
  let y' := if m <=? 2 then y - 1 else y in
  let era := y' / 400 in
  let yoe := y' - era * 400 in
  let mp := if m <=? 2 then m + 9 else m - 3 in
  let doy := (153 * mp + 2) / 5 + d - 1 in
  let doe := yoe * 365 + yoe / 4 - yoe / 100 + doy in
  era * 146097 + doe - 719468.

(** Civil date (year, month 1..12, day) of a day number. *)
Definition civilFromDays (dn : Z) : Z * Z * Z :=
  let z := dn + 719468 in
  let era := z / 146097 in
  let doe := z - era * 146097 in
  let yoe := (doe - doe / 1460 + doe / 36524 - doe / 146096) / 365 in
  let doy := doe - (365 * yoe + yoe / 4 - yoe / 100) in
  let mp := (5 * doy + 2) / 153 in
  let d := doy - (153 * mp + 2) / 5 + 1 in
  let m := if mp <? 10 then mp + 3 else mp - 9 in
  let y := yoe + era * 400 in
  (if m <=? 2 then y + 1 else y, m, d).

(** [date.getFullYear()]. *)
Definition getFullYear (d : Date) : option Z :=
  match d with
  | MkDate t => let '(y, _, _) := civilFromDays (dayNumber t) in Some y
  | InvalidDate => None
  end.

(** [date.getMonth()], 0 for January. *)
Definition getMonth (d : Date) : option Z :=
  match d with
  | MkDate t => let '(_, m, _) := civilFromDays (dayNumber t) in Some (m - 1)
  | InvalidDate => None
  end.

(** [date.getDate()], the day of the month. *)
Definition getDate (d : Date) : option Z :=
  match d with
  | MkDate t => let '(_, _, dd) := civilFromDays (dayNumber t) in Some dd
  | InvalidDate => None
  end.

(** [new Date(year, month, day)] : local midnight.  A month outside 0..11
    carries into the year, a day outside the month carries into the
    following or preceding months, and a year from 0 to 99 stands for
    1900 + year. *)
Definition newDate (year : option Z) (month day : Z) : Date :=
  match year with
  | None => InvalidDate
  | Some y =>
      let yr := if (0 <=? y) && (y <=? 99) then 1900 + y else y in
      let ym := yr + month / 12 in
      let mn := month mod 12 in
      timeClip ((daysFromCivil ym (mn + 1) 1 + day - 1) * msPerDay)
  end.

(** [addDays(date, amount)] of date-fns. *)
Definition addDays (d : Date) (amount : option Z) : Date :=
  match d, amount with
  | MkDate t, Some n => timeClip (t + n * msPerDay)
  | _, _ => InvalidDate
  end.

(** [addWeeks(date, amount)] of date-fns. *)
Definition addWeeks (d : Date) (amount : Z) : Date :=
  addDays d (Some (amount * 7)).

(** [startOfWeek(date)] of date-fns, weeks starting on Sunday. *)
Definition startOfWeek (d : Date) : Date :=
  match d with
  | MkDate t =>
      let dn := dayNumber t in
      timeClip ((dn - weekDay dn) * msPerDay)
  | InvalidDate => InvalidDate
  end.

(** [endOfWeek(date)] of date-fns: the last millisecond of Saturday. *)
Definition endOfWeek (d : Date) : Date :=
  match d with
  | MkDate t =>
      let dn := dayNumber t in
      timeClip ((dn + (6 - weekDay dn)) * msPerDay + (msPerDay - 1))
  | InvalidDate => InvalidDate
  end.

(** [isAfter(a, b)] and [isBefore(a, b)] of date-fns compare time values; a
    comparison with NaN is false. *)
Definition isAfter (a b : Date) : bool :=
  match a, b with
  | MkDate x, MkDate y => y <? x
  | _, _ => false
  end.

Definition isBefore (a b : Date) : bool :=
  match a, b with
  | MkDate x, MkDate y => x <? y
  | _, _ => false
  end.

End DateFns.

(* ====================================================================== *)
(** ** Command parser                                                      *)
(* ====================================================================== *)

Module CommandParser.
Import JsString RegExp.

Record ParsedCommand : Type := {
  action : string;
  target : option string;
  params : list (string * string)
}.

Fixpoint param (key : string) (ps : list (string * string)) : option string :=
  match ps with
  | [] => None
  | (k, v) :: rest => if String.eqb k key then Some v else param key rest
  end.

(** [m[i]] for a group outside every optional part of its pattern: it is
    defined whenever the pattern matched. *)
Definition text (i : nat) (m : captures) : string :=
  match group i m with
  | Some s => s
  | None => ""
  end.

(** [m[i] || null]. *)
Definition orNull (o : option string) : option string :=
  match o with
  | Some EmptyString => None
  | other => other
  end.

(** [(?:'s?)?] *)
Definition possessive : re := opt (Cat (Lit "'") (opt (Lit "s"))).

(** [/move\s+(\d+)(?:'s?)?\s+(\w+)\s+(?:to\s+)?(.+)/i] *)
Definition moveRe : re :=
  cat [word "move"; plus space; Group 1 (plus digit); possessive; plus space;
       Group 2 (plus wordChar); plus space;
       opt (Cat (word "to") (plus space)); Group 3 (plus anyChar)].

(** [/what\s*(?:if|happens?\s*if)\s+(\d+)(?:'s?)?\s+(\w+)\s+(?:slips?\s+)?(?:to\s+)?(.+)/i] *)
Definition whatIfRe : re :=
  cat [word "what"; star space;
       Or (word "if") (cat [word "happen"; opt (Lit "s"); star space; word "if"]);
       plus space; Group 1 (plus digit); possessive; plus space;
       Group 2 (plus wordChar); plus space;
       opt (cat [word "slip"; opt (Lit "s"); plus space]);
       opt (Cat (word "to") (plus space)); Group 3 (plus anyChar)].

(** [/show\s+(?:me\s+)?(.+)/i] *)
Definition showRe : re :=
  cat [word "show"; plus space; opt (Cat (word "me") (plus space));
       Group 1 (plus anyChar)].

(** [(?:'s|s|\s+is)] *)
Definition whatIs : re :=
  Or (word "'s") (Or (Lit "s") (Cat (plus space) (word "is"))).

(** [/what(?:'s|s|\s+is)\s+blocking\s+(\d+)/i] *)
Definition blockingRe : re :=
  cat [word "what"; whatIs; plus space; word "blocking"; plus space;
       Group 1 (plus digit)].

(** [/what(?:'s|s|\s+is)\s+late/i] *)
Definition lateRe : re :=
  cat [word "what"; whatIs; plus space; word "late"].

(** [/list\s+(\w+)\s+(?:shots?\s+)?(?:for\s+)?(\d+)?/i] *)
Definition listRe : re :=
  cat [word "list"; plus space; Group 1 (plus wordChar); plus space;
       opt (cat [word "shot"; opt (Lit "s"); plus space]);
       opt (Cat (word "for") (plus space)); opt (Group 2 (plus digit))].

(** [parseCommand(input, _state)]: the alternatives are tried from top to
    bottom on the lower-cased, trimmed input; the state is not read. *)
Definition parseCommand (input : string) : ParsedCommand :=
  let normalized := trim (toLowerCase input) in
  match exec true 3 moveRe normalized with
  | Some moveMatch =>
      {| action := "move";
         target := group 1 moveMatch;
         params := [("milestoneCode", toUpperCase (text 2 moveMatch));
                    ("newDate", text 3 moveMatch)] |}
  | None =>
  match exec true 3 whatIfRe normalized with
  | Some whatIfMatch =>
      {| action := "what_if";
         target := group 1 whatIfMatch;
         params := [("milestoneCode", toUpperCase (text 2 whatIfMatch));
                    ("newDate", text 3 whatIfMatch)] |}
  | None =>
  match exec true 1 showRe normalized with
  | Some showMatch =>
      {| action := "show"; target := group 1 showMatch; params := [] |}
  | None =>
  match exec true 1 blockingRe normalized with
  | Some blockingMatch =>
      {| action := "blocking"; target := group 1 blockingMatch; params := [] |}
  | None =>
  match exec true 0 lateRe normalized with
  | Some _ =>
      {| action := "late"; target := None; params := [] |}
  | None =>
  match exec true 2 listRe normalized with
  | Some listMatch =>
      {| action := "list";
         target := orNull (group 2 listMatch);
         params := [("type", text 1 listMatch)] |}
  | None =>
      {| action := "unknown"; target := None; params := [("raw", input)] |}
  end end end end end end.

End CommandParser.

(* ====================================================================== *)
(** ** Date parser                                                         *)
(* ====================================================================== *)

Module DateParser.
Import JsString RegExp DateFns CommandParser.

(** Arithmetic on numbers that may be NaN. *)
Definition numSub (a b : option Z) : option Z :=
  match a, b with
  | Some x, Some y => Some (x - y)
  | _, _ => None
  end.

Definition numAdd (a : option Z) (b : Z) : option Z :=
  match a with
  | Some x => Some (x + b)
  | None => None
  end.

(** [n <= 0], false for NaN. *)
Definition numLeZero (a : option Z) : bool :=
  match a with
  | Some x => x <=? 0
  | None => false
  end.

(** [array.findIndex(p)], [None] for -1. *)
Fixpoint findIndexFrom {A : Type} (p : A -> bool) (l : list A) (i : Z) : option Z :=
  match l with
  | [] => None
  | x :: rest => if p x then Some i else findIndexFrom p rest (i + 1)
  end.

Definition findIndex {A : Type} (p : A -> bool) (l : list A) : option Z :=
  findIndexFrom p l 0.

Definition daysOfWeek : list string :=
  ["sunday"; "monday"; "tuesday"; "wednesday"; "thursday"; "friday"; "saturday"].

(** [/(\d{1,2})\/(\d{1,2})(?:\/(\d{2,4}))?/] *)
Definition slashRe : re :=
  cat [Group 1 (Quant digit 1 (Some 2%nat)); Lit "/";
       Group 2 (Quant digit 1 (Some 2%nat));
       opt (Cat (Lit "/") (Group 3 (Quant digit 2 (Some 4%nat))))].

Section Parser.
  (** [parseISO] of date-fns: [None] stands for a thrown exception, which the
      [try] block of the parser catches. *)
Variable parseISO : string -> option Date.

  (** [parseDateReference(dateStr, referenceDate)]; the default value of
      [referenceDate], the current time, is supplied by the callers. *)
Definition parseDateReference (dateStr : string) (referenceDate : Date)
    : option Date :=
    let normalized := trim (toLowerCase dateStr) in
    if String.eqb normalized "today" then Some referenceDate
    else if String.eqb normalized "tomorrow" then Some (addDays referenceDate (Some 1))
    else if String.eqb normalized "yesterday" then Some (addDays referenceDate (Some (-1)))
    else
      match findIndex (fun d => includes normalized d) daysOfWeek with
      | Some dayIndex =>
          let currentDay := getDay referenceDate in
          let daysToAdd := numSub (Some dayIndex) currentDay in
          let daysToAdd := if numLeZero daysToAdd then numAdd daysToAdd 7 else daysToAdd in
          let daysToAdd := if includes normalized "next" then numAdd daysToAdd 7 else daysToAdd in
          Some (addDays referenceDate daysToAdd)
      | None =>
          if includes normalized "next week" then Some (addWeeks referenceDate 1)
          else
            match exec false 3 slashRe normalized with
            | Some slashMatch =>
                let month := parseInt (text 1 slashMatch) - 1 in
                let day := parseInt (text 2 slashMatch) in
                let year :=
                  match orNull (group 3 slashMatch) with
                  | Some y =>
                      if Nat.eqb (String.length y) 2
                      then Some (2000 + parseInt y)
                      else Some (parseInt y)
                  | None => getFullYear referenceDate
                  end in
                Some (newDate year month day)
            | None =>
                match parseISO normalized with
                | Some parsed => if isNaN (getTime parsed) then None else Some parsed
                | None => None
                end
            end
      end.
End Parser.

End DateParser.

(* ====================================================================== *)
(** ** Data model ([types])                                                *)
(* ====================================================================== *)

(** One module per interface, so that fields keep their names.  Numbers that
    the store only carries around are integers here. *)

Module ProjectSettings.
Record t : Type := {
    defaultMilestoneTypes : option (list string);
    workWeekDays : option (list Z);
    timezone : option string
  }.
  (** The empty object [{}]. *)
Definition empty : t :=
    {| defaultMilestoneTypes := None; workWeekDays := None; timezone := None |}.
End ProjectSettings.

Module Project.
Import DateFns.
Inductive ProjectStatus := development | active | wrapped | archived.
Record t : Type := {
    id : string;
    organizationId : string;
    name : string;
    code : option string;
    seasonNumber : option Z;
    startDate : option Date;
    targetDeliveryDate : option Date;
    color : option string;
    status : ProjectStatus;
    settings : ProjectSettings.t;
    createdAt : Date;
    updatedAt : Date
  }.
End Project.

Module Episode.
Import DateFns.
Inductive EpisodeStatus := prep | shooting | active | locked | delivered.
Record t : Type := {
    id : string;
    projectId : string;
    number : string;
    title : option string;
    director : option string;
    editor : option string;
    currentTrt : option Z;
    storyTime : option Z;
    mainTitleDuration : option Z;
    prevOnDuration : option Z;
    targetRuntime : option Z;
    shootStartDate : option Date;
    shootEndDate : option Date;
    shootDays : option Z;
    sortOrder : Z;
    status : EpisodeStatus;
    createdAt : Date;
    updatedAt : Date
  }.
End Episode.

Module MilestoneType.
Import DateFns.
Record t : Type := {
    id : string;
    projectId : string;
    code : string;
    name : string;
    sortOrder : Z;
    defaultDurationDays : option Z;
    isHardDeadline : bool;
    color : option string;
    icon : option string;
    requiresCompletionOf : list string;
    createdAt : Date
  }.
End MilestoneType.

Module Milestone.
Import DateFns.
Inductive MilestoneStatus := scheduled | in_progress | completed | skipped.
Record t : Type := {
    id : string;
    episodeId : string;
    milestoneTypeId : string;
    scheduledDate : option Date;
    scheduledTime : option string;
    completedDate : option Date;
    completedAt : option Date;
    status : MilestoneStatus;
    notes : option string;
    createdAt : Date;
    updatedAt : Date;
    milestoneType : option MilestoneType.t;
    episode : option Episode.t
  }.

Definition statusEqb (a b : MilestoneStatus) : bool :=
    match a, b with
    | scheduled, scheduled | in_progress, in_progress
    | completed, completed | skipped, skipped => true
    | _, _ => false
    end.

  (** The text of a status in a template literal. *)
Definition statusText (a : MilestoneStatus) : string :=
    match a with
    | scheduled => "scheduled"
    | in_progress => "in_progress"
    | completed => "completed"
    | skipped => "skipped"
    end.

  (** [{ ...m, scheduledDate: d, updatedAt: now }] *)
Definition withSchedule (m : t) (d : Date) (now : Date) : t :=
    {| id := id m;
       episodeId := episodeId m;
       milestoneTypeId := milestoneTypeId m;
       scheduledDate := Some d;
       scheduledTime := scheduledTime m;
       completedDate := completedDate m;
       completedAt := completedAt m;
       status := status m;
       notes := notes m;
       createdAt := createdAt m;
       updatedAt := now;
       milestoneType := milestoneType m;
       episode := episode m |}.
End Milestone.

(** [Partial<Milestone>]: a key that is absent is [None]; an optional field
    can be present and [undefined], which is [Some None]. *)
Module MilestoneUpdates.
Import DateFns.
Record t : Type := {
  id : option string;
  episodeId : option string;
  milestoneTypeId : option string;
  scheduledDate : option (option Date);
  scheduledTime : option (option string);
  completedDate : option (option Date);
  completedAt : option (option Date);
  status : option Milestone.MilestoneStatus;
  notes : option (option string);
  createdAt : option Date;
  updatedAt : option Date;
  milestoneType : option (option MilestoneType.t);
  episode : option (option Episode.t)
}.

(** The empty object [{}]. *)
Definition none : t :=
  {| id := None; episodeId := None; milestoneTypeId := None;
     scheduledDate := None; scheduledTime := None; completedDate := None;
     completedAt := None; status := None; notes := None; createdAt := None;
     updatedAt := None; milestoneType := None; episode := None |}.

(** [{ scheduledDate: d }] *)
Definition schedule (d : Date) : t :=
  {| id := None; episodeId := None; milestoneTypeId := None;
     scheduledDate := Some (Some d); scheduledTime := None; completedDate := None;
     completedAt := None; status := None; notes := None; createdAt := None;
     updatedAt := None; milestoneType := None; episode := None |}.

(** One key of a spread: the update when present, the old value otherwise. *)
Definition pick {A : Type} (update : option A) (old : A) : A :=
  match update with
  | Some v => v
  | None => old
  end.

(** [{ ...m, ...updates, updatedAt: now }] *)
Definition apply (m : Milestone.t) (updates : t) (now : Date) : Milestone.t :=
  {| Milestone.id := pick (id updates) (Milestone.id m);
     Milestone.episodeId := pick (episodeId updates) (Milestone.episodeId m);
     Milestone.milestoneTypeId :=
       pick (milestoneTypeId updates) (Milestone.milestoneTypeId m);
     Milestone.scheduledDate := pick (scheduledDate updates) (Milestone.scheduledDate m);
     Milestone.scheduledTime := pick (scheduledTime updates) (Milestone.scheduledTime m);
     Milestone.completedDate := pick (completedDate updates) (Milestone.completedDate m);
     Milestone.completedAt := pick (completedAt updates) (Milestone.completedAt m);
     Milestone.status := pick (status updates) (Milestone.status m);
     Milestone.notes := pick (notes updates) (Milestone.notes m);
     Milestone.createdAt := pick (createdAt updates) (Milestone.createdAt m);
     Milestone.updatedAt := now;
     Milestone.milestoneType := pick (milestoneType updates) (Milestone.milestoneType m);
     Milestone.episode := pick (episode updates) (Milestone.episode m) |}.
End MilestoneUpdates.

(** [Omit<Milestone, 'id' | 'createdAt' | 'updatedAt'>], the argument of
    [createMilestone]. *)
Module NewMilestone.
Import DateFns.
Record t : Type := {
  episodeId : string;
  milestoneTypeId : string;
  scheduledDate : option Date;
  scheduledTime : option string;
  completedDate : option Date;
  completedAt : option Date;
  status : Milestone.MilestoneStatus;
  notes : option string;
  milestoneType : option MilestoneType.t;
  episode : option Episode.t
}.

(** [{ ...milestone, id, createdAt: now, updatedAt: now }] *)
Definition create (milestone : t) (id : string) (now : Date) : Milestone.t :=
  {| Milestone.id := id;
     Milestone.episodeId := episodeId milestone;
     Milestone.milestoneTypeId := milestoneTypeId milestone;
     Milestone.scheduledDate := scheduledDate milestone;
     Milestone.scheduledTime := scheduledTime milestone;
     Milestone.completedDate := completedDate milestone;
     Milestone.completedAt := completedAt milestone;
     Milestone.status := status milestone;
     Milestone.notes := notes milestone;
     Milestone.createdAt := now;
     Milestone.updatedAt := now;
     Milestone.milestoneType := milestoneType milestone;
     Milestone.episode := episode milestone |}.
End NewMilestone.

Module Department.
Import DateFns.
Record t : Type := {
    id : string; projectId : string; code : string; name : string;
    color : option string; sortOrder : Z; createdAt : Date
  }.
End Department.

Module Vendor.
Import DateFns.
Record t : Type := {
    id : string; organizationId : string; name : string;
    contactName : option string; contactEmail : option string;
    contactPhone : option string; notes : option string;
    createdAt : Date; updatedAt : Date
  }.
End Vendor.

Module WorkItem.
Import DateFns.
Inductive WorkItemStatus := pending | in_progress | review | approved | omitted.
Record t : Type := {
    id : string;
    episodeId : string;
    departmentId : option string;
    vendorId : option string;
    sceneNumbers : option string;
    sceneDescription : option string;
    workDescription : string;
    notes : option string;
    shootDate : option Date;
    requiresSupervision : bool;
    assignedTo : option string;
    dueDate : option Date;
    dueMilestoneId : option string;
    status : WorkItemStatus;
    currentVersion : Z;
    estimatedCost : option Z;
    actualCost : option Z;
    poNumber : option string;
    createdAt : Date;
    updatedAt : Date;
    department : option Department.t;
    vendor : option Vendor.t;
    episode : option Episode.t
  }.
Definition isApproved (a : WorkItemStatus) : bool :=
    match a with approved => true | _ => false end.
End WorkItem.

Module CrewPosition.
Import DateFns.
Record t : Type := {
    id : string; projectId : string; code : string; name : string;
    department : option string; sortOrder : Z;
    defaultWeeklyRate : option Z; createdAt : Date
  }.
End CrewPosition.

Module CrewMember.
Import DateFns.
Record t : Type := {
    id : string;
    projectId : string;
    positionId : option string;
    userId : option string;
    name : string;
    email : option string;
    phone : option string;
    startDate : option Date;
    endDate : option Date;
    weeklyRate : option Z;
    budgetedWeeks : option Z;
    actualWeeks : option Z;
    assignedEpisodeIds : option (list string);
    notes : option string;
    createdAt : Date;
    updatedAt : Date;
    position : option CrewPosition.t
  }.
End CrewMember.

Module Session.
Import DateFns.
Inductive SessionType := cut_review | spotting | mix | adr | color | qc | other.
Inductive SessionStatus := scheduled | confirmed | completed | cancelled.
Record t : Type := {
    id : string;
    projectId : string;
    name : string;
    sessionType : option SessionType;
    scheduledDate : Date;
    startTime : option string;
    endTime : option string;
    location : option string;
    episodeIds : option (list string);
    milestoneId : option string;
    attendees : option (list string);
    status : SessionStatus;
    notes : option string;
    createdAt : Date;
    updatedAt : Date
  }.
End Session.

Module CalendarEvent.
Import DateFns.
Inductive CalendarEventType := holiday | hold | block | note.
Record t : Type := {
    id : string;
    projectId : string;
    name : string;
    eventType : CalendarEventType;
    startDate : Date;
    endDate : option Date;
    affectsAll : bool;
    affectedCrewIds : option (list string);
    color : option string;
    notes : option string;
    createdAt : Date
  }.
End CalendarEvent.

Module DateRange.
Import DateFns.
Record t : Type := { start : Date; end_ : Date }.
End DateRange.

Module ScheduleConflict.
Inductive ConflictType := dependency | resource | deadline.
Inductive Severity := error | warning | info.
Record t : Type := {
    type : ConflictType;
    severity : Severity;
    message : string;
    affectedMilestones : list string;
    suggestedResolution : option string
  }.
Definition isError (c : t) : bool :=
    match severity c with error => true | _ => false end.
End ScheduleConflict.

(** [CommandResult]; the store never fills its [changes] and [preview]
    fields, which are left out. *)
Module CommandResult.
Record t : Type := {
    success : bool;
    message : string;
    conflicts : option (list ScheduleConflict.t)
  }.
End CommandResult.

Inductive ViewMode := gantt | grid | calendar | list_.

(** The data and user-interface fields of [PostProState]; its actions are
    the functions of the [Store] module. *)
Module PostProState.
Record t : Type := {
    currentProject : option Project.t;
    viewMode : ViewMode;
    dateRange : DateRange.t;
    selectedEpisodeId : option string;
    selectedMilestoneId : option string;
    episodes : list Episode.t;
    milestones : list Milestone.t;
    milestoneTypes : list MilestoneType.t;
    workItems : list WorkItem.t;
    calendarEvents : list CalendarEvent.t;
    crewMembers : list CrewMember.t;
    sessions : list Session.t;
    isLoading : bool;
    isSaving : bool;
    error : option string;
    showOnboarding : bool
  }.

  (** [set({ milestones })] *)
Definition setMilestones (st : t) (ms : list Milestone.t) : t :=
    {| currentProject := currentProject st; viewMode := viewMode st;
       dateRange := dateRange st; selectedEpisodeId := selectedEpisodeId st;
       selectedMilestoneId := selectedMilestoneId st; episodes := episodes st;
       milestones := ms; milestoneTypes := milestoneTypes st;
       workItems := workItems st; calendarEvents := calendarEvents st;
       crewMembers := crewMembers st; sessions := sessions st;
       isLoading := isLoading st; isSaving := isSaving st; error := error st;
       showOnboarding := showOnboarding st |}.

  (** [set({ dateRange })] *)
Definition setDateRange (st : t) (r : DateRange.t) : t :=
    {| currentProject := currentProject st; viewMode := viewMode st;
       dateRange := r; selectedEpisodeId := selectedEpisodeId st;
       selectedMilestoneId := selectedMilestoneId st; episodes := episodes st;
       milestones := milestones st; milestoneTypes := milestoneTypes st;
       workItems := workItems st; calendarEvents := calendarEvents st;
       crewMembers := crewMembers st; sessions := sessions st;
       isLoading := isLoading st; isSaving := isSaving st; error := error st;
       showOnboarding := showOnboarding st |}.

  (** [set({ selectedEpisodeId })] *)
Definition selectEpisode (st : t) (id : option string) : t :=
    {| currentProject := currentProject st; viewMode := viewMode st;
       dateRange := dateRange st; selectedEpisodeId := id;
       selectedMilestoneId := selectedMilestoneId st; episodes := episodes st;
       milestones := milestones st; milestoneTypes := milestoneTypes st;
       workItems := workItems st; calendarEvents := calendarEvents st;
       crewMembers := crewMembers st; sessions := sessions st;
       isLoading := isLoading st; isSaving := isSaving st; error := error st;
       showOnboarding := showOnboarding st |}.

(** [set({ isLoading, error })] *)
Definition setLoading (st : t) (loading : bool) (err : option string) : t :=
  {| currentProject := currentProject st; viewMode := viewMode st;
     dateRange := dateRange st; selectedEpisodeId := selectedEpisodeId st;
     selectedMilestoneId := selectedMilestoneId st; episodes := episodes st;
     milestones := milestones st; milestoneTypes := milestoneTypes st;
     workItems := workItems st; calendarEvents := calendarEvents st;
     crewMembers := crewMembers st; sessions := sessions st;
     isLoading := loading; isSaving := isSaving st; error := err;
     showOnboarding := showOnboarding st |}.
End PostProState.

(* ====================================================================== *)
(** ** Dependency checker                                                  *)
(* ====================================================================== *)

Module DependencyChecker.
Import DateFns.

(** [array.push(x)] *)
Definition push {A : Type} (array : list A) (x : A) : list A :=
  (array ++ [x])%list.

Section Checker.
  (** [date.toLocaleDateString()], which depends on the locale of the host. *)
Variable toLocaleDateString : Date -> string.

  (** The conflict pushed for a prerequisite scheduled after the new date. *)
Definition prerequisiteConflict (milestone : Milestone.t)
             (milestoneType : MilestoneType.t) (prereqCode : string)
             (prereqMilestone : Milestone.t) (scheduled : Date)
    : ScheduleConflict.t :=
    {| ScheduleConflict.type := ScheduleConflict.dependency;
       ScheduleConflict.severity := ScheduleConflict.error;
       ScheduleConflict.message :=
         MilestoneType.code milestoneType ++ " cannot be before " ++ prereqCode
         ++ " (scheduled " ++ toLocaleDateString scheduled ++ ")";
       ScheduleConflict.affectedMilestones :=
         [Milestone.id milestone; Milestone.id prereqMilestone];
       ScheduleConflict.suggestedResolution :=
         Some ("Move " ++ prereqCode ++ " earlier or schedule "
               ++ MilestoneType.code milestoneType ++ " after "
               ++ toLocaleDateString scheduled) |}.

  (** The conflict pushed for a dependent scheduled before the new date. *)
Definition dependentConflict (milestone : Milestone.t) (newDate : Date)
             (depType : MilestoneType.t) (depMilestone : Milestone.t)
             (scheduled : Date) : ScheduleConflict.t :=
    {| ScheduleConflict.type := ScheduleConflict.dependency;
       ScheduleConflict.severity := ScheduleConflict.warning;
       ScheduleConflict.message :=
         "This will require moving " ++ MilestoneType.code depType
         ++ " (currently " ++ toLocaleDateString scheduled ++ ")";
       ScheduleConflict.affectedMilestones :=
         [Milestone.id milestone; Milestone.id depMilestone];
       ScheduleConflict.suggestedResolution :=
         Some (MilestoneType.code depType ++ " will cascade to after "
               ++ toLocaleDateString newDate) |}.

  (** [state.milestones.find(m => m.episodeId === episodeId &&
      m.milestoneTypeId === typeId)] *)
Definition findMilestone (state : PostProState.t) (episodeId typeId : string)
    : option Milestone.t :=
    find (fun m => String.eqb (Milestone.episodeId m) episodeId
                   && String.eqb (Milestone.milestoneTypeId m) typeId)
         (PostProState.milestones state).

  (** Body of the first loop: one prerequisite code, [conflicts] being the
      array built so far. *)
Definition checkPrerequisite (milestone : Milestone.t) (newDate : Date)
             (state : PostProState.t) (milestoneType : MilestoneType.t)
             (conflicts : list ScheduleConflict.t) (prereqCode : string)
    : list ScheduleConflict.t :=
    match find (fun mt => String.eqb (MilestoneType.code mt) prereqCode)
               (PostProState.milestoneTypes state) with
    | None => conflicts
    | Some prereqType =>
        match findMilestone state (Milestone.episodeId milestone)
                            (MilestoneType.id prereqType) with
        | Some prereqMilestone =>
            match Milestone.scheduledDate prereqMilestone with
            | Some scheduled =>
                if isAfter scheduled newDate
                then push conflicts
                          (prerequisiteConflict milestone milestoneType
                             prereqCode prereqMilestone scheduled)
                else conflicts
            | None => conflicts
            end
        | None => conflicts
        end
    end.

  (** Body of the second loop: one dependent type. *)
Definition checkDependent (milestone : Milestone.t) (newDate : Date)
             (state : PostProState.t)
             (conflicts : list ScheduleConflict.t) (depType : MilestoneType.t)
    : list ScheduleConflict.t :=
    match findMilestone state (Milestone.episodeId milestone)
                        (MilestoneType.id depType) with
    | Some depMilestone =>
        match Milestone.scheduledDate depMilestone with
        | Some scheduled =>
            if isBefore scheduled newDate
            then push conflicts
                      (dependentConflict milestone newDate depType
                         depMilestone scheduled)
            else conflicts
        | None => conflicts
        end
    | None => conflicts
    end.

  (** [checkDependencies(milestone, newDate, state)] *)
Definition checkDependencies (milestone : Milestone.t) (newDate : Date)
             (state : PostProState.t) : list ScheduleConflict.t :=
    let conflicts := [] in
    match find (fun mt => String.eqb (MilestoneType.id mt)
                                     (Milestone.milestoneTypeId milestone))
               (PostProState.milestoneTypes state) with
    | None => conflicts
    | Some milestoneType =>
        let prerequisites := MilestoneType.requiresCompletionOf milestoneType in
        let conflicts :=
          fold_left (checkPrerequisite milestone newDate state milestoneType)
                    prerequisites conflicts in
        let dependents :=
          filter (fun mt => existsb (String.eqb (MilestoneType.code milestoneType))
                                    (MilestoneType.requiresCompletionOf mt))
                 (PostProState.milestoneTypes state) in
        fold_left (checkDependent milestone newDate state) dependents conflicts
    end.
End Checker.

End DependencyChecker.

(* ====================================================================== *)
(** ** The backend, as the store sees it                                   *)
(* ====================================================================== *)

Module Api.

(** Outcome of an awaited request: the resolved value, or the rejection with
    the message of the thrown [Error] if it is one. *)
Inductive Reply (T : Type) : Type :=
| Resolved (value : T)
| Rejected (message : option string).
Arguments Resolved {T} value.
Arguments Rejected {T} message.

(** The JSON of a project as [api.projects.get] returns it; dates are still
    strings. *)
Record RawEpisode : Type := {
  ep_id : string; ep_project_id : string; ep_number : string;
  ep_title : option string; ep_director : option string;
  ep_editor : option string; ep_sort_order : Z;
  ep_status : Episode.EpisodeStatus;
  ep_created_at : string; ep_updated_at : string
}.

Record RawMilestone : Type := {
  m_id : string; m_episode_id : string; m_milestone_type_id : string;
  m_scheduled_date : option string;
  m_status : Milestone.MilestoneStatus; m_notes : option string;
  m_created_at : string; m_updated_at : string
}.

Record RawMilestoneType : Type := {
  mt_id : string; mt_project_id : string; mt_code : string; mt_name : string;
  mt_sort_order : Z; mt_is_hard_deadline : bool;
  mt_requires_completion_of : option (list string);
  mt_created_at : string
}.

Record RawCalendarEvent : Type := {
  ce_id : string; ce_project_id : string; ce_name : string;
  ce_event_type : CalendarEvent.CalendarEventType;
  ce_start_date : string; ce_end_date : option string;
  ce_affects_all : bool; ce_created_at : string
}.

Record RawProject : Type := {
  id : string; organization_id : string; name : string;
  code : option string; season_number : option Z;
  status : Project.ProjectStatus;
  settings : option ProjectSettings.t;
  created_at : string; updated_at : string;
  episodes : option (list RawEpisode);
  milestones : option (list RawMilestone);
  milestone_types : option (list RawMilestoneType);
  calendar_events : option (list RawCalendarEvent)
}.

(** The answer of [api.command]; the entries of [changes] are opaque to the
    store, which only looks at their number. *)
Record CommandResponse : Type := {
  intent : string;
  response : string;
  success : bool;
  changes : option (list string);
  clarificationNeeded : option string
}.

(** [x || []] *)
Definition orEmpty {A : Type} (o : option (list A)) : list A :=
  match o with
  | Some l => l
  | None => []
  end.

(** A string used as a condition: [undefined] and the empty string are
    falsy. *)
Definition truthy (o : option string) : option string :=
  match o with
  | Some EmptyString => None
  | other => other
  end.

(** A number used as a condition, as in [n || undefined]: [undefined], NaN
    and 0 are falsy. *)
Definition truthyNumber (n : option Z) : option Z :=
  match n with
  | Some 0 => None
  | other => other
  end.

End Api.

(* ====================================================================== *)
(** ** Store actions                                                       *)
(* ====================================================================== *)

Module Store.
Import JsString RegExp DateFns CommandParser DateParser DependencyChecker Api.

(** The argument of [createProjectFromOnboarding]. *)
Record OnboardingMilestoneType : Type := {
  o_code : string; o_name : string; o_sortOrder : Z;
  o_isHardDeadline : option bool;
  o_requiresCompletionOf : option (list string);
  o_color : option string
}.

Record OnboardingData : Type := {
  projectName : string;
  projectCode : string;
  seasonNumber : option Z;
  episodeCount : nat;
  episodePrefix : string;
  episodeStartNumber : Z;
  defaultEditor : string;
  onboardingMilestoneTypes : list OnboardingMilestoneType;
  workWeekDays : list Z;
  timezone : string
}.

(** A number in a template literal. *)
Definition numText (z : Z) : string := NilEmpty.string_of_int (Z.to_int z).

(** [${episode?.number}] and [${milestoneType?.code}] *)
Definition numberText (e : option Episode.t) : string :=
  match e with
  | Some ep => Episode.number ep
  | None => "undefined"
  end.

Definition codeText (mt : option MilestoneType.t) : string :=
  match mt with
  | Some t => MilestoneType.code t
  | None => "undefined"
  end.

Definition result (success : bool) (message : string)
           (conflicts : option (list ScheduleConflict.t)) : CommandResult.t :=
  {| CommandResult.success := success;
     CommandResult.message := message;
     CommandResult.conflicts := conflicts |}.

(** [/(\d+)/] *)
Definition digitsRe : re := Group 1 (plus digit).

(** The catalog, episodes, milestones and calendar events of the demo
    project, built from the current time. *)
Definition demoProjectId : string := "demo-project".

Definition demoType (id code name : string) (sortOrder : Z) (hard : bool)
           (requires : list string) (now : Date) : MilestoneType.t :=
  {| MilestoneType.id := id; MilestoneType.projectId := demoProjectId;
     MilestoneType.code := code; MilestoneType.name := name;
     MilestoneType.sortOrder := sortOrder;
     MilestoneType.defaultDurationDays := None;
     MilestoneType.isHardDeadline := hard;
     MilestoneType.color := None; MilestoneType.icon := None;
     MilestoneType.requiresCompletionOf := requires;
     MilestoneType.createdAt := now |}.

Definition demoMilestoneTypes (now : Date) : list MilestoneType.t :=
  [ demoType "mt-ec" "EC" "Editor's Cut" 1 false [] now;
    demoType "mt-dc" "DC" "Director's Cut" 2 false ["EC"] now;
    demoType "mt-nc1" "NC1" "Network Cut 1" 3 false ["DC"] now;
    demoType "mt-nc2" "NC2" "Network Cut 2" 4 false ["NC1"] now;
    demoType "mt-fpl" "FPL" "Final Picture Lock" 5 true ["NC2"] now;
    demoType "mt-ms" "M/S" "Music/Sound Spotting" 6 false ["FPL"] now;
    demoType "mt-cc" "CC" "Color Correction" 7 false ["FPL"] now;
    demoType "mt-mix" "MIX" "Final Mix" 8 false ["M/S"; "CC"] now;
    demoType "mt-qc" "QC" "Quality Control" 9 false ["MIX"] now;
    demoType "mt-d" "D" "Delivery" 10 true ["QC"] now ].

Definition demoEpisode (now : Date) (i : nat) : Episode.t :=
  {| Episode.id := "ep-" ++ ofNat (i + 1);
     Episode.projectId := demoProjectId;
     Episode.number := ofNat (301 + i);
     Episode.title := Some "";
     Episode.director := Some "Garcia";
     Episode.editor := Some (if Nat.even i then "Marrinson" else "Maddox");
     Episode.currentTrt := None; Episode.storyTime := None;
     Episode.mainTitleDuration := None; Episode.prevOnDuration := None;
     Episode.targetRuntime := None; Episode.shootStartDate := None;
     Episode.shootEndDate := None; Episode.shootDays := None;
     Episode.sortOrder := Z.of_nat i;
     Episode.status := Episode.active;
     Episode.createdAt := now; Episode.updatedAt := now |}.

Definition demoEpisodes (now : Date) : list Episode.t :=
  map (demoEpisode now) (seq 0 10).

(** [array.map((x, index) => f(x, index))] *)
Fixpoint mapi {A B : Type} (f : A -> nat -> B) (l : list A) (i : nat) : list B :=
  match l with
  | [] => []
  | x :: rest => f x i :: mapi f rest (S i)
  end.

Definition demoMilestone (now : Date) (ep : Episode.t) (epIndex : nat)
           (mt : MilestoneType.t) (mtIndex : nat) : Milestone.t :=
  let daysOffset := Z.of_nat (epIndex * 3 + mtIndex * 7) in
  {| Milestone.id := "ms-" ++ Episode.id ep ++ "-" ++ MilestoneType.id mt;
     Milestone.episodeId := Episode.id ep;
     Milestone.milestoneTypeId := MilestoneType.id mt;
     Milestone.scheduledDate := Some (addDays now (Some daysOffset));
     Milestone.scheduledTime := None; Milestone.completedDate := None;
     Milestone.completedAt := None;
     Milestone.status := Milestone.scheduled;
     Milestone.notes := None;
     Milestone.createdAt := now; Milestone.updatedAt := now;
     Milestone.milestoneType := None; Milestone.episode := None |}.

Definition demoMilestones (now : Date) : list Milestone.t :=
  List.concat (mapi (fun ep epIndex =>
                       mapi (fun mt mtIndex => demoMilestone now ep epIndex mt mtIndex)
                            (demoMilestoneTypes now) 0)
                    (demoEpisodes now) 0).

Definition demoEvent (id name : string) (kind : CalendarEvent.CalendarEventType)
           (startDate endDate now : Date) : CalendarEvent.t :=
  {| CalendarEvent.id := id; CalendarEvent.projectId := demoProjectId;
     CalendarEvent.name := name; CalendarEvent.eventType := kind;
     CalendarEvent.startDate := startDate;
     CalendarEvent.endDate := Some endDate;
     CalendarEvent.affectsAll := true;
     CalendarEvent.affectedCrewIds := None; CalendarEvent.color := None;
     CalendarEvent.notes := None; CalendarEvent.createdAt := now |}.

Definition demoCalendarEvents (now : Date) : list CalendarEvent.t :=
  [ demoEvent "ce-1" "Thanksgiving" CalendarEvent.holiday
              (addDays now (Some 21)) (addDays now (Some 24)) now;
    demoEvent "ce-2" "Winter Break" CalendarEvent.hold
              (addDays now (Some 45)) (addDays now (Some 52)) now ].

Definition demoProject (now : Date) : Project.t :=
  {| Project.id := demoProjectId; Project.organizationId := "demo-org";
     Project.name := "Demo Show"; Project.code := Some "DEMO";
     Project.seasonNumber := Some 3;
     Project.startDate := None; Project.targetDeliveryDate := None;
     Project.color := None; Project.status := Project.active;
     Project.settings := ProjectSettings.empty;
     Project.createdAt := now; Project.updatedAt := now |}.

(** [loadDemoData()], [now] being the current time. *)
Definition loadDemoData (now : Date) (state : PostProState.t) : PostProState.t :=
  {| PostProState.currentProject := Some (demoProject now);
     PostProState.viewMode := PostProState.viewMode state;
     PostProState.dateRange := PostProState.dateRange state;
     PostProState.selectedEpisodeId := PostProState.selectedEpisodeId state;
     PostProState.selectedMilestoneId := PostProState.selectedMilestoneId state;
     PostProState.episodes := demoEpisodes now;
     PostProState.milestones := demoMilestones now;
     PostProState.milestoneTypes := demoMilestoneTypes now;
     PostProState.workItems := [];
     PostProState.calendarEvents := demoCalendarEvents now;
     PostProState.crewMembers := [];
     PostProState.sessions := [];
     PostProState.isLoading := false;
     PostProState.isSaving := PostProState.isSaving state;
     PostProState.error := PostProState.error state;
     PostProState.showOnboarding := PostProState.showOnboarding state |}.

(** [updateMilestone(id, updates)] *)
Definition updateMilestone (now : Date) (id : string) (updates : MilestoneUpdates.t)
           (state : PostProState.t) : PostProState.t :=
  PostProState.setMilestones state
    (map (fun m => if String.eqb (Milestone.id m) id
                   then MilestoneUpdates.apply m updates now
                   else m)
         (PostProState.milestones state)).

(** [createMilestone(milestone)]; [uuid] is the value of
    [crypto.randomUUID()]. *)
Definition createMilestone (now : Date) (uuid : string) (milestone : NewMilestone.t)
           (state : PostProState.t) : PostProState.t :=
  PostProState.setMilestones state
    (PostProState.milestones state ++ [NewMilestone.create milestone uuid now])%list.

Section Actions.
Variable toLocaleDateString : Date -> string.
Variable parseISO : string -> option Date.
  (** [new Date(text)] on a date of the backend's JSON. *)
Variable dateOfJson : string -> Date.
  (** The requests of the API client. *)
Variable api_projects_get : string -> Reply RawProject.
Variable api_command : string -> string -> option string -> Reply CommandResponse.
Variable api_projects_create : OnboardingData -> Reply string.
Variable api_milestoneTypes_create : string -> OnboardingMilestoneType -> Reply unit.

  (** [moveMilestone(id, newDate)]: the state after the call and the
      result. *)
Definition moveMilestone (now : Date) (id : string) (newDate : Date)
             (state : PostProState.t) : PostProState.t * CommandResult.t :=
    match find (fun m => String.eqb (Milestone.id m) id)
               (PostProState.milestones state) with
    | None => (state, result false "Milestone not found" None)
    | Some milestone =>
        let conflicts := checkDependencies toLocaleDateString milestone newDate state in
        let hasErrors := existsb ScheduleConflict.isError conflicts in
        if hasErrors then
          (state, result false "Cannot move milestone due to dependency conflicts"
                         (Some conflicts))
        else
          let state' :=
            PostProState.setMilestones state
              (map (fun m => if String.eqb (Milestone.id m) id
                             then Milestone.withSchedule m newDate now
                             else m)
                   (PostProState.milestones state)) in
          let milestoneType :=
            find (fun mt => String.eqb (MilestoneType.id mt)
                                       (Milestone.milestoneTypeId milestone))
                 (PostProState.milestoneTypes state) in
          let episode :=
            find (fun e => String.eqb (Episode.id e) (Milestone.episodeId milestone))
                 (PostProState.episodes state) in
          (state',
           result true
                  ("Moved " ++ numberText episode ++ " " ++ codeText milestoneType
                   ++ " to " ++ toLocaleDateString newDate)
                  (if Nat.ltb 0 (List.length conflicts) then Some conflicts else None))
    end.

(** [fetchProjectData(projectId)]: the project of the backend, or the demo
    data when the request fails. *)
Definition fetchedEpisode (ep : RawEpisode) : Episode.t :=
  {| Episode.id := ep_id ep;
     Episode.projectId := ep_project_id ep;
     Episode.number := ep_number ep;
     Episode.title :=
       Some (match truthy (ep_title ep) with Some t => t | None => "" end);
     Episode.director := ep_director ep;
     Episode.editor := ep_editor ep;
     Episode.currentTrt := None; Episode.storyTime := None;
     Episode.mainTitleDuration := None; Episode.prevOnDuration := None;
     Episode.targetRuntime := None; Episode.shootStartDate := None;
     Episode.shootEndDate := None; Episode.shootDays := None;
     Episode.sortOrder := ep_sort_order ep;
     Episode.status := ep_status ep;
     Episode.createdAt := dateOfJson (ep_created_at ep);
     Episode.updatedAt := dateOfJson (ep_updated_at ep) |}.

Definition fetchedMilestone (m : RawMilestone) : Milestone.t :=
  {| Milestone.id := m_id m;
     Milestone.episodeId := m_episode_id m;
     Milestone.milestoneTypeId := m_milestone_type_id m;
     Milestone.scheduledDate := option_map dateOfJson (truthy (m_scheduled_date m));
     Milestone.scheduledTime := None; Milestone.completedDate := None;
     Milestone.completedAt := None;
     Milestone.status := m_status m;
     Milestone.notes := m_notes m;
     Milestone.createdAt := dateOfJson (m_created_at m);
     Milestone.updatedAt := dateOfJson (m_updated_at m);
     Milestone.milestoneType := None; Milestone.episode := None |}.

Definition fetchedMilestoneType (mt : RawMilestoneType) : MilestoneType.t :=
  {| MilestoneType.id := mt_id mt;
     MilestoneType.projectId := mt_project_id mt;
     MilestoneType.code := mt_code mt;
     MilestoneType.name := mt_name mt;
     MilestoneType.sortOrder := mt_sort_order mt;
     MilestoneType.defaultDurationDays := None;
     MilestoneType.isHardDeadline := mt_is_hard_deadline mt;
     MilestoneType.color := None; MilestoneType.icon := None;
     MilestoneType.requiresCompletionOf := orEmpty (mt_requires_completion_of mt);
     MilestoneType.createdAt := dateOfJson (mt_created_at mt) |}.

Definition fetchedCalendarEvent (ce : RawCalendarEvent) : CalendarEvent.t :=
  {| CalendarEvent.id := ce_id ce;
     CalendarEvent.projectId := ce_project_id ce;
     CalendarEvent.name := ce_name ce;
     CalendarEvent.eventType := ce_event_type ce;
     CalendarEvent.startDate := dateOfJson (ce_start_date ce);
     CalendarEvent.endDate := option_map dateOfJson (truthy (ce_end_date ce));
     CalendarEvent.affectsAll := ce_affects_all ce;
     CalendarEvent.affectedCrewIds := None; CalendarEvent.color := None;
     CalendarEvent.notes := None;
     CalendarEvent.createdAt := dateOfJson (ce_created_at ce) |}.

Definition fetchedProject (project : RawProject) : Project.t :=
  {| Project.id := Api.id project;
     Project.organizationId := organization_id project;
     Project.name := Api.name project;
     Project.code := Api.code project;
     Project.seasonNumber := season_number project;
     Project.startDate := None; Project.targetDeliveryDate := None;
     Project.color := None;
     Project.status := Api.status project;
     Project.settings :=
       match Api.settings project with
       | Some s => s
       | None => ProjectSettings.empty
       end;
     Project.createdAt := dateOfJson (created_at project);
     Project.updatedAt := dateOfJson (updated_at project) |}.

Definition fetchProjectData (now : Date) (projectId : string)
           (state : PostProState.t) : PostProState.t :=
  match api_projects_get projectId with
  | Resolved project =>
      {| PostProState.currentProject := Some (fetchedProject project);
         PostProState.viewMode := PostProState.viewMode state;
         PostProState.dateRange := PostProState.dateRange state;
         PostProState.selectedEpisodeId := PostProState.selectedEpisodeId state;
         PostProState.selectedMilestoneId := PostProState.selectedMilestoneId state;
         PostProState.episodes := map fetchedEpisode (orEmpty (Api.episodes project));
         PostProState.milestones :=
           map fetchedMilestone (orEmpty (Api.milestones project));
         PostProState.milestoneTypes :=
           map fetchedMilestoneType (orEmpty (milestone_types project));
         PostProState.workItems := [];
         PostProState.calendarEvents :=
           map fetchedCalendarEvent (orEmpty (calendar_events project));
         PostProState.crewMembers := [];
         PostProState.sessions := [];
         PostProState.isLoading := false;
         PostProState.isSaving := PostProState.isSaving state;
         PostProState.error := PostProState.error state;
         PostProState.showOnboarding := PostProState.showOnboarding state |}
  | Rejected _ => loadDemoData now state
  end.

(** The catalog and the episodes that [createProjectFromOnboarding] builds
    locally when the backend cannot be reached. *)
Definition onboardedMilestoneType (projectId : string) (now : Date)
           (mt : OnboardingMilestoneType) (idx : nat) : MilestoneType.t :=
  {| MilestoneType.id := "mt-" ++ o_code mt ++ "-" ++ ofNat idx;
     MilestoneType.projectId := projectId;
     MilestoneType.code := o_code mt;
     MilestoneType.name := o_name mt;
     MilestoneType.sortOrder := o_sortOrder mt;
     MilestoneType.defaultDurationDays := None;
     MilestoneType.isHardDeadline :=
       match o_isHardDeadline mt with Some b => b | None => false end;
     MilestoneType.color := o_color mt;
     MilestoneType.icon := None;
     MilestoneType.requiresCompletionOf := orEmpty (o_requiresCompletionOf mt);
     MilestoneType.createdAt := now |}.

(** The episode of index [i].  Its number is the prefix followed by
    [episodeStartNumber + i], an exact sum as long as it stays below 2^53. *)
Definition onboardedEpisode (projectId : string) (now : Date)
           (onboardingData : OnboardingData) (i : nat) : Episode.t :=
  {| Episode.id := "ep-" ++ ofNat (i + 1);
     Episode.projectId := projectId;
     Episode.number :=
       episodePrefix onboardingData
       ++ numText (episodeStartNumber onboardingData + Z.of_nat i);
     Episode.title := Some "";
     Episode.director := None;
     Episode.editor := truthy (Some (defaultEditor onboardingData));
     Episode.currentTrt := None; Episode.storyTime := None;
     Episode.mainTitleDuration := None; Episode.prevOnDuration := None;
     Episode.targetRuntime := None; Episode.shootStartDate := None;
     Episode.shootEndDate := None; Episode.shootDays := None;
     Episode.sortOrder := Z.of_nat i;
     Episode.status := Episode.active;
     Episode.createdAt := now; Episode.updatedAt := now |}.

Definition isResolved {T : Type} (r : Reply T) : bool :=
  match r with
  | Resolved _ => true
  | Rejected _ => false
  end.

(** [createProjectFromOnboarding(onboardingData)]; [now] must be a valid
    date, being the current time. *)
Definition createProjectFromOnboarding (now : Date)
           (onboardingData : OnboardingData) (state : PostProState.t)
  : PostProState.t :=
  let created :=
    match api_projects_create onboardingData with
    | Resolved projectId =>
        if forallb (fun mt => isResolved (api_milestoneTypes_create projectId mt))
                   (onboardingMilestoneTypes onboardingData)
        then Some projectId else None
    | Rejected _ => None
    end in
  match created with
  | Some projectId =>
      let loaded := fetchProjectData now projectId state in
      {| PostProState.currentProject := PostProState.currentProject loaded;
         PostProState.viewMode := PostProState.viewMode loaded;
         PostProState.dateRange := PostProState.dateRange loaded;
         PostProState.selectedEpisodeId := PostProState.selectedEpisodeId loaded;
         PostProState.selectedMilestoneId := PostProState.selectedMilestoneId loaded;
         PostProState.episodes := PostProState.episodes loaded;
         PostProState.milestones := PostProState.milestones loaded;
         PostProState.milestoneTypes := PostProState.milestoneTypes loaded;
         PostProState.workItems := PostProState.workItems loaded;
         PostProState.calendarEvents := PostProState.calendarEvents loaded;
         PostProState.crewMembers := PostProState.crewMembers loaded;
         PostProState.sessions := PostProState.sessions loaded;
         PostProState.isLoading := PostProState.isLoading loaded;
         PostProState.isSaving := false;
         PostProState.error := None;
         PostProState.showOnboarding := false |}
  | None =>
      let projectId :=
        "project-" ++ match getTime now with Some t => numText t | None => "NaN" end in
      {| PostProState.currentProject :=
           Some {| Project.id := projectId;
                   Project.organizationId := "default-org";
                   Project.name := projectName onboardingData;
                   Project.code := Some (projectCode onboardingData);
                   Project.seasonNumber := truthyNumber (seasonNumber onboardingData);
                   Project.startDate := None;
                   Project.targetDeliveryDate := None;
                   Project.color := None;
                   Project.status := Project.active;
                   Project.settings :=
                     {| ProjectSettings.defaultMilestoneTypes := None;
                        ProjectSettings.workWeekDays :=
                          Some (workWeekDays onboardingData);
                        ProjectSettings.timezone :=
                          Some (timezone onboardingData) |};
                   Project.createdAt := now;
                   Project.updatedAt := now |};
         PostProState.viewMode := PostProState.viewMode state;
         PostProState.dateRange := PostProState.dateRange state;
         PostProState.selectedEpisodeId := PostProState.selectedEpisodeId state;
         PostProState.selectedMilestoneId := PostProState.selectedMilestoneId state;
         PostProState.episodes :=
           map (onboardedEpisode projectId now onboardingData)
               (seq 0 (episodeCount onboardingData));
         PostProState.milestones := [];
         PostProState.milestoneTypes :=
           mapi (onboardedMilestoneType projectId now)
                (onboardingMilestoneTypes onboardingData) 0;
         PostProState.workItems := [];
         PostProState.calendarEvents := [];
         PostProState.crewMembers := [];
         PostProState.sessions := [];
         PostProState.isLoading := PostProState.isLoading state;
         PostProState.isSaving := false;
         PostProState.error := None;
         PostProState.showOnboarding := false |}
  end.

(** The lookups shared by the [move] and [what_if] cases. *)
Definition findEpisode (state : PostProState.t) (target : option string)
  : option Episode.t :=
  find (fun e => includes (Episode.number e)
                          (match truthy target with Some t => t | None => "" end))
       (PostProState.episodes state).

Definition findTypeByCode (state : PostProState.t) (code : option string)
  : option MilestoneType.t :=
  find (fun mt => match code with
                  | Some c => String.eqb (MilestoneType.code mt) c
                  | None => false
                  end)
       (PostProState.milestoneTypes state).

(** [${parsed.target}] and [${parsed.params.x}] in a message. *)
Definition optText (o : option string) (ifNull : string) : string :=
  match o with
  | Some s => s
  | None => ifNull
  end.

(** Resolution of the episode, the milestone type, the milestone and the
    date of a command: the resolved values, or the failure reported to the
    user.  The [move] and [what_if] cases of [processCommand] start with the
    same four lookups and the same four failure results, written once
    here. *)
Definition resolveTarget (now : Date) (parsed : ParsedCommand)
           (state : PostProState.t)
  : (Episode.t * MilestoneType.t * Milestone.t * Date) + CommandResult.t :=
  match findEpisode state (target parsed) with
  | None =>
      inr (result false ("Episode " ++ optText (target parsed) "null" ++ " not found")
                  None)
  | Some episode =>
      match findTypeByCode state (param "milestoneCode" (params parsed)) with
      | None =>
          inr (result false
                      ("Unknown milestone type: "
                       ++ optText (param "milestoneCode" (params parsed)) "undefined")
                      None)
      | Some milestoneType =>
          match findMilestone state (Episode.id episode)
                              (MilestoneType.id milestoneType) with
          | None =>
              inr (result false
                          (Episode.number episode ++ " doesn't have a "
                           ++ MilestoneType.code milestoneType ++ " scheduled")
                          None)
          | Some milestone =>
              match parseDateReference parseISO
                      (optText (param "newDate" (params parsed)) "") now with
              | None =>
                  inr (result false
                              ("Couldn't understand date: " ++ quoted
                                 (optText (param "newDate" (params parsed)) "undefined"))
                              None)
              | Some newDate => inl (episode, milestoneType, milestone, newDate)
              end
          end
      end
  end.

(** The local interpretation of a command, used for the demo project. *)
Definition processLocally (now : Date) (input : string) (state : PostProState.t)
  : PostProState.t * CommandResult.t :=
  let parsed := parseCommand input in
  if String.eqb (action parsed) "move" then
    match resolveTarget now parsed state with
    | inr failure => (state, failure)
    | inl (_, _, milestone, newDate) =>
        moveMilestone now (Milestone.id milestone) newDate state
    end
  else if String.eqb (action parsed) "what_if" then
    match resolveTarget now parsed state with
    | inr failure => (state, failure)
    | inl (episode, milestoneType, milestone, newDate) =>
        let conflicts := checkDependencies toLocaleDateString milestone newDate state in
        if Nat.eqb (List.length conflicts) 0 then
          (state,
           result true
                  ("Moving " ++ Episode.number episode ++ " "
                   ++ MilestoneType.code milestoneType ++ " to "
                   ++ toLocaleDateString newDate ++ " would have no conflicts.")
                  None)
        else
          (state,
           result true
                  ("Moving " ++ Episode.number episode ++ " "
                   ++ MilestoneType.code milestoneType ++ " to "
                   ++ toLocaleDateString newDate ++ " would cause "
                   ++ ofNat (List.length conflicts) ++ " issue(s):")
                  (Some conflicts))
    end
  else if String.eqb (action parsed) "late" then
    let today := now in
    let lateMilestones :=
      filter (fun m =>
                match Milestone.scheduledDate m with
                | Some d => isBefore d today
                            && negb (Milestone.statusEqb (Milestone.status m)
                                                         Milestone.completed)
                | None => false
                end)
             (PostProState.milestones state) in
    if Nat.eqb (List.length lateMilestones) 0 then
      (state, result true "Nothing is currently late!" None)
    else
      let lateItems :=
        map (fun m =>
               let ep := find (fun e => String.eqb (Episode.id e) (Milestone.episodeId m))
                              (PostProState.episodes state) in
               let mt := find (fun t => String.eqb (MilestoneType.id t)
                                                   (Milestone.milestoneTypeId m))
                              (PostProState.milestoneTypes state) in
               numberText ep ++ " " ++ codeText mt)
            lateMilestones in
      (state,
       result true
              (ofNat (List.length lateMilestones)
               ++ " item(s) are past their scheduled date: " ++ join ", " lateItems)
              None)
  else if String.eqb (action parsed) "blocking" then
    match findEpisode state (target parsed) with
    | None =>
        (state,
         result false ("Episode " ++ optText (target parsed) "null" ++ " not found") None)
    | Some episode =>
        let incomplete :=
          filter (fun m => String.eqb (Milestone.episodeId m) (Episode.id episode)
                           && negb (Milestone.statusEqb (Milestone.status m)
                                                        Milestone.completed))
                 (PostProState.milestones state) in
        let pendingWork :=
          filter (fun w => String.eqb (WorkItem.episodeId w) (Episode.id episode)
                           && negb (WorkItem.isApproved (WorkItem.status w)))
                 (PostProState.workItems state) in
        let blockers :=
          fold_left (fun (blockers : list string) m =>
                       match find (fun t => String.eqb (MilestoneType.id t)
                                                       (Milestone.milestoneTypeId m))
                                  (PostProState.milestoneTypes state) with
                       | Some mt =>
                           push blockers
                                (MilestoneType.code mt ++ " ("
                                 ++ Milestone.statusText (Milestone.status m) ++ ")")
                       | None => blockers
                       end)
                    incomplete [] in
        let blockers :=
          if Nat.ltb 0 (List.length pendingWork)
          then push blockers
                    (ofNat (List.length pendingWork) ++ " work item(s) pending")
          else blockers in
        if Nat.eqb (List.length blockers) 0 then
          (state, result true ("Nothing is blocking " ++ Episode.number episode ++ "!") None)
        else
          (state,
           result true (Episode.number episode ++ " is waiting on: " ++ join ", " blockers)
                  None)
    end
  else if String.eqb (action parsed) "show" then
    let target := toLowerCase (optText (target parsed) "") in
    if includes target "this week" then
      (PostProState.setDateRange state
         {| DateRange.start := startOfWeek now; DateRange.end_ := endOfWeek now |},
       result true "Showing this week" None)
    else if includes target "next week" then
      let nextWeek := addWeeks now 1 in
      (PostProState.setDateRange state
         {| DateRange.start := startOfWeek nextWeek;
            DateRange.end_ := endOfWeek nextWeek |},
       result true "Showing next week" None)
    else
      let notSure :=
        (state,
         result false
                ("Not sure what to show: "
                 ++ quoted (optText (CommandParser.target parsed) "null"))
                None) in
      match exec false 1 digitsRe target with
      | Some epMatch =>
          match find (fun e => includes (Episode.number e) (text 1 epMatch))
                     (PostProState.episodes state) with
          | Some episode =>
              (PostProState.selectEpisode state (Some (Episode.id episode)),
               result true ("Selected episode " ++ Episode.number episode) None)
          | None => notSure
          end
      | None => notSure
      end
  else
    (state,
     result false
            ("I didn't understand that. Try " ++ quoted "move 304 lock to Friday"
             ++ " or " ++ quoted "what's late?")
            None).

(** [processCommand(input)]: a project of the backend sends the command to
    the API; without a project, or for the demo project, the command is
    interpreted locally. *)
Definition processCommand (now : Date) (input : string) (state : PostProState.t)
  : PostProState.t * CommandResult.t :=
  let remote :=
    match PostProState.currentProject state with
    | Some project =>
        if String.eqb (Project.id project) "demo-project" then None else Some project
    | None => None
    end in
  match remote with
  | Some project =>
      match api_command (Project.id project) input
                        (truthy (PostProState.selectedEpisodeId state)) with
      | Resolved response =>
          let state' :=
            if Api.success response
               && Nat.ltb 0 (List.length (orEmpty (changes response)))
            then fetchProjectData now (Project.id project) state
            else state in
          (state',
           result (Api.success response) (Api.response response)
                  (match truthy (clarificationNeeded response) with
                   | Some question =>
                       Some [{| ScheduleConflict.type := ScheduleConflict.resource;
                                ScheduleConflict.severity := ScheduleConflict.warning;
                                ScheduleConflict.message := question;
                                ScheduleConflict.affectedMilestones := [];
                                ScheduleConflict.suggestedResolution := None |}]
                   | None => None
                   end))
      | Rejected message =>
          (state, result false (optText message "Failed to process command") None)
      end
  | None => processLocally now input state
  end.

(** [loadProject(projectId)].  [fetchProjectData] catches every failure of
    its own, so the [catch] of [loadProject], which would record the error,
    has nothing to catch. *)
Definition loadProject (now : Date) (projectId : string) (state : PostProState.t)
  : PostProState.t :=
  fetchProjectData now projectId (PostProState.setLoading state true None).
End Actions.

(** The initial state of the store, created at time [now]. *)
Definition initialState (now : Date) : PostProState.t :=
  {| PostProState.currentProject := None;
     PostProState.viewMode := gantt;
     PostProState.dateRange :=
       {| DateRange.start := startOfWeek now;
          DateRange.end_ := endOfWeek (addWeeks now 8) |};
     PostProState.selectedEpisodeId := None;
     PostProState.selectedMilestoneId := None;
     PostProState.episodes := [];
     PostProState.milestones := [];
     PostProState.milestoneTypes := [];
     PostProState.workItems := [];
     PostProState.calendarEvents := [];
     PostProState.crewMembers := [];
     PostProState.sessions := [];
     PostProState.isLoading := false;
     PostProState.isSaving := false;
     PostProState.error := None;
     PostProState.showOnboarding := false |}.

End Store.

(* ====================================================================== *)
(** ** The onboarding wizard's list of milestone types                     *)
(* ====================================================================== *)

Module Wizard.
Import Store.

Definition MILESTONE_COLORS : list string :=
  ["#3B82F6"; "#8B5CF6"; "#EF4444"; "#F59E0B";
   "#10B981"; "#EC4899"; "#6B7280"; "#14B8A6"].

(** [MILESTONE_COLORS[idx % MILESTONE_COLORS.length]] *)
Definition colorAt (idx : nat) : option string :=
  nth_error MILESTONE_COLORS (idx mod List.length MILESTONE_COLORS).

(** [Math.max(...numbers)] on a non-empty list: the fold starts from the
    first number. *)
Definition maxOf (first : Z) (others : list Z) : Z :=
  fold_left Z.max others first.

(** [addMilestoneType()] on the list [data.milestoneTypes]. *)
Definition addMilestoneType (milestoneTypes : list OnboardingMilestoneType)
  : list OnboardingMilestoneType :=
  let newOrder :=
    match map o_sortOrder milestoneTypes with
    | [] => 1
    | first :: others => maxOf first others + 1
    end in
  (milestoneTypes ++
   [{| o_code := ""; o_name := ""; o_sortOrder := newOrder;
       o_isHardDeadline := Some false;
       o_requiresCompletionOf := Some [];
       o_color := colorAt (List.length milestoneTypes) |}])%list.

(** [array.filter((x, i) => p(x, i))], [i] being the index of the first
    element. *)
Fixpoint filteri {A : Type} (p : A -> nat -> bool) (l : list A) (i : nat) : list A :=
  match l with
  | [] => []
  | x :: rest => if p x i then x :: filteri p rest (S i) else filteri p rest (S i)
  end.

(** [removeMilestoneType(index)] *)
Definition removeMilestoneType (index : nat)
           (milestoneTypes : list OnboardingMilestoneType)
  : list OnboardingMilestoneType :=
  filteri (fun _ i => negb (Nat.eqb i index)) milestoneTypes 0.

End Wizard.

(* ====================================================================== *)
(** ** A host and a schedule for the examples                              *)
(* ====================================================================== *)

Module Sample.
Import JsString DateFns Api Store.

(** A rendering of dates: the civil date as year-month-day. *)
Definition toLocaleDateString (d : Date) : string :=
  match d with
  | MkDate t =>
      let '(y, m, dd) := civilFromDays (dayNumber t) in
      numText y ++ "-" ++ numText m ++ "-" ++ numText dd
  | InvalidDate => "Invalid Date"
  end.

(** A generic parser that recognizes nothing. *)
Definition parseISO (_ : string) : option Date := Some InvalidDate.

(** Local midnight of a civil date. *)
Definition midnight (y m d : Z) : Date := MkDate (daysFromCivil y m d * msPerDay).

(** Monday 2024-01-01, 09:30. *)
Definition monday : Date := MkDate (daysFromCivil 2024 1 1 * msPerDay + 34200000).

(** The demo schedule loaded on that Monday: episode [300 + k] has its
    [i]-th milestone, counting from 0, on day [3 * (k - 1) + 7 * i]. *)
Definition demoState : PostProState.t := loadDemoData monday (initialState monday).

(** The first two types of the demo catalog and their milestones in episode
    301: the Editor's Cut on 2024-01-01 and the Director's Cut, which requires
    it, on 2024-01-08, both at 09:30. *)
Definition editorsCutType : MilestoneType.t :=
  demoType "mt-ec" "EC" "Editor's Cut" 1 false [] monday.

Definition directorsCutType : MilestoneType.t :=
  demoType "mt-dc" "DC" "Director's Cut" 2 false ["EC"] monday.

Definition editorsCut : Milestone.t :=
  demoMilestone monday (demoEpisode monday 0) 0 editorsCutType 0.

Definition directorsCut : Milestone.t :=
  demoMilestone monday (demoEpisode monday 0) 0 directorsCutType 1.

(** A backend that cannot be reached. *)
Definition dateOfJson (_ : string) : Date := InvalidDate.
Definition api_projects_get (_ : string) : Reply RawProject := Rejected None.
Definition api_command (_ _ : string) (_ : option string) : Reply CommandResponse :=
  Rejected None.

End Sample.

(* ====================================================================== *)
(** * Vocabulary of the properties                                         *)
(* ====================================================================== *)

Import JsString RegExp DateFns CommandParser DateParser DependencyChecker Api Store.

(** ** The dependency evaluator, as the specification tells it *)

(** [a] is strictly after [b]: both are valid dates and the time value of
    [a] is the greater one. *)
Definition strictlyAfter (a b : Date) : Prop :=
  exists x y, a = MkDate x /\ b = MkDate y /\ y < x.

Section EvaluatorVocabulary.
Variable toLocaleDateString : Date -> string.
Variables (milestone : Milestone.t) (newDate : Date) (state : PostProState.t).

(** The specification's account of [checkMove], written as two
    comprehensions.  A prerequisite code is late when the first type of the
    catalog with that code has a milestone in the episode of [milestone]
    whose scheduled date is after [newDate]. *)
Definition latePrerequisite (prereqCode : string) : option (Milestone.t * Date) :=
  match find (fun mt => String.eqb (MilestoneType.code mt) prereqCode)
             (PostProState.milestoneTypes state) with
  | Some prereqType =>
      match findMilestone state (Milestone.episodeId milestone)
                          (MilestoneType.id prereqType) with
      | Some prereqMilestone =>
          match Milestone.scheduledDate prereqMilestone with
          | Some scheduled =>
              if isAfter scheduled newDate then Some (prereqMilestone, scheduled)
              else None
          | None => None
          end
      | None => None
      end
  | None => None
  end.

(** One error for each late prerequisite code, in the order of
    [requiresCompletionOf]. *)
Definition prerequisiteErrors (milestoneType : MilestoneType.t)
  : list ScheduleConflict.t :=
  flat_map (fun prereqCode =>
              match latePrerequisite prereqCode with
              | Some (prereqMilestone, scheduled) =>
                  [prerequisiteConflict toLocaleDateString milestone milestoneType
                                        prereqCode prereqMilestone scheduled]
              | None => []
              end)
           (MilestoneType.requiresCompletionOf milestoneType).

(** The dependents of a type: the types of the catalog, in catalog order,
    that list its code as a prerequisite. *)
Definition dependentsOf (milestoneType : MilestoneType.t) : list MilestoneType.t :=
  filter (fun mt => existsb (String.eqb (MilestoneType.code milestoneType))
                            (MilestoneType.requiresCompletionOf mt))
         (PostProState.milestoneTypes state).

(** A dependent is pushed when its milestone in the episode of [milestone]
    is scheduled before [newDate]. *)
Definition pushedDependent (depType : MilestoneType.t) : option (Milestone.t * Date) :=
  match findMilestone state (Milestone.episodeId milestone) (MilestoneType.id depType) with
  | Some depMilestone =>
      match Milestone.scheduledDate depMilestone with
      | Some scheduled =>
          if isBefore scheduled newDate then Some (depMilestone, scheduled) else None
      | None => None
      end
  | None => None
  end.

(** One warning for each pushed dependent. *)
Definition dependentWarnings (milestoneType : MilestoneType.t)
  : list ScheduleConflict.t :=
  flat_map (fun depType =>
              match pushedDependent depType with
              | Some (depMilestone, scheduled) =>
                  [dependentConflict toLocaleDateString milestone newDate depType
                                     depMilestone scheduled]
              | None => []
              end)
           (dependentsOf milestoneType).

(** What every conflict of the first, respectively the second, pass looks
    like. *)
Definition isPrerequisiteError (c : ScheduleConflict.t) : Prop :=
  ScheduleConflict.type c = ScheduleConflict.dependency
  /\ ScheduleConflict.severity c = ScheduleConflict.error
  /\ (exists other, ScheduleConflict.affectedMilestones c
                    = [Milestone.id milestone; Milestone.id other])
  /\ ScheduleConflict.suggestedResolution c <> None.

Definition isDependentWarning (c : ScheduleConflict.t) : Prop :=
  ScheduleConflict.type c = ScheduleConflict.dependency
  /\ ScheduleConflict.severity c = ScheduleConflict.warning
  /\ (exists other, ScheduleConflict.affectedMilestones c
                    = [Milestone.id milestone; Milestone.id other])
  /\ ScheduleConflict.suggestedResolution c <> None.

End EvaluatorVocabulary.

(** ** The move transaction *)

(** The map applied by a successful move. *)
Definition reschedule (now : Date) (id : string) (newDate : Date)
           (m : Milestone.t) : Milestone.t :=
  if String.eqb (Milestone.id m) id then Milestone.withSchedule m newDate now else m.

(** Two milestones that differ at most in [scheduledDate] and [updatedAt]. *)
Definition sameButSchedule (m m' : Milestone.t) : Prop :=
  Milestone.id m' = Milestone.id m
  /\ Milestone.episodeId m' = Milestone.episodeId m
  /\ Milestone.milestoneTypeId m' = Milestone.milestoneTypeId m
  /\ Milestone.scheduledTime m' = Milestone.scheduledTime m
  /\ Milestone.completedDate m' = Milestone.completedDate m
  /\ Milestone.completedAt m' = Milestone.completedAt m
  /\ Milestone.status m' = Milestone.status m
  /\ Milestone.notes m' = Milestone.notes m
  /\ Milestone.createdAt m' = Milestone.createdAt m
  /\ Milestone.milestoneType m' = Milestone.milestoneType m
  /\ Milestone.episode m' = Milestone.episode m.

(** The [conflicts] field of a result that carries the list [cs] when it is
    not empty. *)
Definition attached (cs : list ScheduleConflict.t) : option (list ScheduleConflict.t) :=
  match cs with
  | [] => None
  | _ :: _ => Some cs
  end.

(** The store interprets commands itself when no project is loaded or the
    project is the demo project. *)
Definition interpretsLocally (state : PostProState.t) : bool :=
  match PostProState.currentProject state with
  | Some project => String.eqb (Project.id project) "demo-project"
  | None => true
  end.

(** ** Catalogs and cycles *)

(** The prerequisite graph of a catalog: each code with the codes it
    requires. *)
Definition prerequisiteGraph (catalog : list MilestoneType.t)
  : list (string * list string) :=
  map (fun mt => (MilestoneType.code mt, MilestoneType.requiresCompletionOf mt)) catalog.

Definition requires (graph : list (string * list string)) (a b : string) : Prop :=
  exists prereqs, In (a, prereqs) graph /\ In b prereqs.

Inductive reaches (graph : list (string * list string)) : string -> string -> Prop :=
| reaches_step a b : requires graph a b -> reaches graph a b
| reaches_more a b c : requires graph a b -> reaches graph b c -> reaches graph a c.

Definition cyclic (graph : list (string * list string)) : Prop :=
  exists c, reaches graph c c.

(** Position of a code in the demo catalog. *)
Definition demoRank (code : string) : nat :=
  match findIndex (String.eqb code)
                  ["EC"; "DC"; "NC1"; "NC2"; "FPL"; "M/S"; "CC"; "MIX"; "QC"; "D"] with
  | Some i => Z.to_nat i
  | None => 0
  end.

(** The graph the backend sent, and the graph the onboarding wizard
    collected. *)
Definition receivedGraph (project : RawProject) : list (string * list string) :=
  map (fun mt => (mt_code mt, orEmpty (mt_requires_completion_of mt)))
      (orEmpty (milestone_types project)).

Definition onboardingGraph (onboardingData : OnboardingData)
  : list (string * list string) :=
  map (fun mt => (o_code mt, orEmpty (o_requiresCompletionOf mt)))
      (onboardingMilestoneTypes onboardingData).

(** A project of the backend whose two milestone types require each other. *)
Definition cyclicProject : RawProject :=
  {| Api.id := "p1"; organization_id := "org"; Api.name := "Loop";
     Api.code := None; season_number := None;
     Api.status := Project.active; Api.settings := None;
     created_at := "2024-01-01"; updated_at := "2024-01-01";
     Api.episodes := None; Api.milestones := None;
     milestone_types :=
       Some [ {| mt_id := "t-a"; mt_project_id := "p1"; mt_code := "A";
                 mt_name := "First"; mt_sort_order := 1;
                 mt_is_hard_deadline := false;
                 mt_requires_completion_of := Some ["B"];
                 mt_created_at := "2024-01-01" |};
              {| mt_id := "t-b"; mt_project_id := "p1"; mt_code := "B";
                 mt_name := "Second"; mt_sort_order := 2;
                 mt_is_hard_deadline := false;
                 mt_requires_completion_of := Some ["A"];
                 mt_created_at := "2024-01-01" |} ];
     calendar_events := None |}.

(** The state after [fetchProjectData] when the backend answers with
    [cyclicProject]. *)
Definition stateWithCyclicCatalog : PostProState.t :=
  fetchProjectData (fun _ => Sample.monday) (fun _ => Resolved cyclicProject)
                   Sample.monday "p1" (initialState Sample.monday).

(** ** Days of the week *)

(** Days from a reference day of the week to the next [dayIndex] strictly
    after it: the [daysToAdd] of the parser before the "next" adjustment. *)
Definition daysUntilNext (dayIndex currentDay : Z) : Z :=
  if dayIndex - currentDay <=? 0 then dayIndex - currentDay + 7
  else dayIndex - currentDay.

(** The specification's reading: the next occurrence on or after the
    reference date, a week later when the day has already passed in the week
    of the reference date or when the text says "next". *)
Definition nextOnOrAfter (dayIndex : Z) (referenceDate : Date) (saysNext : bool)
  : Date :=
  match getDay referenceDate with
  | Some currentDay =>
      addDays referenceDate
              (Some (if (dayIndex <? currentDay) || saysNext
                     then dayIndex - currentDay + 7
                     else dayIndex - currentDay))
  | None => InvalidDate
  end.

(** ** Calendar dates *)

Definition isLeapYear (y : Z) : bool :=
  ((y mod 4 =? 0) && negb (y mod 100 =? 0)) || (y mod 400 =? 0).

Definition daysInMonth (y m : Z) : Z :=
  if m =? 2 then (if isLeapYear y then 29 else 28)
  else if (m =? 4) || (m =? 6) || (m =? 9) || (m =? 11) then 30 else 31.

(** [y]-[m]-[d] is a day of the calendar. *)
Definition validCivil (y m d : Z) : bool :=
  (1 <=? m) && (m <=? 12) && (1 <=? d) && (d <=? daysInMonth y m).

(** ** Slash-delimited date texts *)

Fixpoint allChars (P : ascii -> bool) (s : string) : bool :=
  match s with
  | EmptyString => true
  | String c s' => P c && allChars P s'
  end.

Definition isSlashChar (c : ascii) : bool := isDigit c || Ascii.eqb c "/".

(** A string of [lo] to [hi] decimal digits. *)
Definition digitString (lo hi : nat) (s : string) : bool :=
  allChars isDigit s && Nat.leb lo (String.length s) && Nat.leb (String.length s) hi.

(** The texts [M/D] and [M/D/Y]. *)
Definition slashText (mm dd : string) (yy : option string) : string :=
  mm ++ "/" ++ dd ++ match yy with Some y => "/" ++ y | None => "" end.

Definition yearText (lo hi : nat) (yy : option string) : bool :=
  match yy with
  | Some y => digitString lo hi y
  | None => true
  end.

(** The year of a slash-delimited text: the reference year when absent,
    2000 + YY for two digits, the number as written otherwise. *)
Definition slashYear (yy : option string) (referenceDate : Date) : option Z :=
  match yy with
  | Some y =>
      if Nat.eqb (String.length y) 2 then Some (2000 + parseInt y)
      else Some (parseInt y)
  | None => getFullYear referenceDate
  end.

(** The generic parse recognized nothing: it threw or returned an invalid
    date. *)
Definition unparsed (parsed : option Date) : bool :=
  match parsed with
  | Some d => isNaN (getTime d)
  | None => true
  end.

(** Proof steps for texts made of digits and slashes. *)
Ltac digit_cases H :=
  unfold digitString in H; simpl in H;
  rewrite ?andb_false_r, ?andb_true_r in H; try discriminate H;
  repeat rewrite andb_true_iff in H.

(** ** Further vocabulary: the evaluator *)

(** The milestones of one episode, in the order of the store. *)
Definition milestonesOfEpisode (episodeId : string) (state : PostProState.t)
  : list Milestone.t :=
  filter (fun m => String.eqb (Milestone.episodeId m) episodeId)
         (PostProState.milestones state).

(** Some prerequisite code of the type is late for the date. *)
Definition anyLate (milestone : Milestone.t) (newDate : Date) (state : PostProState.t)
           (milestoneType : MilestoneType.t) : bool :=
  existsb (fun prereqCode =>
             match latePrerequisite milestone newDate state prereqCode with
             | Some _ => true
             | None => false
             end)
          (MilestoneType.requiresCompletionOf milestoneType).

(** Some dependent of the type is pushed by the date. *)
Definition anyPushed (milestone : Milestone.t) (newDate : Date) (state : PostProState.t)
           (milestoneType : MilestoneType.t) : bool :=
  existsb (fun depType =>
             match pushedDependent milestone newDate state depType with
             | Some _ => true
             | None => false
             end)
          (dependentsOf state milestoneType).

(** ** Further vocabulary: the store *)

(** The parts of the state that no locally interpreted command writes. *)
Definition sameCatalogAndEpisodes (state state' : PostProState.t) : Prop :=
  PostProState.currentProject state' = PostProState.currentProject state
  /\ PostProState.viewMode state' = PostProState.viewMode state
  /\ PostProState.episodes state' = PostProState.episodes state
  /\ PostProState.milestoneTypes state' = PostProState.milestoneTypes state
  /\ PostProState.workItems state' = PostProState.workItems state
  /\ PostProState.calendarEvents state' = PostProState.calendarEvents state
  /\ PostProState.crewMembers state' = PostProState.crewMembers state
  /\ PostProState.sessions state' = PostProState.sessions state
  /\ PostProState.isLoading state' = PostProState.isLoading state
  /\ PostProState.isSaving state' = PostProState.isSaving state
  /\ PostProState.error state' = PostProState.error state
  /\ PostProState.showOnboarding state' = PostProState.showOnboarding state
  /\ PostProState.selectedMilestoneId state' = PostProState.selectedMilestoneId state.

(** The map applied by [updateMilestone]. *)
Definition amend (now : Date) (id : string) (updates : MilestoneUpdates.t)
           (m : Milestone.t) : Milestone.t :=
  if String.eqb (Milestone.id m) id then MilestoneUpdates.apply m updates now else m.

(** The predicate of the lookup by episode and type. *)
Definition isMilestoneOf (episodeId typeId : string) (m : Milestone.t) : bool :=
  String.eqb (Milestone.episodeId m) episodeId
  && String.eqb (Milestone.milestoneTypeId m) typeId.

(** ** Further vocabulary: weeks and the onboarding wizard *)

(** The week from midnight [s] to the last millisecond before [s] plus
    seven days. *)
Definition weekFrom (s : Z) : DateRange.t :=
  {| DateRange.start := MkDate s; DateRange.end_ := MkDate (s + 7 * msPerDay - 1) |}.

(** The prerequisite graph of the list the wizard edits. *)
Definition wizardGraph (milestoneTypes : list OnboardingMilestoneType)
  : list (string * list string) :=
  map (fun mt => (o_code mt, orEmpty (o_requiresCompletionOf mt))) milestoneTypes.

(** Proof step for the first days of the twelve months. *)
Ltac settle_month :=
  unfold daysFromCivil;
  repeat match goal with
         | |- context [?a mod 12] =>
             let v := eval vm_compute in (a mod 12) in change (a mod 12) with v
         end;
  repeat match goal with
         | |- context [if ?b then _ else _] =>
             let v := eval vm_compute in b in change b with v; cbv iota
         end;
  Z.div_mod_to_equations; lia.

(** ** Further vocabulary: what a pattern matches *)

(** One or more iterations of a quantified pattern, [count] having been
    made: each takes at least one character. *)
Inductive repeats (step : string -> captures -> captures -> Prop)
          (lo : nat) (hi : option nat)
  : nat -> string -> captures -> captures -> Prop :=
| repeats_stop count caps :
    (lo <= count)%nat -> repeats step lo hi count "" caps caps
| repeats_more count w1 w2 c0 c1 c2 :
    underMax count hi = true -> w1 <> "" -> step w1 c0 c1 ->
    repeats step lo hi (S count) w2 c1 c2 ->
    repeats step lo hi count (w1 ++ w2) c0 c2.

(** [derives r w c0 c1]: the pattern [r] matches exactly the text [w],
    turning the match array [c0] into [c1]. *)
Fixpoint derives (ignoreCase : bool) (r : re) (w : string) (c0 c1 : captures)
  : Prop :=
  match r with
  | Empty => w = "" /\ c1 = c0
  | Lit c => exists x, w = String x "" /\ charMatches ignoreCase c x = true /\ c1 = c0
  | Class p => exists x, w = String x "" /\ p x = true /\ c1 = c0
  | Cat a b =>
      exists w1 w2 cm,
        w = w1 ++ w2 /\ derives ignoreCase a w1 c0 cm /\ derives ignoreCase b w2 cm c1
  | Or a b => derives ignoreCase a w c0 c1 \/ derives ignoreCase b w c0 c1
  | Group i a => exists cm, derives ignoreCase a w c0 cm /\ c1 = setCapture i w cm
  | Quant a lo hi => repeats (derives ignoreCase a) lo hi 0 w c0 c1
  end.

Fixpoint captureFree (r : re) : bool :=
  match r with
  | Empty | Lit _ | Class _ => true
  | Cat a b | Or a b => captureFree a && captureFree b
  | Group _ _ => false
  | Quant a _ _ => captureFree a
  end.

(** The characters of a milestone code that a command can name: capital
    letters, digits and the underscore. *)
Definition isCodeChar (c : ascii) : bool :=
  isUpper c || isDigit c || (JsString.code c =? 95)%N.

(** ** Further vocabulary: commands *)

(** A character of the ASCII range. *)
Definition isAscii (c : ascii) : bool := (JsString.code c <? 128)%N.

(** No string occurs twice. *)
Fixpoint distinct (l : list string) : bool :=
  match l with
  | [] => true
  | x :: rest => negb (existsb (String.eqb x) rest) && distinct rest
  end.

(** The conflicts attached to a result, none as the empty list. *)
Definition reported (outcome : CommandResult.t) : list ScheduleConflict.t :=
  match CommandResult.conflicts outcome with
  | Some cs => cs
  | None => []
  end.

(** The backend refused the project of the wizard, or one of its milestone
    types. *)
Definition onboardingRefused
           (api_projects_create : OnboardingData -> Reply string)
           (api_milestoneTypes_create : string -> OnboardingMilestoneType -> Reply unit)
           (onboardingData : OnboardingData) : bool :=
  match api_projects_create onboardingData with
  | Resolved projectId =>
      negb (forallb (fun mt => isResolved (api_milestoneTypes_create projectId mt))
                    (onboardingMilestoneTypes onboardingData))
  | Rejected _ => true
  end.

(** ** Further vocabulary: sample inputs *)

(** The time value of [Sample.monday], and of local midnight of a date. *)
Definition mondayTime : Z := daysFromCivil 2024 1 1 * msPerDay + 34200000.

Definition midnightTime (y m d : Z) : Z := daysFromCivil y m d * msPerDay.

(** The demo schedule without the milestones of the episodes after 301. *)
Definition firstEpisodeOnly : PostProState.t :=
  PostProState.setMilestones Sample.demoState
    (milestonesOfEpisode "ep-1" Sample.demoState).

(** Two milestone types as the wizard holds them, and a project of two
    episodes with them. *)
Definition wizardTypes : list OnboardingMilestoneType :=
  [ {| o_code := "EC"; o_name := "Editor's Cut"; o_sortOrder := 1;
       o_isHardDeadline := Some false; o_requiresCompletionOf := Some [];
       o_color := Some "#3B82F6" |};
    {| o_code := "DC"; o_name := "Director's Cut"; o_sortOrder := 2;
       o_isHardDeadline := Some false; o_requiresCompletionOf := Some ["EC"];
       o_color := Some "#8B5CF6" |} ].



Definition refuseMilestoneType (_ : string) (_ : OnboardingMilestoneType)
  : Reply unit := Rejected None.

(** ** The evaluator, in the words of its specification *)

(** [x] is the first element of [l] with the property [P]. *)
Definition firstWith {A : Type} (P : A -> Prop) (l : list A) (x : A) : Prop :=
  exists before after,
    l = (before ++ x :: after)%list /\ P x /\ Forall (fun y => ~ P y) before.

(** [selects P l kept]: [kept] holds the elements of [l] with the property
    [P], each once for each of its places in [l], in the order of [l]. *)
Inductive selects {A : Type} (P : A -> Prop) : list A -> list A -> Prop :=
| selects_nil : selects P [] []
| selects_take x l kept : P x -> selects P l kept -> selects P (x :: l) (x :: kept)
| selects_skip x l kept : ~ P x -> selects P l kept -> selects P (x :: l) kept.

Section CheckMove.
Variables (milestone : Milestone.t) (newDate : Date) (state : PostProState.t).

(** [other] is the milestone of the type [typeId] in the episode of
    [milestone], the first of the schedule if there are several, and it is
    scheduled on [scheduled]. *)
Definition scheduledInEpisode (typeId : string) (other : Milestone.t)
           (scheduled : Date) : Prop :=
  firstWith (fun m => Milestone.episodeId m = Milestone.episodeId milestone
                      /\ Milestone.milestoneTypeId m = typeId)
            (PostProState.milestones state) other
  /\ Milestone.scheduledDate other = Some scheduled.

(** The prerequisite code names a type of the catalog, the first with that
    code, whose milestone in the same episode is scheduled strictly after
    the proposed date. *)
Definition lateFor (prereqCode : string) (other : Milestone.t) (scheduled : Date)
  : Prop :=
  exists prereqType,
    firstWith (fun mt => MilestoneType.code mt = prereqCode)
              (PostProState.milestoneTypes state) prereqType
    /\ scheduledInEpisode (MilestoneType.id prereqType) other scheduled
    /\ strictlyAfter scheduled newDate.

Definition isLate (prereqCode : string) : Prop :=
  exists other scheduled, lateFor prereqCode other scheduled.

(** The milestone of the type in the same episode is scheduled strictly
    before the proposed date. *)
Definition pushedFor (depType : MilestoneType.t) (other : Milestone.t)
           (scheduled : Date) : Prop :=
  scheduledInEpisode (MilestoneType.id depType) other scheduled
  /\ strictlyAfter newDate scheduled.

(** [depType] lists the code of [milestoneType] as a prerequisite, and its
    milestone is pushed. *)
Definition isPushedDependentOf (milestoneType depType : MilestoneType.t) : Prop :=
  In (MilestoneType.code milestoneType) (MilestoneType.requiresCompletionOf depType)
  /\ exists other scheduled, pushedFor depType other scheduled.

(** A dependency conflict of the given severity that names the moved
    milestone and [other] and suggests a resolution. *)
Definition dependencyConflict (level : ScheduleConflict.Severity)
           (other : Milestone.t) (c : ScheduleConflict.t) : Prop :=
  ScheduleConflict.type c = ScheduleConflict.dependency
  /\ ScheduleConflict.severity c = level
  /\ ScheduleConflict.affectedMilestones c = [Milestone.id milestone; Milestone.id other]
  /\ ScheduleConflict.suggestedResolution c <> None.

Definition errorFor (prereqCode : string) (c : ScheduleConflict.t) : Prop :=
  exists other scheduled,
    lateFor prereqCode other scheduled
    /\ dependencyConflict ScheduleConflict.error other c.

Definition warningFor (depType : MilestoneType.t) (c : ScheduleConflict.t) : Prop :=
  exists other scheduled,
    pushedFor depType other scheduled
    /\ dependencyConflict ScheduleConflict.warning other c.

End CheckMove.

(** Every field of the state but [milestones] is the same. *)
Definition sameButMilestones (state state' : PostProState.t) : Prop :=
  PostProState.currentProject state' = PostProState.currentProject state
  /\ PostProState.viewMode state' = PostProState.viewMode state
  /\ PostProState.dateRange state' = PostProState.dateRange state
  /\ PostProState.selectedEpisodeId state' = PostProState.selectedEpisodeId state
  /\ PostProState.selectedMilestoneId state' = PostProState.selectedMilestoneId state
  /\ PostProState.episodes state' = PostProState.episodes state
  /\ PostProState.milestoneTypes state' = PostProState.milestoneTypes state
  /\ PostProState.workItems state' = PostProState.workItems state
  /\ PostProState.calendarEvents state' = PostProState.calendarEvents state
  /\ PostProState.crewMembers state' = PostProState.crewMembers state
  /\ PostProState.sessions state' = PostProState.sessions state
  /\ PostProState.isLoading state' = PostProState.isLoading state
  /\ PostProState.isSaving state' = PostProState.isSaving state
  /\ PostProState.error state' = PostProState.error state
  /\ PostProState.showOnboarding state' = PostProState.showOnboarding state.

(** A wizard project whose two milestone types require each other, and a
    backend that accepts a new project under the id "p2". *)
Definition cyclicWizardData : OnboardingData :=
  {| projectName := "Loop"; projectCode := "LP"; seasonNumber := Some 1;
     episodeCount := 1; episodePrefix := "1"; episodeStartNumber := 1;
     defaultEditor := "";
     onboardingMilestoneTypes :=
       [ {| o_code := "A"; o_name := "First"; o_sortOrder := 1;
            o_isHardDeadline := Some false; o_requiresCompletionOf := Some ["B"];
            o_color := None |};
         {| o_code := "B"; o_name := "Second"; o_sortOrder := 2;
            o_isHardDeadline := Some false; o_requiresCompletionOf := Some ["A"];
            o_color := None |} ];
     workWeekDays := [1; 2; 3; 4; 5]; timezone := "UTC" |}.

Definition acceptProject (_ : OnboardingData) : Reply string := Resolved "p2".

(* ====================================================================== *)
(** * Properties                                                           *)
(* ====================================================================== *)

(** ** Lists and lookups *)

Lemma find_map_stable {A : Type} (p : A -> bool) (f : A -> A) (l : list A) :
  (forall x, p (f x) = p x) ->
  find p (map f l) = option_map f (find p l).
Proof.
  intros Hp. induction l as [|x l IH]; simpl; [reflexivity|].
  rewrite Hp. destruct (p x); [reflexivity | exact IH].
Qed.

Lemma find_picks {A : Type} (p : A -> bool) (l : list A) (x : A) :
  find p l = Some x -> p x = true.
Proof. intros H. apply find_some in H. tauto. Qed.

Lemma reschedule_id now id newDate m :
  Milestone.id (reschedule now id newDate m) = Milestone.id m.
Proof. unfold reschedule. destruct (String.eqb _ _); reflexivity. Qed.

Lemma withSchedule_frame m d now :
  sameButSchedule m (Milestone.withSchedule m d now).
Proof. unfold sameButSchedule. simpl. repeat split; reflexivity. Qed.

Lemma reschedule_pointwise now id newDate (ms : list Milestone.t) :
  Forall2 (fun m m' =>
             (Milestone.id m <> id -> m' = m)
             /\ (Milestone.id m = id ->
                   sameButSchedule m m'
                   /\ Milestone.scheduledDate m' = Some newDate
                   /\ Milestone.updatedAt m' = now))
          ms (map (reschedule now id newDate) ms).
Proof.
  induction ms as [|m ms IH]; simpl; constructor; [|exact IH].
  unfold reschedule. destruct (String.eqb_spec (Milestone.id m) id) as [Heq|Hne].
  - split; [intros Hc; contradiction|]. intros _.
    split; [apply withSchedule_frame|]. split; reflexivity.
  - split; [reflexivity|]. intros Hc; contradiction.
Qed.

(** ** The dependency evaluator *)

Lemma isAfter_strict a b : isAfter a b = true <-> strictlyAfter a b.
Proof.
  unfold strictlyAfter. split.
  - destruct a as [x|], b as [y|]; simpl; try discriminate.
    intros H. exists x, y. apply Z.ltb_lt in H. auto.
  - intros [x [y [-> [-> H]]]]. simpl. apply Z.ltb_lt. exact H.
Qed.

Lemma isBefore_strict a b : isBefore a b = true <-> strictlyAfter b a.
Proof.
  unfold strictlyAfter. split.
  - destruct a as [x|], b as [y|]; simpl; try discriminate.
    intros H. exists y, x. apply Z.ltb_lt in H. auto.
  - intros [y [x [-> [-> H]]]]. simpl. apply Z.ltb_lt. exact H.
Qed.

Section Evaluator.
Variable toLocaleDateString : Date -> string.
Variables (milestone : Milestone.t) (newDate : Date) (state : PostProState.t).

(** The two loops of [checkDependencies] push onto the array what the
    comprehensions list. *)
Lemma prerequisite_loop milestoneType prereqs conflicts :
  fold_left (checkPrerequisite toLocaleDateString milestone newDate state milestoneType)
            prereqs conflicts
  = (conflicts ++
     flat_map (fun prereqCode =>
                 match latePrerequisite milestone newDate state prereqCode with
                 | Some (prereqMilestone, scheduled) =>
                     [prerequisiteConflict toLocaleDateString milestone milestoneType
                                           prereqCode prereqMilestone scheduled]
                 | None => []
                 end) prereqs)%list.
Proof.
  revert conflicts.
  induction prereqs as [|prereqCode rest IH]; intros conflicts; simpl.
  - rewrite app_nil_r. reflexivity.
  - rewrite IH. unfold checkPrerequisite, latePrerequisite, push.
    destruct (find _ (PostProState.milestoneTypes state)) as [prereqType|];
      [|rewrite app_nil_l; reflexivity].
    destruct (findMilestone _ _ _) as [prereqMilestone|]; [|reflexivity].
    destruct (Milestone.scheduledDate prereqMilestone) as [scheduled|]; [|reflexivity].
    destruct (isAfter scheduled newDate); [|reflexivity].
    rewrite <- app_assoc. reflexivity.
Qed.

Lemma dependent_loop deps conflicts :
  fold_left (checkDependent toLocaleDateString milestone newDate state) deps conflicts
  = (conflicts ++
     flat_map (fun depType =>
                 match pushedDependent milestone newDate state depType with
                 | Some (depMilestone, scheduled) =>
                     [dependentConflict toLocaleDateString milestone newDate depType
                                        depMilestone scheduled]
                 | None => []
                 end) deps)%list.
Proof.
  revert conflicts.
  induction deps as [|depType rest IH]; intros conflicts; simpl.
  - rewrite app_nil_r. reflexivity.
  - rewrite IH. unfold checkDependent, pushedDependent, push.
    destruct (findMilestone _ _ _) as [depMilestone|]; [|reflexivity].
    destruct (Milestone.scheduledDate depMilestone) as [scheduled|]; [|reflexivity].
    destruct (isBefore scheduled newDate); [|reflexivity].
    rewrite <- app_assoc. reflexivity.
Qed.

Lemma check_is_errors_then_warnings milestoneType :
  find (fun mt => String.eqb (MilestoneType.id mt) (Milestone.milestoneTypeId milestone))
       (PostProState.milestoneTypes state) = Some milestoneType ->
  checkDependencies toLocaleDateString milestone newDate state
  = (prerequisiteErrors toLocaleDateString milestone newDate state milestoneType
     ++ dependentWarnings toLocaleDateString milestone newDate state milestoneType)%list.
Proof.
  intros Htype. unfold checkDependencies. rewrite Htype.
  rewrite dependent_loop, prerequisite_loop. reflexivity.
Qed.

Lemma latePrerequisite_spec prereqCode prereqMilestone scheduled :
  latePrerequisite milestone newDate state prereqCode
  = Some (prereqMilestone, scheduled) <->
  exists prereqType,
    find (fun mt => String.eqb (MilestoneType.code mt) prereqCode)
         (PostProState.milestoneTypes state) = Some prereqType
    /\ findMilestone state (Milestone.episodeId milestone) (MilestoneType.id prereqType)
       = Some prereqMilestone
    /\ Milestone.scheduledDate prereqMilestone = Some scheduled
    /\ strictlyAfter scheduled newDate.
Proof.
  unfold latePrerequisite. split.
  - destruct (find _ (PostProState.milestoneTypes state)) as [prereqType|];
      [|discriminate].
    destruct (findMilestone _ _ _) as [pm|] eqn:Hpm; [|discriminate].
    destruct (Milestone.scheduledDate pm) as [sd|] eqn:Hsd; [|discriminate].
    destruct (isAfter sd newDate) eqn:Hafter; [|discriminate].
    intros H. inversion H; subst. exists prereqType.
    repeat split; try assumption. apply isAfter_strict. exact Hafter.
  - intros [prereqType [-> [-> [-> Hafter]]]].
    apply isAfter_strict in Hafter. rewrite Hafter. reflexivity.
Qed.

Lemma pushedDependent_spec depType depMilestone scheduled :
  pushedDependent milestone newDate state depType = Some (depMilestone, scheduled) <->
  findMilestone state (Milestone.episodeId milestone) (MilestoneType.id depType)
  = Some depMilestone
  /\ Milestone.scheduledDate depMilestone = Some scheduled
  /\ strictlyAfter newDate scheduled.
Proof.
  unfold pushedDependent. split.
  - destruct (findMilestone _ _ _) as [dm|] eqn:Hdm; [|discriminate].
    destruct (Milestone.scheduledDate dm) as [sd|] eqn:Hsd; [|discriminate].
    destruct (isBefore sd newDate) eqn:Hbefore; [|discriminate].
    intros H. inversion H; subst.
    repeat split; try assumption. apply isBefore_strict. exact Hbefore.
  - intros [-> [-> Hbefore]].
    apply isBefore_strict in Hbefore. rewrite Hbefore. reflexivity.
Qed.

Lemma dependentsOf_spec milestoneType depType :
  In depType (dependentsOf state milestoneType) <->
  In depType (PostProState.milestoneTypes state)
  /\ In (MilestoneType.code milestoneType) (MilestoneType.requiresCompletionOf depType).
Proof.
  unfold dependentsOf. rewrite filter_In, existsb_exists. split.
  - intros [Hin [x [Hx Heq]]]. apply String.eqb_eq in Heq. subst x. auto.
  - intros [Hin Hreq]. split; [exact Hin|].
    exists (MilestoneType.code milestoneType). split; [exact Hreq|].
    apply String.eqb_refl.
Qed.

Lemma prerequisiteErrors_shape milestoneType :
  Forall (isPrerequisiteError milestone)
         (prerequisiteErrors toLocaleDateString milestone newDate state milestoneType).
Proof.
  unfold prerequisiteErrors. apply Forall_flat_map, Forall_forall.
  intros prereqCode _.
  destruct (latePrerequisite milestone newDate state prereqCode) as [[pm sd]|];
    constructor; [|constructor].
  unfold isPrerequisiteError. simpl. repeat split.
  - exists pm. reflexivity.
  - discriminate.
Qed.

Lemma dependentWarnings_shape milestoneType :
  Forall (isDependentWarning milestone)
         (dependentWarnings toLocaleDateString milestone newDate state milestoneType).
Proof.
  unfold dependentWarnings. apply Forall_flat_map, Forall_forall.
  intros depType _.
  destruct (pushedDependent milestone newDate state depType) as [[dm sd]|];
    constructor; [|constructor].
  unfold isDependentWarning. simpl. repeat split.
  - exists dm. reflexivity.
  - discriminate.
Qed.

(** The lookups of the code find the first element with the property. *)
Lemma find_firstWith {A : Type} (f : A -> bool) (l : list A) (x : A) :
  find f l = Some x <-> firstWith (fun y => f y = true) l x.
Proof.
  unfold firstWith. split.
  - revert x. induction l as [|y l IH]; simpl; intros x H; [discriminate|].
    destruct (f y) eqn:Hy.
    + inversion H; subst. exists [], l. repeat split; [exact Hy | constructor].
    + destruct (IH _ H) as [before [after [-> [Hx Hbefore]]]].
      exists (y :: before), after. repeat split; [exact Hx|].
      constructor; [rewrite Hy; discriminate | exact Hbefore].
  - intros [before [after [-> [Hx Hbefore]]]].
    induction Hbefore as [|y before Hy _ IH]; simpl.
    + rewrite Hx. reflexivity.
    + destruct (f y); [contradiction Hy; reflexivity | exact IH].
Qed.

Lemma firstWith_ext {A : Type} (P Q : A -> Prop) (l : list A) (x : A) :
  (forall y, P y <-> Q y) -> firstWith P l x -> firstWith Q l x.
Proof.
  intros Hext [before [after [Hl [Hx Hbefore]]]].
  exists before, after. split; [exact Hl|]. split; [apply Hext; exact Hx|].
  eapply Forall_impl; [|exact Hbefore]. intros y Hy HQ. apply Hy, Hext. exact HQ.
Qed.

Lemma type_by_id typeId milestoneType :
  find (fun mt => String.eqb (MilestoneType.id mt) typeId)
       (PostProState.milestoneTypes state) = Some milestoneType
  <-> firstWith (fun mt => MilestoneType.id mt = typeId)
                (PostProState.milestoneTypes state) milestoneType.
Proof.
  rewrite find_firstWith.
  split; apply firstWith_ext; intros mt; [|symmetry]; apply String.eqb_eq.
Qed.

Lemma type_by_code typeCode milestoneType :
  find (fun mt => String.eqb (MilestoneType.code mt) typeCode)
       (PostProState.milestoneTypes state) = Some milestoneType
  <-> firstWith (fun mt => MilestoneType.code mt = typeCode)
                (PostProState.milestoneTypes state) milestoneType.
Proof.
  rewrite find_firstWith.
  split; apply firstWith_ext; intros mt; [|symmetry]; apply String.eqb_eq.
Qed.

Lemma findMilestone_first episodeId typeId other :
  findMilestone state episodeId typeId = Some other
  <-> firstWith (fun m => Milestone.episodeId m = episodeId
                          /\ Milestone.milestoneTypeId m = typeId)
                (PostProState.milestones state) other.
Proof.
  unfold findMilestone. rewrite find_firstWith.
  split; apply firstWith_ext; intros m;
    rewrite andb_true_iff, !String.eqb_eq; tauto.
Qed.

Lemma latePrerequisite_lateFor prereqCode other scheduled :
  latePrerequisite milestone newDate state prereqCode = Some (other, scheduled)
  <-> lateFor milestone newDate state prereqCode other scheduled.
Proof.
  rewrite latePrerequisite_spec. unfold lateFor, scheduledInEpisode.
  split.
  - intros [prereqType [Htype [Hm [Hsd Hlate]]]]. exists prereqType.
    split; [apply type_by_code; exact Htype|].
    split; [|exact Hlate].
    split; [apply findMilestone_first; exact Hm | exact Hsd].
  - intros [prereqType [Htype [[Hm Hsd] Hlate]]]. exists prereqType.
    split; [apply type_by_code; exact Htype|].
    split; [apply findMilestone_first; exact Hm|].
    split; [exact Hsd | exact Hlate].
Qed.

Lemma pushedDependent_pushedFor depType other scheduled :
  pushedDependent milestone newDate state depType = Some (other, scheduled)
  <-> pushedFor milestone newDate state depType other scheduled.
Proof.
  rewrite pushedDependent_spec. unfold pushedFor, scheduledInEpisode.
  rewrite findMilestone_first. tauto.
Qed.

(** The errors of the first loop: one for each late code, in order. *)
Lemma errors_selected milestoneType (codes : list string) :
  exists lateCodes,
    selects (isLate milestone newDate state) codes lateCodes
    /\ Forall2 (errorFor milestone newDate state) lateCodes
               (flat_map (fun prereqCode =>
                            match latePrerequisite milestone newDate state prereqCode with
                            | Some (prereqMilestone, scheduled) =>
                                [prerequisiteConflict toLocaleDateString milestone
                                   milestoneType prereqCode prereqMilestone scheduled]
                            | None => []
                            end) codes).
Proof.
  induction codes as [|c codes [lateCodes [Hsel Hall]]]; simpl.
  - exists []. split; constructor.
  - destruct (latePrerequisite milestone newDate state c) as [[pm sd]|] eqn:E.
    + apply latePrerequisite_lateFor in E.
      exists (c :: lateCodes). split.
      * apply selects_take; [exists pm, sd; exact E | exact Hsel].
      * simpl. constructor; [|exact Hall].
        exists pm, sd. split; [exact E|].
        unfold dependencyConflict. simpl. repeat split. discriminate.
    + exists lateCodes. split; [|exact Hall].
      apply selects_skip; [|exact Hsel].
      intros [pm [sd Hlate]]. apply latePrerequisite_lateFor in Hlate.
      rewrite Hlate in E. discriminate.
Qed.

(** The warnings of the second loop: one for each pushed dependent, in the
    order of the catalog. *)
Lemma warnings_selected milestoneType (catalog : list MilestoneType.t) :
  exists pushedTypes,
    selects (isPushedDependentOf milestone newDate state milestoneType)
            catalog pushedTypes
    /\ Forall2 (warningFor milestone newDate state) pushedTypes
               (flat_map (fun depType =>
                            match pushedDependent milestone newDate state depType with
                            | Some (depMilestone, scheduled) =>
                                [dependentConflict toLocaleDateString milestone newDate
                                   depType depMilestone scheduled]
                            | None => []
                            end)
                         (filter (fun mt =>
                                    existsb (String.eqb (MilestoneType.code milestoneType))
                                            (MilestoneType.requiresCompletionOf mt))
                                 catalog)).
Proof.
  induction catalog as [|mt catalog [pushedTypes [Hsel Hall]]]; simpl.
  - exists []. split; constructor.
  - destruct (existsb (String.eqb (MilestoneType.code milestoneType))
                      (MilestoneType.requiresCompletionOf mt)) eqn:Hreq.
    + assert (Hin : In (MilestoneType.code milestoneType)
                       (MilestoneType.requiresCompletionOf mt)).
      { apply existsb_exists in Hreq. destruct Hreq as [x [Hx Heq]].
        apply String.eqb_eq in Heq. subst x. exact Hx. }
      simpl.
      destruct (pushedDependent milestone newDate state mt) as [[dm sd]|] eqn:E.
      * apply pushedDependent_pushedFor in E.
        exists (mt :: pushedTypes). split.
        -- apply selects_take; [|exact Hsel].
           split; [exact Hin | exists dm, sd; exact E].
        -- simpl. constructor; [|exact Hall].
           exists dm, sd. split; [exact E|].
           unfold dependencyConflict. simpl. repeat split. discriminate.
      * exists pushedTypes. split; [|exact Hall].
        apply selects_skip; [|exact Hsel].
        intros [_ [dm [sd Hpushed]]]. apply pushedDependent_pushedFor in Hpushed.
        rewrite Hpushed in E. discriminate.
    + exists pushedTypes. split; [|exact Hall].
      apply selects_skip; [|exact Hsel].
      intros [Hin _].
      assert (Hex : existsb (String.eqb (MilestoneType.code milestoneType))
                            (MilestoneType.requiresCompletionOf mt) = true).
      { apply existsb_exists. exists (MilestoneType.code milestoneType).
        split; [exact Hin | apply String.eqb_refl]. }
      rewrite Hreq in Hex. discriminate.
Qed.

(** What [checkDependencies] returns, without reference to its lookups. *)
Lemma check_errors_then_warnings milestoneType :
  firstWith (fun mt => MilestoneType.id mt = Milestone.milestoneTypeId milestone)
            (PostProState.milestoneTypes state) milestoneType ->
  exists lateCodes errors pushedTypes warnings,
    checkDependencies toLocaleDateString milestone newDate state
    = (errors ++ warnings)%list
    /\ selects (isLate milestone newDate state)
               (MilestoneType.requiresCompletionOf milestoneType) lateCodes
    /\ Forall2 (errorFor milestone newDate state) lateCodes errors
    /\ selects (isPushedDependentOf milestone newDate state milestoneType)
               (PostProState.milestoneTypes state) pushedTypes
    /\ Forall2 (warningFor milestone newDate state) pushedTypes warnings.
Proof.
  intros Htype. apply type_by_id in Htype.
  destruct (errors_selected milestoneType
              (MilestoneType.requiresCompletionOf milestoneType))
    as [lateCodes [Hlate Herrors]].
  destruct (warnings_selected milestoneType (PostProState.milestoneTypes state))
    as [pushedTypes [Hpushed Hwarnings]].
  exists lateCodes, (prerequisiteErrors toLocaleDateString milestone newDate state
                                        milestoneType),
         pushedTypes, (dependentWarnings toLocaleDateString milestone newDate state
                                         milestoneType).
  split; [apply check_is_errors_then_warnings; exact Htype|].
  split; [exact Hlate|]. split; [exact Herrors|]. split; [exact Hpushed|].
  exact Hwarnings.
Qed.


End Evaluator.

(** C9.  Two runs of [checkDependencies] on the same host, with states that
    hold the same catalog and the same milestones, for the same milestone and
    the same date, return the same conflicts in the same order; nothing else
    of the state is read, and the catalog need not be acyclic. *)
Theorem checkDependencies_two_runs_agree
        (toLocaleDateString : Date -> string)
        (milestone1 milestone2 : Milestone.t) (newDate1 newDate2 : Date)
        (state1 state2 : PostProState.t) :
  PostProState.milestoneTypes state1 = PostProState.milestoneTypes state2 ->
  PostProState.milestones state1 = PostProState.milestones state2 ->
  milestone1 = milestone2 ->
  newDate1 = newDate2 ->
  checkDependencies toLocaleDateString milestone1 newDate1 state1
  = checkDependencies toLocaleDateString milestone2 newDate2 state2.
Proof.
  intros Htypes Hms <- <-.
  unfold checkDependencies. rewrite <- Htypes.
  destruct (find _ (PostProState.milestoneTypes state1)) as [milestoneType|];
    [|reflexivity].
  assert (Hpre : forall conflicts prereqCode,
             checkPrerequisite toLocaleDateString milestone1 newDate1 state1
                               milestoneType conflicts prereqCode
             = checkPrerequisite toLocaleDateString milestone1 newDate1 state2
                                 milestoneType conflicts prereqCode).
  { intros conflicts prereqCode. unfold checkPrerequisite, findMilestone.
    rewrite <- Htypes, <- Hms. reflexivity. }
  assert (Hdep : forall conflicts depType,
             checkDependent toLocaleDateString milestone1 newDate1 state1
                            conflicts depType
             = checkDependent toLocaleDateString milestone1 newDate1 state2
                              conflicts depType).
  { intros conflicts depType. unfold checkDependent, findMilestone.
    rewrite <- Hms. reflexivity. }
  generalize (@nil ScheduleConflict.t) as conflicts.
  intros conflicts.
  assert (Hfold1 : forall l acc,
             fold_left (checkPrerequisite toLocaleDateString milestone1 newDate1
                                          state1 milestoneType) l acc
             = fold_left (checkPrerequisite toLocaleDateString milestone1 newDate1
                                            state2 milestoneType) l acc).
  { induction l as [|x l IH]; intros acc; simpl; [reflexivity|].
    rewrite Hpre. apply IH. }
  assert (Hfold2 : forall l acc,
             fold_left (checkDependent toLocaleDateString milestone1 newDate1 state1)
                       l acc
             = fold_left (checkDependent toLocaleDateString milestone1 newDate1 state2)
                         l acc).
  { induction l as [|x l IH]; intros acc; simpl; [reflexivity|].
    rewrite Hdep. apply IH. }
  rewrite Hfold1, Hfold2. reflexivity.
Qed.

(** ** The move transaction *)

Section MoveTransaction.
Variable toLocaleDateString : Date -> string.

Local Abbreviation move := (moveMilestone toLocaleDateString).
Local Abbreviation check := (checkDependencies toLocaleDateString).

(** The three outcomes of [moveMilestone], one lemma each. *)
Lemma move_not_found now id newDate state :
  find (fun m => String.eqb (Milestone.id m) id) (PostProState.milestones state) = None ->
  move now id newDate state = (state, result false "Milestone not found" None).
Proof. intros H. unfold moveMilestone. rewrite H. reflexivity. Qed.

Lemma move_blocked now id newDate state milestone :
  find (fun m => String.eqb (Milestone.id m) id) (PostProState.milestones state)
  = Some milestone ->
  existsb ScheduleConflict.isError (check milestone newDate state) = true ->
  move now id newDate state
  = (state, result false "Cannot move milestone due to dependency conflicts"
                   (Some (check milestone newDate state))).
Proof. intros H E. unfold moveMilestone. rewrite H, E. reflexivity. Qed.

Lemma move_applied now id newDate state milestone :
  find (fun m => String.eqb (Milestone.id m) id) (PostProState.milestones state)
  = Some milestone ->
  existsb ScheduleConflict.isError (check milestone newDate state) = false ->
  fst (move now id newDate state)
  = PostProState.setMilestones state
      (map (reschedule now id newDate) (PostProState.milestones state))
  /\ CommandResult.success (snd (move now id newDate state)) = true
  /\ CommandResult.conflicts (snd (move now id newDate state))
     = attached (check milestone newDate state).
Proof.
  intros H E. unfold moveMilestone. rewrite H, E. simpl.
  repeat split. destruct (check milestone newDate state); reflexivity.
Qed.

(** A failed move leaves the whole state as it was. *)
Lemma move_failure_keeps_state now id newDate state :
  CommandResult.success (snd (move now id newDate state)) = false ->
  fst (move now id newDate state) = state.
Proof.
  unfold moveMilestone.
  destruct (find _ (PostProState.milestones state)) as [milestone|]; [|reflexivity].
  destruct (existsb _ _); [reflexivity|]. simpl. discriminate.
Qed.

(** After a successful move the lookup of [id] finds the milestone it found
    before, rescheduled. *)
Lemma move_success_target now id newDate state :
  CommandResult.success (snd (move now id newDate state)) = true ->
  exists milestone,
    find (fun m => String.eqb (Milestone.id m) id) (PostProState.milestones state)
    = Some milestone
    /\ find (fun m => String.eqb (Milestone.id m) id)
            (PostProState.milestones (fst (move now id newDate state)))
       = Some (Milestone.withSchedule milestone newDate now).
Proof.
  unfold moveMilestone.
  destruct (find _ (PostProState.milestones state)) as [milestone|] eqn:Hfind;
    [|simpl; discriminate].
  destruct (existsb _ _); [simpl; discriminate|].
  intros _. exists milestone. split; [reflexivity|]. simpl.
  fold (reschedule now id newDate).
  rewrite find_map_stable.
  - rewrite Hfind. simpl. unfold reschedule.
    rewrite (find_picks _ _ _ Hfind). reflexivity.
  - intros x. rewrite reschedule_id. reflexivity.
Qed.

(** C1.  A move that reports failure leaves the state, hence every
    milestone and the scheduled date of the target, as it was; a move that
    reports success (with or without conflicts attached) leaves the target
    milestone scheduled exactly on the requested date. *)
Theorem move_rejects_without_mutation_and_applies_exactly
        (now : Date) (id : string) (newDate : Date) (state : PostProState.t) :
  let state' := fst (move now id newDate state) in
  let outcome := snd (move now id newDate state) in
  (CommandResult.success outcome = false ->
     state' = state
     /\ PostProState.milestones state' = PostProState.milestones state
     /\ forall target,
          find (fun m => String.eqb (Milestone.id m) id) (PostProState.milestones state)
          = Some target ->
          find (fun m => String.eqb (Milestone.id m) id) (PostProState.milestones state')
          = Some target)
  /\ (CommandResult.success outcome = true ->
        exists target',
          find (fun m => String.eqb (Milestone.id m) id) (PostProState.milestones state')
          = Some target'
          /\ Milestone.scheduledDate target' = Some newDate).
Proof.
  intros state' outcome. split.
  - intros Hfail. pose proof (move_failure_keeps_state _ _ _ _ Hfail) as Hsame.
    subst state'. rewrite Hsame. repeat split. intros target Ht. exact Ht.
  - intros Hok. destruct (move_success_target _ _ _ _ Hok) as [m [_ Hm]].
    exists (Milestone.withSchedule m newDate now). split; [exact Hm | reflexivity].
Qed.

(** C10.  A successful move keeps every collection but [milestones]; in
    [milestones] it keeps the length and the order, leaves every milestone
    with another id as it is, and changes a milestone with the target's id in
    [scheduledDate] and [updatedAt] only. *)
Theorem move_frame
        (now : Date) (id : string) (newDate : Date) (state : PostProState.t) :
  CommandResult.success (snd (move now id newDate state)) = true ->
  let state' := fst (move now id newDate state) in
  PostProState.episodes state' = PostProState.episodes state
  /\ PostProState.milestoneTypes state' = PostProState.milestoneTypes state
  /\ PostProState.calendarEvents state' = PostProState.calendarEvents state
  /\ PostProState.workItems state' = PostProState.workItems state
  /\ PostProState.sessions state' = PostProState.sessions state
  /\ PostProState.crewMembers state' = PostProState.crewMembers state
  /\ PostProState.currentProject state' = PostProState.currentProject state
  /\ Forall2 (fun m m' =>
                (Milestone.id m <> id -> m' = m)
                /\ (Milestone.id m = id ->
                      sameButSchedule m m'
                      /\ Milestone.scheduledDate m' = Some newDate
                      /\ Milestone.updatedAt m' = now))
             (PostProState.milestones state) (PostProState.milestones state').
Proof.
  intros Hok state'.
  destruct (move_success_target _ _ _ _ Hok) as [milestone [Hfind _]].
  assert (Herr : existsb ScheduleConflict.isError (check milestone newDate state) = false).
  { revert Hok. unfold moveMilestone. rewrite Hfind.
    destruct (existsb _ _); [simpl; discriminate | reflexivity]. }
  destruct (move_applied now _ _ _ _ Hfind Herr) as [Hst _].
  subst state'. rewrite Hst. simpl. repeat split.
  apply reschedule_pointwise.
Qed.

Lemma selects_none {A : Type} (P : A -> Prop) (l kept : list A) :
  (forall x, In x l -> ~ P x) -> selects P l kept -> kept = [].
Proof.
  intros Hnone Hsel. induction Hsel as [|x l kept Hx _ _|x l kept _ _ IH].
  - reflexivity.
  - exfalso. apply (Hnone x); [left; reflexivity | exact Hx].
  - apply IH. intros y Hy. apply Hnone. right. exact Hy.
Qed.

Lemma selects_unique {A : Type} (P : A -> Prop) (l kept1 kept2 : list A) :
  selects P l kept1 -> selects P l kept2 -> kept1 = kept2.
Proof.
  intros H1. revert kept2.
  induction H1 as [|x l kept Hx _ IH|x l kept Hx _ IH]; intros kept2 H2;
    inversion H2; subst; try reflexivity; try contradiction.
  - f_equal. apply IH. assumption.
  - apply IH. assumption.
Qed.

Lemma move_applied_target now id newDate state milestone :
  find (fun m => String.eqb (Milestone.id m) id) (PostProState.milestones state)
  = Some milestone ->
  existsb ScheduleConflict.isError (check milestone newDate state) = false ->
  let state' := fst (move now id newDate state) in
  (exists target',
      find (fun m => String.eqb (Milestone.id m) id) (PostProState.milestones state')
      = Some target'
      /\ Milestone.id target' = id
      /\ Milestone.scheduledDate target' = Some newDate)
  /\ Forall2 (fun m m' =>
                (Milestone.id m <> id -> m' = m)
                /\ (Milestone.id m = id -> Milestone.scheduledDate m' = Some newDate))
             (PostProState.milestones state) (PostProState.milestones state').
Proof.
  intros Hfind Herr state'.
  destruct (move_applied now id newDate state milestone Hfind Herr) as [Hst [Hok _]].
  split.
  - destruct (move_success_target _ _ _ _ Hok) as [m [Hm Hm']].
    exists (Milestone.withSchedule m newDate now).
    split; [exact Hm'|]. split; [|reflexivity].
    apply find_picks in Hm. apply String.eqb_eq in Hm. exact Hm.
  - subst state'. rewrite Hst. simpl.
    eapply Forall2_impl; [|apply reschedule_pointwise].
    intros m m' [Hother Htarget]. split; [exact Hother|].
    intros Hid. exact (proj1 (proj2 (Htarget Hid))).
Qed.

(** C3.  For a milestone that exists, the move fails exactly when the
    evaluator reports an error-severity conflict, and then returns the
    message of the dependency failure with the whole conflict list and an
    unchanged state; otherwise the move is applied and succeeds: the
    milestones with the id are scheduled on the new date, the others are as
    they were, and the conflict list is attached when it is not empty.  A
    list made of one warning does not block: when no prerequisite is late and
    the only dependent is pushed, the move succeeds, carries exactly that
    warning and leaves the milestone on the new date; this is stated once on
    the lists the evaluator builds and once without them. *)
Theorem move_fails_iff_error_conflict
        (now : Date) (id : string) (newDate : Date) (state : PostProState.t)
        (milestone : Milestone.t) :
  find (fun m => String.eqb (Milestone.id m) id) (PostProState.milestones state)
  = Some milestone ->
  let conflicts := check milestone newDate state in
  let state' := fst (move now id newDate state) in
  let outcome := snd (move now id newDate state) in
  (CommandResult.success outcome = false
   <-> exists c, In c conflicts
                 /\ ScheduleConflict.severity c = ScheduleConflict.error)
  /\ (CommandResult.success outcome = false ->
        outcome = result false "Cannot move milestone due to dependency conflicts"
                         (Some conflicts)
        /\ state' = state)
  /\ (CommandResult.success outcome = true ->
        state' = PostProState.setMilestones state
                   (map (reschedule now id newDate) (PostProState.milestones state))
        /\ (exists target',
               find (fun m => String.eqb (Milestone.id m) id)
                    (PostProState.milestones state') = Some target'
               /\ Milestone.id target' = id
               /\ Milestone.scheduledDate target' = Some newDate)
        /\ Forall2 (fun m m' =>
                      (Milestone.id m <> id -> m' = m)
                      /\ (Milestone.id m = id ->
                            Milestone.scheduledDate m' = Some newDate))
                   (PostProState.milestones state) (PostProState.milestones state')
        /\ CommandResult.conflicts outcome
           = attached conflicts
        /\ Forall (fun c => ScheduleConflict.severity c <> ScheduleConflict.error)
                  conflicts)
  /\ (forall milestoneType depType depMilestone scheduled,
        find (fun mt => String.eqb (MilestoneType.id mt)
                                   (Milestone.milestoneTypeId milestone))
             (PostProState.milestoneTypes state) = Some milestoneType ->
        prerequisiteErrors toLocaleDateString milestone newDate state milestoneType = [] ->
        dependentsOf state milestoneType = [depType] ->
        pushedDependent milestone newDate state depType = Some (depMilestone, scheduled) ->
        CommandResult.success outcome = true
        /\ CommandResult.conflicts outcome
           = Some [dependentConflict toLocaleDateString milestone newDate depType
                                     depMilestone scheduled]
        /\ ScheduleConflict.severity
             (dependentConflict toLocaleDateString milestone newDate depType
                                depMilestone scheduled)
           = ScheduleConflict.warning
        /\ exists target',
             find (fun m => String.eqb (Milestone.id m) id)
                  (PostProState.milestones state') = Some target'
             /\ Milestone.scheduledDate target' = Some newDate)
  /\ (forall milestoneType depType,
        firstWith (fun mt => MilestoneType.id mt = Milestone.milestoneTypeId milestone)
                  (PostProState.milestoneTypes state) milestoneType ->
        (forall prereqCode,
            In prereqCode (MilestoneType.requiresCompletionOf milestoneType) ->
            ~ isLate milestone newDate state prereqCode) ->
        selects (isPushedDependentOf milestone newDate state milestoneType)
                (PostProState.milestoneTypes state) [depType] ->
        CommandResult.success outcome = true
        /\ (exists w,
               CommandResult.conflicts outcome = Some [w]
               /\ warningFor milestone newDate state depType w)
        /\ exists target',
             find (fun m => String.eqb (Milestone.id m) id)
                  (PostProState.milestones state') = Some target'
             /\ Milestone.scheduledDate target' = Some newDate).
Proof.
  intros Hfind conflicts state' outcome.
  assert (Hone : forall milestoneType depType,
             firstWith (fun mt => MilestoneType.id mt
                                  = Milestone.milestoneTypeId milestone)
                       (PostProState.milestoneTypes state) milestoneType ->
             (forall prereqCode,
                 In prereqCode (MilestoneType.requiresCompletionOf milestoneType) ->
                 ~ isLate milestone newDate state prereqCode) ->
             selects (isPushedDependentOf milestone newDate state milestoneType)
                     (PostProState.milestoneTypes state) [depType] ->
             exists w, conflicts = [w]
                       /\ warningFor milestone newDate state depType w).
  { intros milestoneType depType Htype Hnone Hdeps.
    destruct (check_errors_then_warnings toLocaleDateString milestone newDate state
                                         milestoneType Htype)
      as [lateCodes [errors [pushedTypes [warnings [Hcs [Hlate [He [Hpushed Hw]]]]]]]].
    apply (selects_none _ _ _ Hnone) in Hlate. subst lateCodes.
    rewrite (selects_unique _ _ _ _ Hpushed Hdeps) in Hw.
    inversion He; subst. inversion Hw as [|d w ds ws Hwarn Hrest]; subst.
    inversion Hrest; subst. exists w. split; [exact Hcs | exact Hwarn]. }
  assert (Herr : existsb ScheduleConflict.isError conflicts = true
                 <-> exists c, In c conflicts
                               /\ ScheduleConflict.severity c = ScheduleConflict.error).
  { rewrite existsb_exists. split; intros [c [Hin Hc]]; exists c; split; try exact Hin.
    - unfold ScheduleConflict.isError in Hc.
      destruct (ScheduleConflict.severity c); try discriminate; reflexivity.
    - unfold ScheduleConflict.isError. rewrite Hc. reflexivity. }
  destruct (existsb ScheduleConflict.isError conflicts) eqn:E.
  - (* blocked *)
    pose proof (move_blocked now id newDate state milestone Hfind E) as Hmove.
    subst state' outcome. rewrite Hmove. simpl.
    split; [split; [intros _; apply Herr; reflexivity | reflexivity]|].
    split; [intros _; split; reflexivity|].
    split; [discriminate|].
    split.
    intros milestoneType depType depMilestone scheduled Htype Hpre Hdeps Hpushed.
    exfalso.
    assert (Hcs : conflicts
                  = [dependentConflict toLocaleDateString milestone newDate depType
                                       depMilestone scheduled]).
    { subst conflicts. rewrite (check_is_errors_then_warnings _ _ _ _ _ Htype).
      rewrite Hpre. unfold dependentWarnings. rewrite Hdeps. simpl.
      rewrite Hpushed. reflexivity. }
    rewrite Hcs in E. simpl in E. discriminate.
    intros milestoneType depType Htype Hnone Hdeps. exfalso.
    destruct (Hone milestoneType depType Htype Hnone Hdeps)
      as [w [Hcs [other [scheduled [_ [_ [Hsev _]]]]]]].
    rewrite Hcs in E. simpl in E. unfold ScheduleConflict.isError in E.
    rewrite Hsev in E. discriminate.
  - (* applied *)
    destruct (move_applied now id newDate state milestone Hfind E)
      as [Hst [Hok Hattached]].
    destruct (move_applied_target now id newDate state milestone Hfind E)
      as [Htarget Hothers].
    subst state' outcome. fold conflicts in Hattached.
    split.
    { split; [rewrite Hok; discriminate|].
      intros Hc. apply Herr in Hc. discriminate. }
    split; [rewrite Hok; discriminate|].
    split.
    { intros _. split; [exact Hst|]. split; [exact Htarget|].
      split; [exact Hothers|]. split; [exact Hattached|].
      apply Forall_forall. intros c Hin Hsev.
      assert (Hc : false = true) by (apply Herr; eauto).
      discriminate. }
    assert (Hmoved : exists target',
               find (fun m => String.eqb (Milestone.id m) id)
                    (PostProState.milestones (fst (move now id newDate state)))
               = Some target'
               /\ Milestone.scheduledDate target' = Some newDate).
    { destruct Htarget as [target' [Hf [_ Hsd]]]. exists target'. auto. }
    split.
    { intros milestoneType depType depMilestone scheduled Htype Hpre Hdeps Hpushed.
      split; [exact Hok|]. split; [|split; [reflexivity | exact Hmoved]].
      rewrite Hattached. subst conflicts.
      rewrite (check_is_errors_then_warnings _ _ _ _ _ Htype).
      rewrite Hpre. unfold dependentWarnings. rewrite Hdeps. simpl.
      rewrite Hpushed. reflexivity. }
    intros milestoneType depType Htype Hnone Hdeps.
    destruct (Hone milestoneType depType Htype Hnone Hdeps) as [w [Hcs Hwarn]].
    split; [exact Hok|]. split; [|exact Hmoved].
    exists w. split; [|exact Hwarn]. rewrite Hattached, Hcs. reflexivity.
Qed.

End MoveTransaction.

(** ** What-if commands *)

Section WhatIf.
Variable toLocaleDateString : Date -> string.
Variable parseISO : string -> option Date.
Variable dateOfJson : string -> Date.
Variable api_projects_get : string -> Reply RawProject.
Variable api_command : string -> string -> option string -> Reply CommandResponse.

Local Abbreviation move := (moveMilestone toLocaleDateString).
Local Abbreviation check := (checkDependencies toLocaleDateString).
Local Abbreviation process :=
  (processCommand toLocaleDateString parseISO dateOfJson api_projects_get api_command).

Lemma process_local now input state :
  interpretsLocally state = true ->
  process now input state
  = processLocally toLocaleDateString parseISO now input state.
Proof.
  unfold interpretsLocally, processCommand.
  destruct (PostProState.currentProject state) as [project|]; [|reflexivity].
  intros ->. reflexivity.
Qed.

Lemma resolveTarget_resolved now parsed state episode milestoneType milestone newDate :
  findEpisode state (target parsed) = Some episode ->
  findTypeByCode state (param "milestoneCode" (params parsed)) = Some milestoneType ->
  findMilestone state (Episode.id episode) (MilestoneType.id milestoneType)
  = Some milestone ->
  parseDateReference parseISO
    (optText (param "newDate" (params parsed)) "") now = Some newDate ->
  resolveTarget parseISO now parsed state
  = inl (episode, milestoneType, milestone, newDate).
Proof.
  intros He Ht Hm Hd. unfold resolveTarget. rewrite He, Ht, Hm, Hd. reflexivity.
Qed.

(** C5.  A command parsed as [what_if] whose episode, milestone type,
    milestone and date all resolve is answered by the local interpreter with
    [success = true] and an unchanged state, whatever the severity of the
    conflicts: the result carries the evaluator's list when it is not empty
    and the no-conflicts message otherwise, and this is the [conflicts]
    field a move of the same milestone to the same date returns, errors
    included. *)
Theorem what_if_reports_and_never_applies
        (now : Date) (input : string) (state : PostProState.t)
        (episode : Episode.t) (milestoneType : MilestoneType.t)
        (milestone : Milestone.t) (newDate : Date) :
  interpretsLocally state = true ->
  action (parseCommand input) = "what_if" ->
  findEpisode state (target (parseCommand input)) = Some episode ->
  findTypeByCode state (param "milestoneCode" (params (parseCommand input)))
  = Some milestoneType ->
  findMilestone state (Episode.id episode) (MilestoneType.id milestoneType)
  = Some milestone ->
  parseDateReference parseISO
    (optText (param "newDate" (params (parseCommand input))) "") now = Some newDate ->
  let conflicts := check milestone newDate state in
  let state' := fst (process now input state) in
  let outcome := snd (process now input state) in
  state' = state
  /\ PostProState.milestones state' = PostProState.milestones state
  /\ CommandResult.success outcome = true
  /\ CommandResult.conflicts outcome = attached conflicts
  /\ (conflicts = [] ->
        CommandResult.message outcome
        = "Moving " ++ Episode.number episode ++ " " ++ MilestoneType.code milestoneType
          ++ " to " ++ toLocaleDateString newDate ++ " would have no conflicts.")
  /\ (find (fun m => String.eqb (Milestone.id m) (Milestone.id milestone))
           (PostProState.milestones state) = Some milestone ->
        CommandResult.conflicts outcome
        = CommandResult.conflicts (snd (move now (Milestone.id milestone) newDate state))
        /\ (CommandResult.success (snd (move now (Milestone.id milestone) newDate state))
            = false ->
              CommandResult.conflicts outcome = Some conflicts
              /\ existsb ScheduleConflict.isError conflicts = true)).
Proof.
  intros Hlocal Haction He Ht Hm Hd conflicts state' outcome.
  subst state' outcome. rewrite (process_local _ _ _ Hlocal).
  unfold processLocally. rewrite Haction. simpl String.eqb.
  rewrite (resolveTarget_resolved _ _ _ _ _ _ _ He Ht Hm Hd).
  fold conflicts.
  assert (Hshape :
            (conflicts = [] /\ Nat.eqb (List.length conflicts) 0 = true)
            \/ (attached conflicts = Some conflicts
                /\ Nat.eqb (List.length conflicts) 0 = false)).
  { destruct conflicts; [left | right]; split; reflexivity. }
  assert (Hmove :
            find (fun m => String.eqb (Milestone.id m) (Milestone.id milestone))
                 (PostProState.milestones state) = Some milestone ->
            CommandResult.conflicts (snd (move now (Milestone.id milestone) newDate state))
            = attached conflicts
            /\ (CommandResult.success
                  (snd (move now (Milestone.id milestone) newDate state)) = false ->
                attached conflicts = Some conflicts
                /\ existsb ScheduleConflict.isError conflicts = true)).
  { intros Hfind. destruct (existsb ScheduleConflict.isError conflicts) eqn:E.
    - rewrite (move_blocked _ _ _ _ _ _ Hfind E). simpl. fold conflicts.
      assert (Hatt : attached conflicts = Some conflicts).
      { destruct conflicts; [discriminate E | reflexivity]. }
      rewrite Hatt. repeat split.
    - destruct (move_applied _ now _ _ _ _ Hfind E) as [_ [Hok Hatt]].
      split; [exact Hatt|]. rewrite Hok. discriminate. }
  assert (Hrest :
            forall outcome,
              CommandResult.success outcome = true ->
              CommandResult.conflicts outcome = attached conflicts ->
              CommandResult.success outcome = true
              /\ CommandResult.conflicts outcome = attached conflicts
              /\ (find (fun m => String.eqb (Milestone.id m) (Milestone.id milestone))
                       (PostProState.milestones state) = Some milestone ->
                  CommandResult.conflicts outcome
                  = CommandResult.conflicts
                      (snd (move now (Milestone.id milestone) newDate state))
                  /\ (CommandResult.success
                        (snd (move now (Milestone.id milestone) newDate state)) = false ->
                      CommandResult.conflicts outcome = Some conflicts
                      /\ existsb ScheduleConflict.isError conflicts = true))).
  { intros outcome Hok Hc. split; [exact Hok|]. split; [exact Hc|].
    intros Hfind. destruct (Hmove Hfind) as [H1 H2]. rewrite Hc, H1.
    split; [reflexivity|]. exact H2. }
  destruct Hshape as [[Hnil Hlen] | [Hatt Hlen]]; rewrite Hlen; simpl.
  - split; [reflexivity|]. split; [reflexivity|].
    destruct (Hrest (result true
                       ("Moving " ++ Episode.number episode ++ " "
                        ++ MilestoneType.code milestoneType ++ " to "
                        ++ toLocaleDateString newDate ++ " would have no conflicts.")
                       None) eq_refl) as [H1 [H2 H3]].
    { rewrite Hnil. reflexivity. }
    split; [exact H1|]. split; [exact H2|]. split; [|exact H3].
    intros _. reflexivity.
  - split; [reflexivity|]. split; [reflexivity|].
    destruct (Hrest (result true
                       ("Moving " ++ Episode.number episode ++ " "
                        ++ MilestoneType.code milestoneType ++ " to "
                        ++ toLocaleDateString newDate ++ " would cause "
                        ++ ofNat (List.length conflicts) ++ " issue(s):")
                       (Some conflicts)) eq_refl) as [H1 [H2 H3]].
    { rewrite Hatt. reflexivity. }
    split; [exact H1|]. split; [exact H2|]. split; [|exact H3].
    intros Hnil. rewrite Hnil in Hlen. discriminate.
Qed.

End WhatIf.

(** ** The command parser on the documented phrasings *)

(** The phrasings quoted in the comments of [parseCommand]. *)
Example parseCommand_source_phrasings :
  parseCommand "move 304's FPL to 12/15"
  = {| action := "move"; target := Some "304";
       params := [("milestoneCode", "FPL"); ("newDate", "12/15")] |}
  /\ parseCommand "what if 304 lock slips to next friday"
     = {| action := "what_if"; target := Some "304";
          params := [("milestoneCode", "LOCK"); ("newDate", "next friday")] |}
  /\ parseCommand "show me this week"
     = {| action := "show"; target := Some "this week"; params := [] |}
  /\ parseCommand "show 304"
     = {| action := "show"; target := Some "304"; params := [] |}
  /\ parseCommand "what's blocking 306?"
     = {| action := "blocking"; target := Some "306"; params := [] |}
  /\ parseCommand "list VFX shots for 302"
     = {| action := "list"; target := Some "302"; params := [("type", "vfx")] |}
  /\ parseCommand "good morning"
     = {| action := "unknown"; target := None; params := [("raw", "good morning")] |}.
Proof. repeat split; vm_compute; reflexivity. Qed.

(** The match array of the move pattern, and backtracking in its optional
    parts: without "to" the date text starts right after the code. *)
Example moveRe_captures :
  exec true 3 moveRe "move 304 lock to friday"
  = Some [Some "move 304 lock to friday"; Some "304"; Some "lock"; Some "friday"]
  /\ exec true 3 moveRe "please move 7's ec monday"
     = Some [Some "move 7's ec monday"; Some "7"; Some "ec"; Some "monday"]
  /\ exec true 3 moveRe "move lock to friday" = None.
Proof. repeat split; vm_compute; reflexivity. Qed.


(** C8.  [parseCommand] turns "move 304 lock to Friday" into a move of
    episode reference "304" and milestone code "LOCK" whose date text is
    "friday": the input is lower-cased before matching and only the code is
    put back in upper case.  "what's late?" is the late query, with no
    target. *)
Theorem parseCommand_documented_phrasings :
  parseCommand "move 304 lock to Friday"
  = {| action := "move";
       target := Some "304";
       params := [("milestoneCode", "LOCK"); ("newDate", "friday")] |}
  /\ parseCommand "what's late?"
     = {| action := "late"; target := None; params := [] |}.
Proof. split; vm_compute; reflexivity. Qed.

(** The date text of the parsed move is not the "Friday" of the input. *)
Lemma parseCommand_date_text_not_capitalized :
  ~ (action (parseCommand "move 304 lock to Friday") = "move"
     /\ target (parseCommand "move 304 lock to Friday") = Some "304"
     /\ param "milestoneCode" (params (parseCommand "move 304 lock to Friday"))
        = Some "LOCK"
     /\ param "newDate" (params (parseCommand "move 304 lock to Friday"))
        = Some "Friday").
Proof. vm_compute. intros [_ [_ [_ H]]]. discriminate H. Qed.

(** ** Catalogs and cycles *)

(** A graph whose edges all go down along a rank has no cycle. *)
Lemma ranked_graph_acyclic graph (rank : string -> nat) :
  (forall a b, requires graph a b -> (rank b < rank a)%nat) ->
  ~ cyclic graph.
Proof.
  intros Hrank [c Hc].
  assert (H : forall a b, reaches graph a b -> (rank b < rank a)%nat).
  { intros a b Hab. induction Hab as [a b Hab | a b c' Hab _ IH].
    - apply Hrank. exact Hab.
    - apply Hrank in Hab. lia. }
  apply H in Hc. lia.
Qed.

Lemma demo_catalog_acyclic now : ~ cyclic (prerequisiteGraph (demoMilestoneTypes now)).
Proof.
  apply (ranked_graph_acyclic _ demoRank).
  intros a b [prereqs [Hin Hb]]. simpl in Hin.
  repeat (destruct Hin as [Hin | Hin];
          [inversion Hin; subst; simpl in Hb;
           repeat (destruct Hb as [Hb | Hb]; [subst; vm_compute; lia|]);
           contradiction|]).
  contradiction.
Qed.

Lemma mapi_graph {A : Type} (f : A -> nat -> MilestoneType.t)
      (g : A -> string * list string) (l : list A) (i : nat) :
  (forall x n, (MilestoneType.code (f x n),
                MilestoneType.requiresCompletionOf (f x n)) = g x) ->
  prerequisiteGraph (mapi f l i) = map g l.
Proof.
  intros Hf. revert i. induction l as [|x l IH]; intros i; simpl; [reflexivity|].
  rewrite Hf. f_equal. apply IH.
Qed.

Section CatalogIngestion.
Variable dateOfJson : string -> Date.
Variable api_projects_get : string -> Reply RawProject.
Variable api_projects_create : OnboardingData -> Reply string.
Variable api_milestoneTypes_create : string -> OnboardingMilestoneType -> Reply unit.

(** C4, as the code has it.  No path that installs a catalog looks for
    cycles.  [fetchProjectData] installs the prerequisite graph it received,
    code by code and edge by edge (a missing list counting as empty).
    [createProjectFromOnboarding] installs what [fetchProjectData] installs
    when the backend accepted the project and all its milestone types, and
    the graph of the wizard when the backend refused the project or any of
    its types: a cyclic catalog is installed as it is, with no error
    recorded, and no edge is ever dropped.  The built-in demo catalog,
    installed by [loadDemoData] and when the request fails, is acyclic. *)
Theorem catalog_installed_as_received :
  (forall now projectId state project,
      api_projects_get projectId = Resolved project ->
      let state' := fetchProjectData dateOfJson api_projects_get now projectId state in
      prerequisiteGraph (PostProState.milestoneTypes state') = receivedGraph project
      /\ (cyclic (prerequisiteGraph (PostProState.milestoneTypes state'))
          <-> cyclic (receivedGraph project))
      /\ PostProState.error state' = PostProState.error state)
  /\ (forall now projectId state message,
        api_projects_get projectId = Rejected message ->
        fetchProjectData dateOfJson api_projects_get now projectId state
        = loadDemoData now state)
  /\ (forall now onboardingData state,
        onboardingRefused api_projects_create api_milestoneTypes_create onboardingData
        = true ->
        let state' :=
          createProjectFromOnboarding dateOfJson api_projects_get api_projects_create
                                      api_milestoneTypes_create now onboardingData state in
        prerequisiteGraph (PostProState.milestoneTypes state')
        = onboardingGraph onboardingData
        /\ (cyclic (prerequisiteGraph (PostProState.milestoneTypes state'))
            <-> cyclic (onboardingGraph onboardingData))
        /\ PostProState.error state' = None)
  /\ (forall now onboardingData state projectId,
        api_projects_create onboardingData = Resolved projectId ->
        onboardingRefused api_projects_create api_milestoneTypes_create onboardingData
        = false ->
        let state' :=
          createProjectFromOnboarding dateOfJson api_projects_get api_projects_create
                                      api_milestoneTypes_create now onboardingData state in
        PostProState.milestoneTypes state'
        = PostProState.milestoneTypes
            (fetchProjectData dateOfJson api_projects_get now projectId state)
        /\ PostProState.error state' = None)
  /\ (forall now state,
        ~ cyclic (prerequisiteGraph (PostProState.milestoneTypes (loadDemoData now state)))).
Proof.
  split; [|split; [|split; [|split]]].
  - intros now projectId state project Hget state'.
    assert (Hgraph : prerequisiteGraph (PostProState.milestoneTypes state')
                     = receivedGraph project).
    { subst state'. unfold fetchProjectData. rewrite Hget. simpl.
      unfold prerequisiteGraph, receivedGraph. rewrite map_map. reflexivity. }
    split; [exact Hgraph|]. split; [rewrite Hgraph; tauto|].
    subst state'. unfold fetchProjectData. rewrite Hget. reflexivity.
  - intros now projectId state message Hget.
    unfold fetchProjectData. rewrite Hget. reflexivity.
  - intros now onboardingData state Hrefused state'.
    assert (Hcreated :
              match api_projects_create onboardingData with
              | Resolved projectId =>
                  if forallb (fun mt => isResolved (api_milestoneTypes_create projectId mt))
                             (onboardingMilestoneTypes onboardingData)
                  then Some projectId else None
              | Rejected _ => None
              end = None).
    { revert Hrefused. unfold onboardingRefused.
      destruct (api_projects_create onboardingData) as [projectId|message];
        [|reflexivity].
      destruct (forallb _ _); [discriminate | reflexivity]. }
    assert (Hgraph : prerequisiteGraph (PostProState.milestoneTypes state')
                     = onboardingGraph onboardingData).
    { subst state'. unfold createProjectFromOnboarding. rewrite Hcreated. simpl.
      apply mapi_graph. intros x n. reflexivity. }
    split; [exact Hgraph|]. split; [rewrite Hgraph; tauto|].
    subst state'. unfold createProjectFromOnboarding. rewrite Hcreated. reflexivity.
  - intros now onboardingData state projectId Hcreate Haccepted state'.
    subst state'. unfold createProjectFromOnboarding.
    revert Haccepted. unfold onboardingRefused. rewrite Hcreate.
    destruct (forallb _ _); [|discriminate]. intros _. split; reflexivity.
  - intros now state. exact (demo_catalog_acyclic now).
Qed.

End CatalogIngestion.

(** The cyclic catalog is loaded: the store holds both types with their
    edges, and reports no error. *)
Lemma cyclic_catalog_is_accepted :
  cyclic (prerequisiteGraph (PostProState.milestoneTypes stateWithCyclicCatalog))
  /\ prerequisiteGraph (PostProState.milestoneTypes stateWithCyclicCatalog)
     = [("A", ["B"]); ("B", ["A"])]
  /\ option_map Project.id (PostProState.currentProject stateWithCyclicCatalog)
     = Some "p1"
  /\ PostProState.error stateWithCyclicCatalog = None.
Proof.
  split; [|repeat split].
  exists "A". apply reaches_more with (b := "B").
  - exists ["B"]. simpl. split; [left; reflexivity | left; reflexivity].
  - apply reaches_step. exists ["A"]. simpl.
    split; [right; left; reflexivity | left; reflexivity].
Qed.

(** ** The date parser: names of the days of the week *)

Lemma findIndexFrom_bounds {A : Type} (p : A -> bool) (l : list A) (i j : Z) :
  findIndexFrom p l i = Some j -> i <= j < i + Z.of_nat (List.length l).
Proof.
  revert i. induction l as [|x l IH]; intros i; simpl; [discriminate|].
  destruct (p x).
  - intros H. inversion H; subst. lia.
  - intros H. apply IH in H. lia.
Qed.

Lemma findIndexFrom_found {A : Type} (p : A -> bool) (l : list A) (i j : Z) :
  findIndexFrom p l i = Some j ->
  exists x, nth_error l (Z.to_nat (j - i)) = Some x /\ p x = true
            /\ forall k y, (k < Z.to_nat (j - i))%nat -> nth_error l k = Some y ->
                           p y = false.
Proof.
  revert i. induction l as [|x l IH]; intros i; simpl; [discriminate|].
  destruct (p x) eqn:Hp.
  - intros H. inversion H; subst. rewrite Z.sub_diag. simpl.
    exists x. repeat split; try assumption. intros k y Hk. lia.
  - intros H. pose proof (findIndexFrom_bounds _ _ _ _ H) as Hb.
    destruct (IH _ H) as [y [Hy [Hpy Hbefore]]].
    replace (Z.to_nat (j - i)) with (S (Z.to_nat (j - (i + 1)))) by lia.
    exists y. simpl. repeat split; try assumption.
    intros k z Hk Hz. destruct k as [|k]; simpl in Hz.
    + inversion Hz; subst. exact Hp.
    + apply (Hbefore k z); [lia | exact Hz].
Qed.

Lemma getDay_range r cur : getDay r = Some cur -> 0 <= cur <= 6.
Proof.
  destruct r as [t|]; simpl; [|discriminate].
  intros H. inversion H. unfold weekDay.
  pose proof (Z.mod_pos_bound (dayNumber t + 4) 7). lia.
Qed.

Lemma weekDay_shift dn n : weekDay (dn + n) = (weekDay dn + n) mod 7.
Proof.
  unfold weekDay. rewrite Zplus_mod_idemp_l. f_equal. lia.
Qed.

Lemma dayNumber_shift t n : dayNumber (t + n * msPerDay) = dayNumber t + n.
Proof. unfold dayNumber, msPerDay. apply Z.div_add. lia. Qed.

Section DayNames.
Variable parseISO : string -> option Date.

Lemma day_name_branch text r i :
  findIndex (fun d => includes (trim (toLowerCase text)) d) daysOfWeek = Some i ->
  parseDateReference parseISO text r
  = Some (addDays r
            (let daysToAdd := numSub (Some i) (getDay r) in
             let daysToAdd :=
               if numLeZero daysToAdd then numAdd daysToAdd 7 else daysToAdd in
             if includes (trim (toLowerCase text)) "next"
             then numAdd daysToAdd 7 else daysToAdd)).
Proof.
  intros Hday. unfold parseDateReference.
  destruct (String.eqb_spec (trim (toLowerCase text)) "today") as [E|_];
    [rewrite E in Hday; vm_compute in Hday; discriminate|].
  destruct (String.eqb_spec (trim (toLowerCase text)) "tomorrow") as [E|_];
    [rewrite E in Hday; vm_compute in Hday; discriminate|].
  destruct (String.eqb_spec (trim (toLowerCase text)) "yesterday") as [E|_];
    [rewrite E in Hday; vm_compute in Hday; discriminate|].
  rewrite Hday. reflexivity.
Qed.

(** C6, as the code has it.  When the text, lower-cased and trimmed,
    contains a name of a day, [dayIndex] being the first of sunday to
    saturday that it contains, the parser returns the reference date moved
    forward by [daysUntilNext] days, 1 to 7 of them, to the next such day
    strictly after the reference date (a week later when the reference date
    is itself that day), and by 7 more days when the text contains "next".
    On a Monday, "Friday" is the reference date plus four days. *)
Theorem day_name_resolves_strictly_after :
  (forall text r i cur,
      findIndex (fun d => includes (trim (toLowerCase text)) d) daysOfWeek = Some i ->
      getDay r = Some cur ->
      let extra := if includes (trim (toLowerCase text)) "next" then 7 else 0 in
      let n := daysUntilNext i cur + extra in
      parseDateReference parseISO text r = Some (addDays r (Some n))
      /\ (exists name, nth_error daysOfWeek (Z.to_nat i) = Some name
                       /\ includes (trim (toLowerCase text)) name = true)
      /\ 1 <= daysUntilNext i cur <= 7
      /\ (cur + n) mod 7 = i
      /\ (forall t, r = MkDate t -> Z.abs (t + n * msPerDay) <= maxTime ->
            addDays r (Some n) = MkDate (t + n * msPerDay)
            /\ getDay (addDays r (Some n)) = Some i))
  /\ (forall r, getDay r = Some 1 ->
        parseDateReference parseISO "Friday" r = Some (addDays r (Some 4))).
Proof.
  split.
  - intros text r i cur Hday Hcur extra n.
    pose proof (getDay_range _ _ Hcur) as Hrange.
    pose proof (findIndexFrom_bounds _ _ _ _ Hday) as Hi. simpl in Hi.
    destruct (findIndexFrom_found _ _ _ _ Hday) as [name [Hname [Hin _]]].
    rewrite Z.sub_0_r in Hname.
    assert (Hn : 1 <= daysUntilNext i cur <= 7).
    { unfold daysUntilNext. destruct (Z.leb_spec (i - cur) 0); lia. }
    assert (Hmod : (cur + n) mod 7 = i).
    { subst n extra. unfold daysUntilNext.
      destruct (Z.leb_spec (i - cur) 0);
        destruct (includes (trim (toLowerCase text)) "next");
        Z.div_mod_to_equations; lia. }
    split.
    { rewrite (day_name_branch _ _ _ Hday). rewrite Hcur. simpl.
      subst n extra. unfold daysUntilNext.
      destruct (i - cur <=? 0); simpl;
        destruct (includes (trim (toLowerCase text)) "next"); simpl;
        do 3 f_equal; lia. }
    split; [exists name; split; assumption|].
    split; [exact Hn|]. split; [exact Hmod|].
    intros t -> Hfits. simpl in Hcur. inversion Hcur as [Hcur'].
    assert (Hclip : addDays (MkDate t) (Some n) = MkDate (t + n * msPerDay)).
    { unfold addDays, timeClip. destruct (Z.leb_spec (Z.abs (t + n * msPerDay)) maxTime);
        [reflexivity | lia]. }
    split; [exact Hclip|]. rewrite Hclip. simpl.
    rewrite dayNumber_shift, weekDay_shift. f_equal. rewrite Hcur'. exact Hmod.
  - intros r Hcur.
    assert (Hday : findIndex (fun d => includes (trim (toLowerCase "Friday")) d)
                             daysOfWeek = Some 5) by (vm_compute; reflexivity).
    rewrite (day_name_branch _ _ _ Hday). rewrite Hcur. reflexivity.
Qed.

End DayNames.

(** On Monday 2024-01-01 the text "monday" resolves to Monday 2024-01-08,
    although the reference date is itself the next Monday on or after it. *)
Lemma monday_on_a_monday_is_next_week :
  parseDateReference Sample.parseISO "monday" (Sample.midnight 2024 1 1)
  = Some (Sample.midnight 2024 1 8)
  /\ getDay (Sample.midnight 2024 1 1) = Some 1
  /\ nextOnOrAfter 1 (Sample.midnight 2024 1 1) false = Sample.midnight 2024 1 1
  /\ parseDateReference Sample.parseISO "monday" (Sample.midnight 2024 1 1)
     <> Some (nextOnOrAfter 1 (Sample.midnight 2024 1 1) false).
Proof.
  split; [vm_compute; reflexivity|].
  split; [vm_compute; reflexivity|].
  split; [vm_compute; reflexivity|].
  vm_compute. discriminate.
Qed.

(** ** Calendar dates and day numbers *)

Lemma validCivil_bounds y m d :
  validCivil y m d = true -> 1 <= m <= 12 /\ 1 <= d <= 31.
Proof.
  unfold validCivil, daysInMonth. rewrite !andb_true_iff, !Z.leb_le.
  intros [[[H1 H2] H3] H4].
  destruct (m =? 2); [destruct (isLeapYear y); lia|].
  destruct ((m =? 4) || (m =? 6) || (m =? 9) || (m =? 11)); lia.
Qed.

Lemma isLeapYear_true y :
  isLeapYear y = true -> y mod 4 = 0 /\ (y mod 100 <> 0 \/ y mod 400 = 0).
Proof.
  unfold isLeapYear. rewrite orb_true_iff, andb_true_iff, negb_true_iff.
  rewrite !Z.eqb_eq, Z.eqb_neq. intros H. Z.div_mod_to_equations. lia.
Qed.

(** Years of 400-year eras start on March 1.  The year of the era is read
    back from the day of the era; day 365 of such a year exists only before
    a leap February. *)
Lemma yoe_recovered yoe doy :
  0 <= yoe <= 399 -> 0 <= doy <= 365 ->
  (doy = 365 ->
   (yoe + 1) mod 4 = 0 /\ ((yoe + 1) mod 100 <> 0 \/ (yoe + 1) mod 400 = 0)) ->
  let doe := yoe * 365 + yoe / 4 - yoe / 100 + doy in
  (doe - doe / 1460 + doe / 36524 - doe / 146096) / 365 = yoe.
Proof.
  intros Hy Hd Hleap doe. subst doe.
  Z.div_mod_to_equations; lia.
Qed.

Lemma doe_range yoe doy :
  0 <= yoe <= 399 -> 0 <= doy <= 365 ->
  (doy = 365 ->
   (yoe + 1) mod 4 = 0 /\ ((yoe + 1) mod 100 <> 0 \/ (yoe + 1) mod 400 = 0)) ->
  0 <= yoe * 365 + yoe / 4 - yoe / 100 + doy < 146097.
Proof.
  intros Hy Hd Hleap. Z.div_mod_to_equations; lia.
Qed.

(** The civil date of day [doy] of year [yoe] of era [era]. *)
Lemma civilFromDays_parts era yoe doy :
  0 <= yoe <= 399 -> 0 <= doy <= 365 ->
  (doy = 365 ->
   (yoe + 1) mod 4 = 0 /\ ((yoe + 1) mod 100 <> 0 \/ (yoe + 1) mod 400 = 0)) ->
  civilFromDays (era * 146097 + (yoe * 365 + yoe / 4 - yoe / 100 + doy) - 719468)
  = let mp := (5 * doy + 2) / 153 in
    let m := if mp <? 10 then mp + 3 else mp - 9 in
    (if m <=? 2 then yoe + era * 400 + 1 else yoe + era * 400,
     m, doy - (153 * mp + 2) / 5 + 1).
Proof.
  intros Hy Hd Hleap. unfold civilFromDays.
  pose proof (doe_range yoe doy Hy Hd Hleap) as Hdoe.
  set (doe := yoe * 365 + yoe / 4 - yoe / 100 + doy) in *.
  replace (era * 146097 + doe - 719468 + 719468) with (doe + era * 146097) by lia.
  rewrite Z.div_add by lia. rewrite (Z.div_small doe 146097) by lia.
  replace (doe + era * 146097 - (0 + era) * 146097) with doe by lia.
  assert (Hyoe : (doe - doe / 1460 + doe / 36524 - doe / 146096) / 365 = yoe)
    by (apply yoe_recovered; assumption).
  rewrite Hyoe.
  replace (doe - (365 * yoe + yoe / 4 - yoe / 100)) with doy by (subst doe; lia).
  replace (yoe + (0 + era) * 400) with (yoe + era * 400) by lia.
  reflexivity.
Qed.

(** The month, counted from March, is read back from the day of the
    year. *)
Lemma month_recovered y m d :
  validCivil y m d = true ->
  let mp := if m <=? 2 then m + 9 else m - 3 in
  let doy := (153 * mp + 2) / 5 + d - 1 in
  0 <= doy <= 365
  /\ (doy = 365 -> m = 2 /\ d = 29)
  /\ (5 * doy + 2) / 153 = mp.
Proof.
  intros Hv mp doy. revert Hv.
  unfold validCivil, daysInMonth. rewrite !andb_true_iff, !Z.leb_le.
  intros [[[H1 H2] H3] H4].
  assert (Hm : m = 1 \/ m = 2 \/ m = 3 \/ m = 4 \/ m = 5 \/ m = 6 \/ m = 7
               \/ m = 8 \/ m = 9 \/ m = 10 \/ m = 11 \/ m = 12) by lia.
  assert (Hd : d <= 31 /\ (m = 2 -> d <= 29)
               /\ (m = 4 \/ m = 6 \/ m = 9 \/ m = 11 -> d <= 30)).
  { repeat destruct Hm as [Hm|Hm]; subst m; simpl in H4;
      try destruct (isLeapYear y); lia. }
  subst doy mp.
  repeat destruct Hm as [Hm|Hm]; subst m;
    match goal with
    | |- context [if ?b then _ else _] =>
        let v := eval vm_compute in b in change b with v
    end; cbv iota; Z.div_mod_to_equations; lia.
Qed.

(** [civilFromDays] inverts [daysFromCivil] on the days of the calendar. *)
Lemma civil_round_trip y m d :
  validCivil y m d = true -> civilFromDays (daysFromCivil y m d) = (y, m, d).
Proof.
  intros Hv. pose proof (month_recovered y m d Hv) as Hmonth.
  cbv zeta in Hmonth.
  assert (Hbounds : 1 <= m <= 12 /\ (m = 2 -> d = 29 -> isLeapYear y = true)).
  { revert Hv. unfold validCivil, daysInMonth. rewrite !andb_true_iff, !Z.leb_le.
    intros [[[H1 H2] H3] H4]. split; [lia|]. intros -> ->.
    simpl in H4. destruct (isLeapYear y); [reflexivity | lia]. }
  destruct Hbounds as [Hm Hleap].
  unfold daysFromCivil.
  set (y' := if m <=? 2 then y - 1 else y).
  set (mp := if m <=? 2 then m + 9 else m - 3) in *.
  set (doy := (153 * mp + 2) / 5 + d - 1) in *.
  destruct Hmonth as [Hdoy [Hfeb Hmp]].
  set (era := y' / 400).
  assert (Hyoe : 0 <= y' - era * 400 <= 399).
  { subst era. Z.div_mod_to_equations. lia. }
  rewrite civilFromDays_parts; [| exact Hyoe | exact Hdoy |].
  - cbv zeta. rewrite Hmp.
    replace (doy - (153 * mp + 2) / 5 + 1) with d by (subst doy; lia).
    subst mp y'. destruct (Z.leb_spec m 2).
    + replace (m + 9 <? 10) with false by (symmetry; apply Z.ltb_ge; lia).
      replace (m + 9 - 9) with m by lia.
      replace (m <=? 2) with true by (symmetry; apply Z.leb_le; lia).
      f_equal. f_equal. lia.
    + replace (m - 3 <? 10) with true by (symmetry; apply Z.ltb_lt; lia).
      replace (m - 3 + 3) with m by lia.
      replace (m <=? 2) with false by (symmetry; apply Z.leb_gt; lia).
      f_equal. f_equal. lia.
  - intros H365. destruct (Hfeb H365) as [-> ->].
    pose proof (isLeapYear_true y (Hleap eq_refl eq_refl)) as Hy.
    subst y' era. change (2 <=? 2) with true. cbv iota.
    Z.div_mod_to_equations. lia.
Qed.

Lemma timeClip_fits t : Z.abs t <= maxTime -> timeClip t = MkDate t.
Proof.
  intros H. unfold timeClip.
  destruct (Z.leb_spec (Z.abs t) maxTime); [reflexivity|lia].
Qed.

Lemma daysFromCivil_day y m d : daysFromCivil y m 1 + d - 1 = daysFromCivil y m d.
Proof. unfold daysFromCivil. lia. Qed.

Lemma daysFromCivil_fits y m d :
  -200000 <= y <= 200000 -> 1 <= m <= 12 -> 1 <= d <= 31 ->
  Z.abs (daysFromCivil y m d * msPerDay) <= maxTime.
Proof.
  intros Hy Hm Hd. unfold daysFromCivil, msPerDay, maxTime.
  destruct (m <=? 2); Z.div_mod_to_equations; lia.
Qed.

(** [new Date(y, m - 1, d)] for a day of the calendar in a year from 100
    on: local midnight of that day. *)
Lemma newDate_civil y m d :
  validCivil y m d = true -> 100 <= y <= 200000 ->
  newDate (Some y) (m - 1) d = MkDate (daysFromCivil y m d * msPerDay)
  /\ getFullYear (newDate (Some y) (m - 1) d) = Some y
  /\ getMonth (newDate (Some y) (m - 1) d) = Some (m - 1)
  /\ getDate (newDate (Some y) (m - 1) d) = Some d.
Proof.
  intros Hv Hy. destruct (validCivil_bounds _ _ _ Hv) as [Hm Hd].
  assert (E : newDate (Some y) (m - 1) d = MkDate (daysFromCivil y m d * msPerDay)).
  { unfold newDate.
    replace ((0 <=? y) && (y <=? 99)) with false
      by (symmetry; apply andb_false_iff; right; apply Z.leb_gt; lia).
    replace ((m - 1) / 12) with 0 by (symmetry; apply Z.div_small; lia).
    replace ((m - 1) mod 12) with (m - 1) by (symmetry; apply Z.mod_small; lia).
    replace (y + 0) with y by lia. replace (m - 1 + 1) with m by lia.
    rewrite daysFromCivil_day. apply timeClip_fits.
    apply daysFromCivil_fits; lia. }
  rewrite E. split; [reflexivity|].
  unfold getFullYear, getMonth, getDate, dayNumber.
  rewrite Z.div_mul by (unfold msPerDay; lia).
  rewrite (civil_round_trip _ _ _ Hv). repeat split.
Qed.

(** ** The date parser: slash-delimited dates and unrecognized texts *)

Lemma allChars_app P s1 s2 :
  allChars P (s1 ++ s2) = allChars P s1 && allChars P s2.
Proof.
  induction s1 as [|c s1 IH]; simpl; [reflexivity|].
  rewrite IH, andb_assoc. reflexivity.
Qed.

Lemma allChars_weaken (P Q : ascii -> bool) s :
  (forall c, P c = true -> Q c = true) -> allChars P s = true -> allChars Q s = true.
Proof.
  intros HPQ. induction s as [|c s IH]; simpl; [reflexivity|].
  rewrite !andb_true_iff. intros [Hc Hs]. auto.
Qed.

Lemma toLowerCase_fixed P s :
  (forall c, P c = true -> isUpper c = false) ->
  allChars P s = true -> toLowerCase s = s.
Proof.
  intros HP. unfold toLowerCase.
  induction s as [|c s IH]; simpl; [reflexivity|].
  rewrite andb_true_iff. intros [Hc Hs].
  rewrite (IH Hs). unfold lowerChar. rewrite (HP c Hc). reflexivity.
Qed.

Lemma trimEnd_fixed P s :
  (forall c, P c = true -> isSpace c = false) ->
  allChars P s = true -> trimEnd s = s.
Proof.
  intros HP. induction s as [|c s IH]; simpl; [reflexivity|].
  rewrite andb_true_iff. intros [Hc Hs]. rewrite (IH Hs).
  destruct s; [rewrite (HP c Hc)|]; reflexivity.
Qed.

Lemma trim_fixed P s :
  (forall c, P c = true -> isSpace c = false) ->
  allChars P s = true -> trim s = s.
Proof.
  intros HP Hs. unfold trim.
  assert (Hstart : trimStart s = s).
  { destruct s as [|c s]; simpl; [reflexivity|].
    simpl in Hs. apply andb_true_iff in Hs. destruct Hs as [Hc _].
    rewrite (HP c Hc). reflexivity. }
  rewrite Hstart. apply (trimEnd_fixed P); assumption.
Qed.

(** A pattern that starts with a character foreign to the text does not
    occur in it, and is not the text. *)
Lemma includes_foreign P s c p :
  P c = false -> allChars P s = true -> includes s (String c p) = false.
Proof.
  intros Hc. induction s as [|x s IH]; simpl; [reflexivity|].
  rewrite andb_true_iff. intros [Hx Hs]. rewrite (IH Hs), orb_false_r.
  destruct (Ascii.eqb_spec c x) as [E|_]; [|reflexivity].
  subst x. congruence.
Qed.

Lemma eqb_foreign P s c p :
  P c = false -> allChars P s = true -> String.eqb s (String c p) = false.
Proof.
  intros Hc Hs. destruct s as [|x s]; simpl; [reflexivity|].
  simpl in Hs. apply andb_true_iff in Hs. destruct Hs as [Hx _].
  destruct (Ascii.eqb_spec x c) as [E|_]; [|reflexivity].
  subst x. congruence.
Qed.

Lemma digit_not_upper c : isDigit c = true -> isUpper c = false.
Proof.
  unfold isDigit, isUpper, between. rewrite andb_true_iff, andb_false_iff.
  rewrite !N.leb_le, !N.leb_gt. lia.
Qed.

Lemma digit_not_space c : isDigit c = true -> isSpace c = false.
Proof.
  unfold isDigit, isSpace, between.
  rewrite andb_true_iff, orb_false_iff, andb_false_iff.
  rewrite !N.leb_le, !N.leb_gt, N.eqb_neq. lia.
Qed.

Lemma digit_not_slash c : isDigit c = true -> Ascii.eqb "/" c = false.
Proof.
  intros H. destruct (Ascii.eqb_spec "/" c) as [E|E]; [|reflexivity].
  subst c. vm_compute in H. discriminate.
Qed.

Lemma slashChar_not_upper c : isSlashChar c = true -> isUpper c = false.
Proof.
  unfold isSlashChar. rewrite orb_true_iff. intros [H|H].
  - apply digit_not_upper. exact H.
  - apply Ascii.eqb_eq in H. subst c. reflexivity.
Qed.

Lemma slashChar_not_space c : isSlashChar c = true -> isSpace c = false.
Proof.
  unfold isSlashChar. rewrite orb_true_iff. intros [H|H].
  - apply digit_not_space. exact H.
  - apply Ascii.eqb_eq in H. subst c. reflexivity.
Qed.

Lemma digitString_chars lo hi s :
  digitString lo hi s = true -> allChars isSlashChar s = true.
Proof.
  unfold digitString. rewrite !andb_true_iff. intros [[H _] _].
  apply (allChars_weaken isDigit); [|exact H].
  intros c Hc. unfold isSlashChar. rewrite Hc. reflexivity.
Qed.

Lemma slashText_chars mm dd yy :
  digitString 1 2 mm = true -> digitString 1 2 dd = true -> yearText 2 4 yy = true ->
  allChars isSlashChar (slashText mm dd yy) = true.
Proof.
  intros Hm Hd Hy. unfold slashText.
  rewrite !allChars_app.
  rewrite (digitString_chars _ _ _ Hm), (digitString_chars _ _ _ Hd).
  destruct yy as [y|]; simpl; [|reflexivity].
  apply (digitString_chars _ _ _ Hy).
Qed.

Lemma digitString_1_2 s :
  digitString 1 2 s = true ->
  (exists a, s = String a "" /\ isDigit a = true)
  \/ (exists a b, s = String a (String b "") /\ isDigit a = true /\ isDigit b = true).
Proof.
  intros H. destruct s as [|a [|b [|c s]]]; digit_cases H.
  - left. exists a. auto.
  - right. exists a, b. tauto.
Qed.

Lemma digitString_2_4 s :
  digitString 2 4 s = true ->
  (exists a b, s = String a (String b "") /\ isDigit a = true /\ isDigit b = true)
  \/ (exists a b c, s = String a (String b (String c ""))
                    /\ isDigit a = true /\ isDigit b = true /\ isDigit c = true)
  \/ (exists a b c d, s = String a (String b (String c (String d "")))
                      /\ isDigit a = true /\ isDigit b = true /\ isDigit c = true
                      /\ isDigit d = true).
Proof.
  intros H. destruct s as [|a [|b [|c [|d [|e s]]]]]; digit_cases H.
  - left. exists a, b. tauto.
  - right. left. exists a, b, c. tauto.
  - right. right. exists a, b, c, d. tauto.
Qed.

(** Runs the matcher on a text whose characters are variables known to be
    digits. *)
Ltac run_on_digits :=
  repeat (cbn -[isDigit Ascii.eqb];
          repeat match goal with
                 | H : isDigit ?c = true |- context [isDigit ?c] => rewrite H
                 | H : isDigit ?c = true |- context [Ascii.eqb "/" ?c] =>
                     rewrite (digit_not_slash c H)
                 end).

Ltac open_digits H :=
  first [ apply digitString_1_2 in H | apply digitString_2_4 in H ];
  repeat match type of H with
         | _ \/ _ => destruct H as [H|H]
         end;
  repeat match type of H with
         | exists _, _ => let x := fresh "c" in destruct H as [x H]
         end;
  repeat match type of H with
         | _ /\ _ => let E := fresh "E" in destruct H as [E H]
         end;
  subst.

(** The slash pattern matches a text [M/D] or [M/D/Y] at its start and
    captures its parts. *)
Lemma slash_match mm dd yy :
  digitString 1 2 mm = true -> digitString 1 2 dd = true -> yearText 2 4 yy = true ->
  exec false 3 slashRe (slashText mm dd yy)
  = Some [Some (slashText mm dd yy); Some mm; Some dd; yy].
Proof.
  intros Hm Hd Hy.
  open_digits Hm; open_digits Hd;
    (destruct yy as [y|]; [simpl in Hy; open_digits Hy|]);
    unfold exec, matchHere, slashRe, slashText; run_on_digits; reflexivity.
Qed.

Section SlashDates.
Variable parseISO : string -> option Date.

(** What the parser does with every text [M/D] or [M/D/Y]: it hands the
    numbers to the [Date] constructor. *)
Lemma slash_text_branch mm dd yy r :
  digitString 1 2 mm = true -> digitString 1 2 dd = true -> yearText 2 4 yy = true ->
  parseDateReference parseISO (slashText mm dd yy) r
  = Some (newDate (slashYear yy r) (parseInt mm - 1) (parseInt dd)).
Proof.
  intros Hm Hd Hy.
  pose proof (slashText_chars _ _ _ Hm Hd Hy) as Hchars.
  unfold parseDateReference.
  rewrite (toLowerCase_fixed isSlashChar _ slashChar_not_upper Hchars).
  rewrite (trim_fixed isSlashChar _ slashChar_not_space Hchars).
  rewrite !(eqb_foreign isSlashChar _ "t"%char _ eq_refl Hchars).
  rewrite (eqb_foreign isSlashChar _ "y"%char _ eq_refl Hchars).
  unfold findIndex, daysOfWeek. simpl findIndexFrom.
  rewrite !(includes_foreign isSlashChar _ "s"%char _ eq_refl Hchars).
  rewrite (includes_foreign isSlashChar _ "m"%char _ eq_refl Hchars).
  rewrite !(includes_foreign isSlashChar _ "t"%char _ eq_refl Hchars).
  rewrite (includes_foreign isSlashChar _ "w"%char _ eq_refl Hchars).
  rewrite (includes_foreign isSlashChar _ "f"%char _ eq_refl Hchars).
  rewrite (includes_foreign isSlashChar _ "n"%char _ eq_refl Hchars).
  rewrite (slash_match _ _ _ Hm Hd Hy).
  unfold text, group. simpl nth.
  destruct yy as [y|]; [|reflexivity].
  simpl in Hy. apply digitString_2_4 in Hy.
  destruct Hy as [[a [b [-> _]]] | [[a [b [c [-> _]]]] | [a [b [c [d [-> _]]]]]]];
    reflexivity.
Qed.

Lemma unrecognized_branch text r :
  String.eqb (trim (toLowerCase text)) "today" = false ->
  String.eqb (trim (toLowerCase text)) "tomorrow" = false ->
  String.eqb (trim (toLowerCase text)) "yesterday" = false ->
  findIndex (fun d => includes (trim (toLowerCase text)) d) daysOfWeek = None ->
  includes (trim (toLowerCase text)) "next week" = false ->
  exec false 3 slashRe (trim (toLowerCase text)) = None ->
  unparsed (parseISO (trim (toLowerCase text))) = true ->
  parseDateReference parseISO text r = None.
Proof.
  intros H1 H2 H3 H4 H5 H6 H7. unfold parseDateReference.
  rewrite H1, H2, H3, H4, H5, H6. unfold unparsed in H7.
  destruct (parseISO (trim (toLowerCase text))) as [parsed|]; [|reflexivity].
  rewrite H7. reflexivity.
Qed.

(** C7, as the code has it.  Take a text [M/D] or [M/D/Y] (one or two
    digits for the month and the day, two to four for the year) and let its
    year be the reference year when absent, 2000 + YY for two digits and the
    number as written otherwise.  When that year is 100 or later and the
    month and the day name a day of the calendar, the parser returns local
    midnight of that calendar date; "12/20" with a reference date on
    2024-01-01 gives 2024-12-20.  A text that is no keyword, holds no day
    name, no "next week" and no slash date, and that the generic parse does
    not recognize, gives none; so does "gibberish". *)
Theorem slash_dates_and_unrecognized_texts :
  (forall mm dd yy r year,
      digitString 1 2 mm = true -> digitString 1 2 dd = true ->
      yearText 2 4 yy = true ->
      slashYear yy r = Some year -> 100 <= year <= 200000 ->
      validCivil year (parseInt mm) (parseInt dd) = true ->
      exists result,
        parseDateReference parseISO (slashText mm dd yy) r = Some result
        /\ result = MkDate (daysFromCivil year (parseInt mm) (parseInt dd) * msPerDay)
        /\ getFullYear result = Some year
        /\ getMonth result = Some (parseInt mm - 1)
        /\ getDate result = Some (parseInt dd))
  /\ (forall t, dayNumber t = daysFromCivil 2024 1 1 ->
        parseDateReference parseISO "12/20" (MkDate t)
        = Some (MkDate (daysFromCivil 2024 12 20 * msPerDay)))
  /\ (forall text r,
        String.eqb (trim (toLowerCase text)) "today" = false ->
        String.eqb (trim (toLowerCase text)) "tomorrow" = false ->
        String.eqb (trim (toLowerCase text)) "yesterday" = false ->
        findIndex (fun d => includes (trim (toLowerCase text)) d) daysOfWeek = None ->
        includes (trim (toLowerCase text)) "next week" = false ->
        exec false 3 slashRe (trim (toLowerCase text)) = None ->
        unparsed (parseISO (trim (toLowerCase text))) = true ->
        parseDateReference parseISO text r = None)
  /\ (forall r, unparsed (parseISO "gibberish") = true ->
        parseDateReference parseISO "gibberish" r = None).
Proof.
  split.
  { intros mm dd yy r year Hm Hd Hy Hyear Hrange Hvalid.
    exists (newDate (Some year) (parseInt mm - 1) (parseInt dd)).
    rewrite (slash_text_branch _ _ _ _ Hm Hd Hy), Hyear.
    split; [reflexivity|]. apply newDate_civil; assumption. }
  split.
  { intros t Ht.
    change "12/20" with (slashText "12" "20" None).
    rewrite (slash_text_branch "12" "20" None (MkDate t) eq_refl eq_refl eq_refl).
    unfold slashYear, getFullYear. rewrite Ht. vm_compute. reflexivity. }
  split; [exact unrecognized_branch|].
  intros r Hiso. apply unrecognized_branch; try (vm_compute; reflexivity).
  exact Hiso.
Qed.

End SlashDates.

(** A year written with four digits but below 100 lands in the 1900s:
    "1/2/0050" is a text of the form M/D/YYYY and 0050-01-02 a day of the
    calendar, yet the parser returns 1950-01-02. *)
Lemma four_digit_year_below_100_is_shifted :
  slashText "1" "2" (Some "0050") = "1/2/0050"
  /\ yearText 2 4 (Some "0050") = true
  /\ validCivil 50 1 2 = true
  /\ civilFromDays (daysFromCivil 50 1 2) = (50, 1, 2)
  /\ parseDateReference Sample.parseISO "1/2/0050" Sample.monday
     = Some (Sample.midnight 1950 1 2)
  /\ parseDateReference Sample.parseISO "1/2/0050" Sample.monday
     <> Some (Sample.midnight 50 1 2).
Proof.
  repeat split; try (vm_compute; reflexivity).
  vm_compute. discriminate.
Qed.

(* ====================================================================== *)
(** * The properties on the demo schedule                                  *)
(* ====================================================================== *)

(** Moving the Director's Cut of episode 301 to midnight of 2024-01-01,
    before the Editor's Cut, is refused and changes nothing; moving the
    Editor's Cut to 2024-01-03 is applied. *)
Lemma move_on_demo_rejects_or_applies :
  (CommandResult.success
     (snd (moveMilestone Sample.toLocaleDateString Sample.monday "ms-ep-1-mt-dc"
                         (Sample.midnight 2024 1 1) Sample.demoState)) = false
   /\ fst (moveMilestone Sample.toLocaleDateString Sample.monday "ms-ep-1-mt-dc"
                         (Sample.midnight 2024 1 1) Sample.demoState)
      = Sample.demoState)
  /\ (CommandResult.success
        (snd (moveMilestone Sample.toLocaleDateString Sample.monday "ms-ep-1-mt-ec"
                            (Sample.midnight 2024 1 3) Sample.demoState)) = true
      /\ exists target',
           find (fun m => String.eqb (Milestone.id m) "ms-ep-1-mt-ec")
                (PostProState.milestones
                   (fst (moveMilestone Sample.toLocaleDateString Sample.monday
                                       "ms-ep-1-mt-ec" (Sample.midnight 2024 1 3)
                                       Sample.demoState)))
           = Some target'
           /\ Milestone.scheduledDate target' = Some (Sample.midnight 2024 1 3)).
Proof.
  split.
  - assert (H : CommandResult.success
                  (snd (moveMilestone Sample.toLocaleDateString Sample.monday
                                      "ms-ep-1-mt-dc" (Sample.midnight 2024 1 1)
                                      Sample.demoState)) = false)
      by (vm_compute; reflexivity).
    split; [exact H|].
    exact (proj1 (proj1 (move_rejects_without_mutation_and_applies_exactly
                           Sample.toLocaleDateString Sample.monday "ms-ep-1-mt-dc"
                           (Sample.midnight 2024 1 1) Sample.demoState) H)).
  - assert (H : CommandResult.success
                  (snd (moveMilestone Sample.toLocaleDateString Sample.monday
                                      "ms-ep-1-mt-ec" (Sample.midnight 2024 1 3)
                                      Sample.demoState)) = true)
      by (vm_compute; reflexivity).
    split; [exact H|].
    exact (proj2 (move_rejects_without_mutation_and_applies_exactly
                    Sample.toLocaleDateString Sample.monday "ms-ep-1-mt-ec"
                    (Sample.midnight 2024 1 3) Sample.demoState) H).
Defined.

(** The applied move of the Editor's Cut keeps the episodes and the
    catalog. *)
Lemma move_frame_on_demo :
  CommandResult.success
    (snd (moveMilestone Sample.toLocaleDateString Sample.monday "ms-ep-1-mt-ec"
                        (Sample.midnight 2024 1 3) Sample.demoState)) = true
  /\ PostProState.episodes
       (fst (moveMilestone Sample.toLocaleDateString Sample.monday "ms-ep-1-mt-ec"
                           (Sample.midnight 2024 1 3) Sample.demoState))
     = PostProState.episodes Sample.demoState
  /\ PostProState.milestoneTypes
       (fst (moveMilestone Sample.toLocaleDateString Sample.monday "ms-ep-1-mt-ec"
                           (Sample.midnight 2024 1 3) Sample.demoState))
     = PostProState.milestoneTypes Sample.demoState.
Proof.
  assert (H : CommandResult.success
                (snd (moveMilestone Sample.toLocaleDateString Sample.monday
                                    "ms-ep-1-mt-ec" (Sample.midnight 2024 1 3)
                                    Sample.demoState)) = true)
    by (vm_compute; reflexivity).
  split; [exact H|].
  pose proof (move_frame Sample.toLocaleDateString Sample.monday "ms-ep-1-mt-ec"
                         (Sample.midnight 2024 1 3) Sample.demoState H) as F.
  split; [exact (proj1 F) | exact (proj1 (proj2 F))].
Defined.


(** Two runs on states that differ in the selected episode only. *)
Lemma checkDependencies_two_runs_on_demo :
  PostProState.milestoneTypes Sample.demoState
  = PostProState.milestoneTypes (PostProState.selectEpisode Sample.demoState (Some "ep-2"))
  /\ PostProState.milestones Sample.demoState
     = PostProState.milestones (PostProState.selectEpisode Sample.demoState (Some "ep-2"))
  /\ checkDependencies Sample.toLocaleDateString Sample.directorsCut
                       (Sample.midnight 2024 1 1) Sample.demoState
     = checkDependencies Sample.toLocaleDateString Sample.directorsCut
                         (Sample.midnight 2024 1 1)
                         (PostProState.selectEpisode Sample.demoState (Some "ep-2")).
Proof.
  split; [reflexivity|]. split; [reflexivity|].
  apply (checkDependencies_two_runs_agree
           Sample.toLocaleDateString Sample.directorsCut Sample.directorsCut
           (Sample.midnight 2024 1 1) (Sample.midnight 2024 1 1)
           Sample.demoState (PostProState.selectEpisode Sample.demoState (Some "ep-2")));
    reflexivity.
Defined.

(** Moving the Editor's Cut of episode 301 to 2024-01-12, past the
    Director's Cut, succeeds with the single warning about the Director's
    Cut and leaves the Editor's Cut on 2024-01-12.  The Director's Cut is the
    only type of the catalog that requires the Editor's Cut, and its
    milestone of episode 301 is scheduled on 2024-01-08. *)
Lemma move_past_dependent_on_demo :
  find (fun m => String.eqb (Milestone.id m) "ms-ep-1-mt-ec")
       (PostProState.milestones Sample.demoState) = Some Sample.editorsCut
  /\ CommandResult.success
       (snd (moveMilestone Sample.toLocaleDateString Sample.monday "ms-ep-1-mt-ec"
                           (Sample.midnight 2024 1 12) Sample.demoState)) = true
  /\ CommandResult.conflicts
       (snd (moveMilestone Sample.toLocaleDateString Sample.monday "ms-ep-1-mt-ec"
                           (Sample.midnight 2024 1 12) Sample.demoState))
     = Some [dependentConflict Sample.toLocaleDateString Sample.editorsCut
                               (Sample.midnight 2024 1 12) Sample.directorsCutType
                               Sample.directorsCut
                               (addDays Sample.monday (Some 7))]
  /\ (exists target',
         find (fun m => String.eqb (Milestone.id m) "ms-ep-1-mt-ec")
              (PostProState.milestones
                 (fst (moveMilestone Sample.toLocaleDateString Sample.monday
                                     "ms-ep-1-mt-ec" (Sample.midnight 2024 1 12)
                                     Sample.demoState)))
         = Some target'
         /\ Milestone.scheduledDate target' = Some (Sample.midnight 2024 1 12))
  /\ selects (isPushedDependentOf Sample.editorsCut (Sample.midnight 2024 1 12)
                                  Sample.demoState Sample.editorsCutType)
             (PostProState.milestoneTypes Sample.demoState)
             [Sample.directorsCutType]
  /\ exists w,
       CommandResult.conflicts
         (snd (moveMilestone Sample.toLocaleDateString Sample.monday "ms-ep-1-mt-ec"
                             (Sample.midnight 2024 1 12) Sample.demoState))
       = Some [w]
       /\ warningFor Sample.editorsCut (Sample.midnight 2024 1 12) Sample.demoState
                     Sample.directorsCutType w.
Proof.
  assert (H : find (fun m => String.eqb (Milestone.id m) "ms-ep-1-mt-ec")
                   (PostProState.milestones Sample.demoState) = Some Sample.editorsCut)
    by (vm_compute; reflexivity).
  assert (Htype : firstWith (fun mt => MilestoneType.id mt
                                       = Milestone.milestoneTypeId Sample.editorsCut)
                            (PostProState.milestoneTypes Sample.demoState)
                            Sample.editorsCutType).
  { exists [], (skipn 1 (PostProState.milestoneTypes Sample.demoState)).
    split; [vm_compute; reflexivity|]. split; [reflexivity | constructor]. }
  assert (Hpushed : pushedFor Sample.editorsCut (Sample.midnight 2024 1 12)
                              Sample.demoState Sample.directorsCutType
                              Sample.directorsCut (addDays Sample.monday (Some 7))).
  { split; [split|].
    - exists [Sample.editorsCut], (skipn 2 (PostProState.milestones Sample.demoState)).
      split; [vm_compute; reflexivity|]. split; [split; reflexivity|].
      constructor; [|constructor]. simpl. intros [_ Hc]. discriminate Hc.
    - reflexivity.
    - eexists. eexists. split; [reflexivity|].
      split; [vm_compute; reflexivity|]. vm_compute. reflexivity. }
  assert (Hdeps : selects (isPushedDependentOf Sample.editorsCut
                             (Sample.midnight 2024 1 12) Sample.demoState
                             Sample.editorsCutType)
                          (PostProState.milestoneTypes Sample.demoState)
                          [Sample.directorsCutType]).
  { change (PostProState.milestoneTypes Sample.demoState)
      with (demoMilestoneTypes Sample.monday).
    unfold demoMilestoneTypes.
    apply selects_skip; [intros [Hin _]; exact Hin|].
    apply selects_take;
      [split; [left; reflexivity|];
       exists Sample.directorsCut, (addDays Sample.monday (Some 7)); exact Hpushed|].
    repeat (apply selects_skip;
            [intros [Hin _]; simpl in Hin;
             repeat (destruct Hin as [Hin|Hin]; [discriminate Hin|]); exact Hin|]).
    apply selects_nil. }
  pose proof (proj2 (proj2 (proj2
                (move_fails_iff_error_conflict
                   Sample.toLocaleDateString Sample.monday "ms-ep-1-mt-ec"
                   (Sample.midnight 2024 1 12) Sample.demoState
                   Sample.editorsCut H)))) as [Hscenario Hplain].
  destruct (Hscenario Sample.editorsCutType Sample.directorsCutType
                      Sample.directorsCut (addDays Sample.monday (Some 7)))
    as [Hok [Hcs [_ Hmoved]]]; try (vm_compute; reflexivity).
  destruct (Hplain Sample.editorsCutType Sample.directorsCutType Htype
                   (fun prereqCode (Hin : In prereqCode []) => match Hin with end)
                   Hdeps)
    as [_ [Hwarning _]].
  split; [exact H|]. split; [exact Hok|]. split; [exact Hcs|].
  split; [exact Hmoved|]. split; [exact Hdeps | exact Hwarning].
Defined.

(** "what if 301 dc slips to yesterday" on the demo schedule: everything
    resolves, the query succeeds with the error a move would be refused for,
    and the state is unchanged. *)
Lemma what_if_on_demo :
  interpretsLocally Sample.demoState = true
  /\ action (parseCommand "what if 301 dc slips to yesterday") = "what_if"
  /\ parseDateReference Sample.parseISO "yesterday" Sample.monday
     = Some (addDays Sample.monday (Some (-1)))
  /\ fst (processCommand Sample.toLocaleDateString Sample.parseISO Sample.dateOfJson
                         Sample.api_projects_get Sample.api_command Sample.monday
                         "what if 301 dc slips to yesterday" Sample.demoState)
     = Sample.demoState
  /\ CommandResult.success
       (snd (processCommand Sample.toLocaleDateString Sample.parseISO Sample.dateOfJson
                            Sample.api_projects_get Sample.api_command Sample.monday
                            "what if 301 dc slips to yesterday" Sample.demoState))
     = true
  /\ CommandResult.conflicts
       (snd (processCommand Sample.toLocaleDateString Sample.parseISO Sample.dateOfJson
                            Sample.api_projects_get Sample.api_command Sample.monday
                            "what if 301 dc slips to yesterday" Sample.demoState))
     = attached (checkDependencies Sample.toLocaleDateString Sample.directorsCut
                                   (addDays Sample.monday (Some (-1))) Sample.demoState).
Proof.
  assert (Hlocal : interpretsLocally Sample.demoState = true) by reflexivity.
  assert (Haction : action (parseCommand "what if 301 dc slips to yesterday") = "what_if")
    by (vm_compute; reflexivity).
  assert (Hdate : parseDateReference Sample.parseISO "yesterday" Sample.monday
                  = Some (addDays Sample.monday (Some (-1))))
    by (vm_compute; reflexivity).
  pose proof (what_if_reports_and_never_applies
                Sample.toLocaleDateString Sample.parseISO Sample.dateOfJson
                Sample.api_projects_get Sample.api_command Sample.monday
                "what if 301 dc slips to yesterday" Sample.demoState
                (demoEpisode Sample.monday 0) Sample.directorsCutType
                Sample.directorsCut (addDays Sample.monday (Some (-1)))
                Hlocal Haction
                ltac:(vm_compute; reflexivity) ltac:(vm_compute; reflexivity)
                ltac:(vm_compute; reflexivity) ltac:(vm_compute; reflexivity)) as W.
  split; [exact Hlocal|]. split; [exact Haction|]. split; [exact Hdate|].
  split; [exact (proj1 W)|].
  split; [exact (proj1 (proj2 (proj2 W)))|].
  exact (proj1 (proj2 (proj2 (proj2 W)))).
Defined.

(** The backend answers with [cyclicProject]: the store installs the graph
    it received.  The backend accepts the project of the wizard and refuses
    its milestone types: the store installs the cyclic graph of the wizard
    and records no error. *)
Lemma cyclic_catalog_installed_as_received :
  prerequisiteGraph
    (PostProState.milestoneTypes
       (fetchProjectData (fun _ => Sample.monday) (fun _ => Resolved cyclicProject)
                         Sample.monday "p1" (initialState Sample.monday)))
  = receivedGraph cyclicProject
  /\ onboardingRefused acceptProject refuseMilestoneType cyclicWizardData = true
  /\ prerequisiteGraph
       (PostProState.milestoneTypes
          (createProjectFromOnboarding Sample.dateOfJson Sample.api_projects_get
                                       acceptProject refuseMilestoneType
                                       Sample.monday cyclicWizardData
                                       (initialState Sample.monday)))
     = [("A", ["B"]); ("B", ["A"])]
  /\ PostProState.error
       (createProjectFromOnboarding Sample.dateOfJson Sample.api_projects_get
                                    acceptProject refuseMilestoneType
                                    Sample.monday cyclicWizardData
                                    (initialState Sample.monday))
     = None.
Proof.
  split.
  - exact (proj1 (proj1 (catalog_installed_as_received
                           (fun _ => Sample.monday) (fun _ => Resolved cyclicProject)
                           (fun _ => Rejected None) (fun _ _ => Rejected None))
                        Sample.monday "p1" (initialState Sample.monday) cyclicProject
                        eq_refl)).
  - split; [reflexivity|].
    pose proof (proj1 (proj2 (proj2 (catalog_installed_as_received
                                       Sample.dateOfJson Sample.api_projects_get
                                       acceptProject refuseMilestoneType)))
                      Sample.monday cyclicWizardData (initialState Sample.monday)
                      eq_refl) as F.
    cbv zeta in F. destruct F as [Hgraph [_ Herror]].
    split; [exact Hgraph | exact Herror].
Defined.

(** On Monday 2024-01-01, "Friday" is 2024-01-05 and "next tuesday" is
    2024-01-09, both at the time of day of the reference date. *)
Lemma day_names_on_a_monday :
  getDay Sample.monday = Some 1
  /\ parseDateReference Sample.parseISO "Friday" Sample.monday
     = Some (addDays Sample.monday (Some 4))
  /\ findIndex (fun d => includes (trim (toLowerCase "next tuesday")) d) daysOfWeek
     = Some 2
  /\ parseDateReference Sample.parseISO "next tuesday" Sample.monday
     = Some (addDays Sample.monday (Some 8)).
Proof.
  assert (Hday : getDay Sample.monday = Some 1) by (vm_compute; reflexivity).
  assert (Hname : findIndex (fun d => includes (trim (toLowerCase "next tuesday")) d)
                            daysOfWeek = Some 2) by (vm_compute; reflexivity).
  split; [exact Hday|].
  split; [exact (proj2 (day_name_resolves_strictly_after Sample.parseISO)
                       Sample.monday Hday)|].
  split; [exact Hname|].
  exact (proj1 (proj1 (day_name_resolves_strictly_after Sample.parseISO)
                      "next tuesday" Sample.monday 2 1 Hname Hday)).
Defined.

(** "12/20" and "3/15/24" on Monday 2024-01-01, and "gibberish". *)
Lemma slash_dates_on_a_monday :
  parseDateReference Sample.parseISO "12/20" Sample.monday
  = Some (Sample.midnight 2024 12 20)
  /\ (exists result,
        parseDateReference Sample.parseISO "3/15/24" Sample.monday = Some result
        /\ result = Sample.midnight 2024 3 15
        /\ getFullYear result = Some 2024
        /\ getMonth result = Some 2
        /\ getDate result = Some 15)
  /\ parseDateReference Sample.parseISO "gibberish" Sample.monday = None.
Proof.
  pose proof (slash_dates_and_unrecognized_texts Sample.parseISO)
    as [Hcivil [Hexample [_ Hgibberish]]].
  split; [|split].
  - apply Hexample. vm_compute. reflexivity.
  - apply (Hcivil "3" "15" (Some "24") Sample.monday 2024);
      try (vm_compute; reflexivity).
    vm_compute. split; discriminate.
  - apply Hgibberish. reflexivity.
Defined.

(* ====================================================================== *)
(** * Further properties of the evaluator                                  *)
(* ====================================================================== *)

Lemma find_filter {A : Type} (p q : A -> bool) (l : list A) :
  (forall x, p x = true -> q x = true) ->
  find p (filter q l) = find p l.
Proof.
  intros Hpq. induction l as [|x l IH]; simpl; [reflexivity|].
  destruct (q x) eqn:Hq; simpl.
  - rewrite IH. reflexivity.
  - destruct (p x) eqn:Hp; [|exact IH].
    rewrite (Hpq x Hp) in Hq. discriminate.
Qed.

Lemma flat_map_nil_iff {A B : Type} (f : A -> list B) (l : list A) :
  flat_map f l = [] <-> forall x, In x l -> f x = [].
Proof.
  induction l as [|x l IH]; simpl.
  - split; [intros _ y Hy; contradiction | reflexivity].
  - split.
    + intros H. apply app_eq_nil in H. destruct H as [Hx Hl].
      intros y [<-|Hy]; [exact Hx | apply IH; assumption].
    + intros H. rewrite (H x (or_introl eq_refl)).
      apply IH. intros y Hy. apply H. right. exact Hy.
Qed.

Section EvaluatorFacts.
Variable toLocaleDateString : Date -> string.

Local Abbreviation check := (checkDependencies toLocaleDateString).
Local Abbreviation move := (moveMilestone toLocaleDateString).

(** Two states with the same catalog in which the lookups of the
    milestone's episode agree give the same conflicts. *)
Lemma check_agrees milestone newDate state1 state2 :
  PostProState.milestoneTypes state1 = PostProState.milestoneTypes state2 ->
  (forall typeId,
      findMilestone state1 (Milestone.episodeId milestone) typeId
      = findMilestone state2 (Milestone.episodeId milestone) typeId) ->
  check milestone newDate state1 = check milestone newDate state2.
Proof.
  intros Htypes Hfind. unfold checkDependencies. rewrite <- Htypes.
  destruct (find _ (PostProState.milestoneTypes state1)) as [milestoneType|];
    [|reflexivity].
  assert (Hpre : forall l acc,
             fold_left (checkPrerequisite toLocaleDateString milestone newDate
                                          state1 milestoneType) l acc
             = fold_left (checkPrerequisite toLocaleDateString milestone newDate
                                            state2 milestoneType) l acc).
  { induction l as [|x l IH]; intros acc; simpl; [reflexivity|].
    rewrite IH. f_equal. unfold checkPrerequisite.
    rewrite <- Htypes.
    destruct (find _ (PostProState.milestoneTypes state1)); [|reflexivity].
    rewrite Hfind. reflexivity. }
  assert (Hdep : forall l acc,
             fold_left (checkDependent toLocaleDateString milestone newDate state1) l acc
             = fold_left (checkDependent toLocaleDateString milestone newDate state2)
                         l acc).
  { induction l as [|x l IH]; intros acc; simpl; [reflexivity|].
    rewrite IH. f_equal. unfold checkDependent. rewrite Hfind. reflexivity. }
  rewrite Hpre, Hdep. reflexivity.
Qed.

(** X1.  The conflicts of a move depend on the catalog and on the
    milestones of the moved milestone's own episode only: the milestones of
    every other episode can be anything. *)
Theorem conflicts_depend_on_own_episode_only
        (milestone : Milestone.t) (newDate : Date) (state1 state2 : PostProState.t) :
  PostProState.milestoneTypes state1 = PostProState.milestoneTypes state2 ->
  milestonesOfEpisode (Milestone.episodeId milestone) state1
  = milestonesOfEpisode (Milestone.episodeId milestone) state2 ->
  check milestone newDate state1 = check milestone newDate state2.
Proof.
  intros Htypes Hepisode. apply check_agrees; [exact Htypes|].
  intros typeId. unfold findMilestone.
  rewrite <- (find_filter _ (fun m => String.eqb (Milestone.episodeId m)
                                                 (Milestone.episodeId milestone))
                          (PostProState.milestones state1)).
  - rewrite <- (find_filter _ (fun m => String.eqb (Milestone.episodeId m)
                                                   (Milestone.episodeId milestone))
                            (PostProState.milestones state2)).
    + unfold milestonesOfEpisode in Hepisode. rewrite Hepisode. reflexivity.
    + intros x Hx. apply andb_true_iff in Hx. tauto.
  - intros x Hx. apply andb_true_iff in Hx. tauto.
Qed.

(** Whether the evaluator reports an error, respectively a warning. *)
Lemma errors_iff_late milestone newDate state milestoneType :
  find (fun mt => String.eqb (MilestoneType.id mt) (Milestone.milestoneTypeId milestone))
       (PostProState.milestoneTypes state) = Some milestoneType ->
  existsb ScheduleConflict.isError (check milestone newDate state)
  = anyLate milestone newDate state milestoneType.
Proof.
  intros Htype. rewrite (check_is_errors_then_warnings _ _ _ _ _ Htype).
  rewrite existsb_app.
  assert (Hw : existsb ScheduleConflict.isError
                       (dependentWarnings toLocaleDateString milestone newDate state
                                          milestoneType) = false).
  { unfold dependentWarnings.
    induction (dependentsOf state milestoneType) as [|dep deps IH]; simpl;
      [reflexivity|].
    rewrite existsb_app, IH, orb_false_r.
    destruct (pushedDependent milestone newDate state dep) as [[dm sd]|]; reflexivity. }
  rewrite Hw, orb_false_r. unfold prerequisiteErrors, anyLate.
  induction (MilestoneType.requiresCompletionOf milestoneType) as [|c cs IH]; simpl;
    [reflexivity|].
  rewrite existsb_app, IH.
  destruct (latePrerequisite milestone newDate state c) as [[pm sd]|]; reflexivity.
Qed.

Lemma check_nil_iff milestone newDate state milestoneType :
  find (fun mt => String.eqb (MilestoneType.id mt) (Milestone.milestoneTypeId milestone))
       (PostProState.milestoneTypes state) = Some milestoneType ->
  (check milestone newDate state = []
   <-> anyLate milestone newDate state milestoneType = false
       /\ anyPushed milestone newDate state milestoneType = false).
Proof.
  intros Htype. rewrite (check_is_errors_then_warnings _ _ _ _ _ Htype).
  unfold prerequisiteErrors, dependentWarnings, anyLate, anyPushed.
  split.
  - intros H. apply app_eq_nil in H. destruct H as [He Hw].
    rewrite flat_map_nil_iff in He. rewrite flat_map_nil_iff in Hw.
    split.
    + destruct (existsb _ _) eqn:E; [|reflexivity].
      apply existsb_exists in E. destruct E as [c [Hin Hc]].
      specialize (He c Hin).
      destruct (latePrerequisite milestone newDate state c) as [[pm sd]|]; discriminate.
    + destruct (existsb _ (dependentsOf state milestoneType)) eqn:E; [|reflexivity].
      apply existsb_exists in E. destruct E as [c [Hin Hc]].
      specialize (Hw c Hin).
      destruct (pushedDependent milestone newDate state c) as [[pm sd]|]; discriminate.
  - intros [He Hw].
    assert (H1 : flat_map
                   (fun prereqCode =>
                      match latePrerequisite milestone newDate state prereqCode with
                      | Some (prereqMilestone, scheduled) =>
                          [prerequisiteConflict toLocaleDateString milestone milestoneType
                                                prereqCode prereqMilestone scheduled]
                      | None => []
                      end) (MilestoneType.requiresCompletionOf milestoneType) = []).
    { apply flat_map_nil_iff. intros c Hin.
      destruct (latePrerequisite milestone newDate state c) as [[pm sd]|] eqn:E;
        [|reflexivity].
      assert (Hex : existsb (fun prereqCode =>
                               match latePrerequisite milestone newDate state prereqCode with
                               | Some _ => true
                               | None => false
                               end)
                            (MilestoneType.requiresCompletionOf milestoneType) = true).
      { apply existsb_exists. exists c. rewrite E. auto. }
      rewrite He in Hex. discriminate. }
    assert (H2 : flat_map
                   (fun depType =>
                      match pushedDependent milestone newDate state depType with
                      | Some (depMilestone, scheduled) =>
                          [dependentConflict toLocaleDateString milestone newDate depType
                                             depMilestone scheduled]
                      | None => []
                      end) (dependentsOf state milestoneType) = []).
    { apply flat_map_nil_iff. intros c Hin.
      destruct (pushedDependent milestone newDate state c) as [[pm sd]|] eqn:E;
        [|reflexivity].
      assert (Hex : existsb (fun depType =>
                               match pushedDependent milestone newDate state depType with
                               | Some _ => true
                               | None => false
                               end)
                            (dependentsOf state milestoneType) = true).
      { apply existsb_exists. exists c. rewrite E. auto. }
      rewrite Hw in Hex. discriminate. }
    rewrite H1, H2. reflexivity.
Qed.

(** A prerequisite that is late for a date is late for every earlier date;
    a dependent that is pushed by a date is pushed by every later date. *)
Lemma late_for_earlier milestone state t t' prereqCode :
  t' <= t ->
  latePrerequisite milestone (MkDate t) state prereqCode <> None ->
  latePrerequisite milestone (MkDate t') state prereqCode <> None.
Proof.
  intros Hle. unfold latePrerequisite.
  destruct (find _ (PostProState.milestoneTypes state)); [|auto].
  destruct (findMilestone _ _ _) as [pm|]; [|auto].
  destruct (Milestone.scheduledDate pm) as [[x|]|]; simpl; auto.
  destruct (Z.ltb_spec t x); [|auto]. intros _.
  destruct (Z.ltb_spec t' x); [discriminate | lia].
Qed.

Lemma pushed_by_later milestone state t t' depType :
  t <= t' ->
  pushedDependent milestone (MkDate t) state depType <> None ->
  pushedDependent milestone (MkDate t') state depType <> None.
Proof.
  intros Hle. unfold pushedDependent.
  destruct (findMilestone _ _ _) as [dm|]; [|auto].
  destruct (Milestone.scheduledDate dm) as [[x|]|]; simpl; auto.
  destruct (Z.ltb_spec x t); [|auto]. intros _.
  destruct (Z.ltb_spec x t'); [discriminate | lia].
Qed.

Lemma anyLate_earlier milestone state milestoneType t t' :
  t' <= t ->
  anyLate milestone (MkDate t) state milestoneType = true ->
  anyLate milestone (MkDate t') state milestoneType = true.
Proof.
  intros Hle. unfold anyLate. rewrite !existsb_exists.
  intros [c [Hin Hc]]. exists c. split; [exact Hin|].
  pose proof (late_for_earlier milestone state t t' c Hle) as H.
  destruct (latePrerequisite milestone (MkDate t) state c); [|discriminate].
  destruct (latePrerequisite milestone (MkDate t') state c); [reflexivity|].
  exfalso. apply H; [discriminate | reflexivity].
Qed.

Lemma anyPushed_later milestone state milestoneType t t' :
  t <= t' ->
  anyPushed milestone (MkDate t) state milestoneType = true ->
  anyPushed milestone (MkDate t') state milestoneType = true.
Proof.
  intros Hle. unfold anyPushed. rewrite !existsb_exists.
  intros [c [Hin Hc]]. exists c. split; [exact Hin|].
  pose proof (pushed_by_later milestone state t t' c Hle) as H.
  destruct (pushedDependent milestone (MkDate t) state c); [|discriminate].
  destruct (pushedDependent milestone (MkDate t') state c); [reflexivity|].
  exfalso. apply H; [discriminate | reflexivity].
Qed.

(** X2.  A move that is accepted for a date is accepted for every later
    date: prerequisites can only block a date that is too early. *)
Theorem move_accepted_for_later_dates
        (now : Date) (id : string) (t t' : Z) (state : PostProState.t) :
  t <= t' ->
  CommandResult.success (snd (move now id (MkDate t) state)) = true ->
  CommandResult.success (snd (move now id (MkDate t') state)) = true.
Proof.
  intros Hle. unfold moveMilestone.
  destruct (find _ (PostProState.milestones state)) as [milestone|];
    [|simpl; discriminate].
  destruct (find (fun mt => String.eqb (MilestoneType.id mt)
                                       (Milestone.milestoneTypeId milestone))
                 (PostProState.milestoneTypes state)) as [milestoneType|] eqn:Htype.
  - rewrite !(errors_iff_late _ _ _ _ Htype).
    destruct (anyLate milestone (MkDate t) state milestoneType) eqn:E;
      [simpl; discriminate|].
    destruct (anyLate milestone (MkDate t') state milestoneType) eqn:E';
      [|reflexivity].
    rewrite (anyLate_earlier _ _ _ _ _ Hle E') in E. discriminate.
  - unfold checkDependencies. rewrite Htype. reflexivity.
Qed.

(** X3.  The dates that raise no conflict at all form an interval: a date
    between two conflict-free dates is conflict-free. *)
Theorem conflict_free_dates_are_convex
        (milestone : Milestone.t) (state : PostProState.t) (t1 t t2 : Z) :
  t1 <= t <= t2 ->
  check milestone (MkDate t1) state = [] ->
  check milestone (MkDate t2) state = [] ->
  check milestone (MkDate t) state = [].
Proof.
  intros Hbetween H1 H2.
  destruct (find (fun mt => String.eqb (MilestoneType.id mt)
                                       (Milestone.milestoneTypeId milestone))
                 (PostProState.milestoneTypes state)) as [milestoneType|] eqn:Htype.
  - apply (check_nil_iff _ _ _ _ Htype) in H1.
    apply (check_nil_iff _ _ _ _ Htype) in H2.
    apply (check_nil_iff _ _ _ _ Htype). split.
    + destruct (anyLate milestone (MkDate t) state milestoneType) eqn:E; [|reflexivity].
      assert (Hc := anyLate_earlier _ _ _ t t1 ltac:(lia) E).
      destruct H1 as [H1 _]. rewrite H1 in Hc. discriminate.
    + destruct (anyPushed milestone (MkDate t) state milestoneType) eqn:E; [|reflexivity].
      assert (Hc := anyPushed_later _ _ _ t t2 ltac:(lia) E).
      destruct H2 as [_ H2]. rewrite H2 in Hc. discriminate.
  - unfold checkDependencies. rewrite Htype. reflexivity.
Qed.

(** X4.  A milestone whose type is not in the catalog, and an invalid date,
    are never checked: the evaluator returns no conflict and the move is
    applied.  Afterwards the lookup of the id finds the milestone with the
    date it was given as its scheduled date, stamped with the current time
    and otherwise as it was; the milestones with another id are unchanged. *)
Theorem unchecked_moves_are_applied
        (now : Date) (id : string) (newDate : Date) (state : PostProState.t)
        (milestone : Milestone.t) :
  find (fun m => String.eqb (Milestone.id m) id) (PostProState.milestones state)
  = Some milestone ->
  find (fun mt => String.eqb (MilestoneType.id mt) (Milestone.milestoneTypeId milestone))
       (PostProState.milestoneTypes state) = None
  \/ newDate = InvalidDate ->
  check milestone newDate state = []
  /\ snd (move now id newDate state)
     = result true
              ("Moved "
               ++ numberText (find (fun e => String.eqb (Episode.id e)
                                                        (Milestone.episodeId milestone))
                                   (PostProState.episodes state))
               ++ " "
               ++ codeText (find (fun mt => String.eqb (MilestoneType.id mt)
                                                       (Milestone.milestoneTypeId milestone))
                                 (PostProState.milestoneTypes state))
               ++ " to " ++ toLocaleDateString newDate)
              None
  /\ (exists moved,
         find (fun m => String.eqb (Milestone.id m) id)
              (PostProState.milestones (fst (move now id newDate state)))
         = Some moved
         /\ Milestone.scheduledDate moved = Some newDate
         /\ Milestone.updatedAt moved = now
         /\ sameButSchedule milestone moved)
  /\ Forall2 (fun m m' =>
                (Milestone.id m <> id -> m' = m)
                /\ (Milestone.id m = id -> Milestone.scheduledDate m' = Some newDate))
             (PostProState.milestones state)
             (PostProState.milestones (fst (move now id newDate state))).
Proof.
  intros Hfind Hcase.
  assert (Hnil : check milestone newDate state = []).
  { destruct (find (fun mt => String.eqb (MilestoneType.id mt)
                                         (Milestone.milestoneTypeId milestone))
                   (PostProState.milestoneTypes state)) as [milestoneType|] eqn:Htype.
    - destruct Hcase as [Hc | ->]; [discriminate|].
      apply (check_nil_iff _ _ _ _ Htype). clear Htype Hfind.
      unfold anyLate, anyPushed. split.
      + induction (MilestoneType.requiresCompletionOf milestoneType) as [|c cs IH];
          simpl; [reflexivity|]. rewrite IH, orb_false_r.
        unfold latePrerequisite.
        destruct (find _ (PostProState.milestoneTypes state)); [|reflexivity].
        destruct (findMilestone _ _ _) as [pm|]; [|reflexivity].
        destruct (Milestone.scheduledDate pm) as [[x|]|]; reflexivity.
      + induction (dependentsOf state milestoneType) as [|c cs IH];
          simpl; [reflexivity|]. rewrite IH, orb_false_r.
        unfold pushedDependent.
        destruct (findMilestone _ _ _) as [pm|]; [|reflexivity].
        destruct (Milestone.scheduledDate pm) as [[x|]|]; reflexivity.
    - unfold checkDependencies. rewrite Htype. reflexivity. }
  split; [exact Hnil|].
  assert (Hok : CommandResult.success (snd (move now id newDate state)) = true).
  { unfold moveMilestone. rewrite Hfind, Hnil. reflexivity. }
  split; [unfold moveMilestone; rewrite Hfind, Hnil; reflexivity|].
  split.
  - destruct (move_success_target toLocaleDateString _ _ _ _ Hok) as [m [Hm Hm']].
    rewrite Hfind in Hm. inversion Hm; subst m.
    exists (Milestone.withSchedule milestone newDate now).
    split; [exact Hm'|]. split; [reflexivity|]. split; [reflexivity|].
    apply withSchedule_frame.
  - apply (move_applied_target toLocaleDateString now id newDate state milestone Hfind).
    rewrite Hnil. reflexivity.
Qed.

End EvaluatorFacts.

(* ====================================================================== *)
(** * Further properties of the store actions                              *)
(* ====================================================================== *)

Section StoreFacts.
Variable toLocaleDateString : Date -> string.
Variable parseISO : string -> option Date.
Variable dateOfJson : string -> Date.
Variable api_projects_get : string -> Reply RawProject.
Variable api_command : string -> string -> option string -> Reply CommandResponse.
Variable api_projects_create : OnboardingData -> Reply string.
Variable api_milestoneTypes_create : string -> OnboardingMilestoneType -> Reply unit.

Local Abbreviation check := (checkDependencies toLocaleDateString).
Local Abbreviation move := (moveMilestone toLocaleDateString).
Local Abbreviation locally := (processLocally toLocaleDateString parseISO).
Local Abbreviation process :=
  (processCommand toLocaleDateString parseISO dateOfJson api_projects_get api_command).
Local Abbreviation fetch := (fetchProjectData dateOfJson api_projects_get).

(** X5.  [moveMilestone] is [updateMilestone] behind the dependency check:
    when it succeeds the new state is the one [updateMilestone] gives for
    the update [{ scheduledDate: newDate }], and when it fails the state is
    the old one. *)
Theorem move_is_guarded_update
        (now : Date) (id : string) (newDate : Date) (state : PostProState.t) :
  fst (move now id newDate state)
  = if CommandResult.success (snd (move now id newDate state))
    then updateMilestone now id (MilestoneUpdates.schedule newDate) state
    else state.
Proof.
  unfold moveMilestone, updateMilestone.
  destruct (find _ (PostProState.milestones state)) as [milestone|]; [|reflexivity].
  destruct (existsb _ _); reflexivity.
Qed.

Lemma amend_pointwise now id updates (ms : list Milestone.t) :
  Forall2 (fun m m' =>
             (Milestone.id m <> id -> m' = m)
             /\ (Milestone.id m = id -> m' = MilestoneUpdates.apply m updates now))
          ms (map (amend now id updates) ms).
Proof.
  induction ms as [|m ms IH]; simpl; constructor; [|exact IH].
  unfold amend. destruct (String.eqb_spec (Milestone.id m) id) as [Heq|Hne].
  - split; [intros Hc; contradiction | reflexivity].
  - split; [reflexivity | intros Hc; contradiction].
Qed.

(** X6.  [updateMilestone] applies any update without consulting the
    evaluator: it keeps the other milestones and every field of the state
    but [milestones], stamps the updated ones with the current time, and
    puts a milestone on a date for which [moveMilestone] reports a
    dependency error and changes nothing. *)
Theorem updateMilestone_applies_unchecked
        (now : Date) (id : string) (updates : MilestoneUpdates.t)
        (state : PostProState.t) :
  sameButMilestones state (updateMilestone now id updates state)
  /\ Forall2 (fun m m' =>
                (Milestone.id m <> id -> m' = m)
                /\ (Milestone.id m = id ->
                      m' = MilestoneUpdates.apply m updates now
                      /\ Milestone.updatedAt m' = now))
             (PostProState.milestones state)
             (PostProState.milestones (updateMilestone now id updates state))
  /\ (forall milestone newDate,
        find (fun m => String.eqb (Milestone.id m) id) (PostProState.milestones state)
        = Some milestone ->
        existsb ScheduleConflict.isError (check milestone newDate state) = true ->
        fst (move now id newDate state) = state
        /\ exists m',
             find (fun m => String.eqb (Milestone.id m) id)
                  (PostProState.milestones
                     (updateMilestone now id (MilestoneUpdates.schedule newDate) state))
             = Some m'
             /\ Milestone.scheduledDate m' = Some newDate).
Proof.
  split; [unfold sameButMilestones; simpl; repeat split|].
  split.
  - unfold updateMilestone. simpl. fold (amend now id updates).
    eapply Forall2_impl; [|apply amend_pointwise].
    intros m m' [H1 H2]. split; [exact H1|].
    intros Heq. split; [exact (H2 Heq)|]. rewrite (H2 Heq). reflexivity.
  - intros milestone newDate Hfind Herr.
    rewrite (move_blocked toLocaleDateString _ _ _ _ _ Hfind Herr). simpl.
    split; [reflexivity|].
    exists (Milestone.withSchedule milestone newDate now).
    split; [|reflexivity].
    unfold updateMilestone. simpl.
    rewrite (find_map_stable (fun m => String.eqb (Milestone.id m) id)
               (fun m => if String.eqb (Milestone.id m) id
                         then MilestoneUpdates.apply m (MilestoneUpdates.schedule newDate) now
                         else m)).
    + rewrite Hfind. simpl. rewrite (find_picks _ _ _ Hfind). reflexivity.
    + intros x. destruct (String.eqb (Milestone.id x) id) eqn:E; [|exact E].
      simpl. exact E.
Qed.

Lemma find_app {A : Type} (p : A -> bool) (l1 l2 : list A) :
  find p (l1 ++ l2)%list
  = match find p l1 with
    | Some x => Some x
    | None => find p l2
    end.
Proof.
  induction l1 as [|x l1 IH]; simpl; [reflexivity|].
  destruct (p x); [reflexivity | exact IH].
Qed.

(** X7.  [createMilestone] appends: the store has one milestone more, with
    the given id and fields and both time stamps set to the current time;
    the old ones keep their places, every field of the state but
    [milestones] is kept, and every lookup that found a milestone still
    finds the same one.  A new milestone for an episode and a type
    that already have one, or with the id of an old one, is never what the
    lookups return; it is found only where nothing was found before. *)
Theorem createMilestone_appends_and_is_shadowed
        (now : Date) (uuid : string) (milestone : NewMilestone.t)
        (state : PostProState.t) :
  let created := NewMilestone.create milestone uuid now in
  let state' := createMilestone now uuid milestone state in
  PostProState.milestones state'
  = (PostProState.milestones state ++ [created])%list
  /\ (Milestone.id created = uuid
      /\ Milestone.episodeId created = NewMilestone.episodeId milestone
      /\ Milestone.milestoneTypeId created = NewMilestone.milestoneTypeId milestone
      /\ Milestone.scheduledDate created = NewMilestone.scheduledDate milestone
      /\ Milestone.status created = NewMilestone.status milestone
      /\ Milestone.notes created = NewMilestone.notes milestone
      /\ Milestone.createdAt created = now
      /\ Milestone.updatedAt created = now)
  /\ List.length (PostProState.milestones state')
     = S (List.length (PostProState.milestones state))
  /\ sameButMilestones state state'
  /\ (forall episodeId typeId,
        findMilestone state' episodeId typeId
        = match findMilestone state episodeId typeId with
          | Some old => Some old
          | None => if isMilestoneOf episodeId typeId created then Some created
                    else None
          end)
  /\ (forall id,
        find (fun m => String.eqb (Milestone.id m) id) (PostProState.milestones state')
        = match find (fun m => String.eqb (Milestone.id m) id)
                     (PostProState.milestones state) with
          | Some old => Some old
          | None => if String.eqb uuid id then Some created else None
          end).
Proof.
  intros created state'. subst state'. unfold createMilestone. simpl.
  split; [reflexivity|].
  split; [repeat split|].
  split; [rewrite length_app; simpl; lia|].
  split; [unfold sameButMilestones; simpl; repeat split|].
  split.
  - intros episodeId typeId. unfold findMilestone. simpl.
    rewrite find_app. simpl. reflexivity.
  - intros id. rewrite find_app. simpl. reflexivity.
Qed.

(** ** Commands *)

Lemma move_state_cases now id newDate state :
  fst (move now id newDate state) = state
  \/ (CommandResult.success (snd (move now id newDate state)) = true
      /\ fst (move now id newDate state)
         = PostProState.setMilestones state
             (map (reschedule now id newDate) (PostProState.milestones state))).
Proof.
  unfold moveMilestone.
  destruct (find _ (PostProState.milestones state)) as [milestone|]; [|left; reflexivity].
  destruct (existsb _ _); [left; reflexivity|].
  right. split; reflexivity.
Qed.

(** What a locally interpreted command does to the state, by the action it
    was parsed to. *)
Lemma locally_cases now input state :
  let state' := fst (locally now input state) in
  let outcome := snd (locally now input state) in
  state' = state
  \/ (CommandResult.success outcome = true
      /\ ((action (parseCommand input) = "move"
           /\ exists id newDate,
                state' = PostProState.setMilestones state
                           (map (reschedule now id newDate)
                                (PostProState.milestones state)))
          \/ (action (parseCommand input) = "show"
              /\ ((exists range, state' = PostProState.setDateRange state range)
                  \/ exists id, state' = PostProState.selectEpisode state id)))).
Proof.
  cbv zeta. unfold processLocally.
  destruct (String.eqb_spec (action (parseCommand input)) "move") as [Hmove|_].
  { destruct (resolveTarget parseISO now (parseCommand input) state)
      as [[[[episode milestoneType] milestone] newDate] | failure];
      [|left; reflexivity].
    destruct (move_state_cases now (Milestone.id milestone) newDate state)
      as [Hsame | [Hok Hst]]; [left; exact Hsame|].
    right. split; [exact Hok|]. left. split; [exact Hmove|].
    exists (Milestone.id milestone), newDate. exact Hst. }
  destruct (String.eqb (action (parseCommand input)) "what_if").
  { destruct (resolveTarget parseISO now (parseCommand input) state)
      as [[[[episode milestoneType] milestone] newDate] | failure];
      [|left; reflexivity].
    destruct (Nat.eqb _ 0); left; reflexivity. }
  destruct (String.eqb (action (parseCommand input)) "late").
  { destruct (Nat.eqb _ 0); left; reflexivity. }
  destruct (String.eqb (action (parseCommand input)) "blocking").
  { destruct (findEpisode state (target (parseCommand input))); [|left; reflexivity].
    destruct (Nat.eqb _ 0); left; reflexivity. }
  destruct (String.eqb_spec (action (parseCommand input)) "show") as [Hshow|_];
    [|left; reflexivity].
  destruct (includes _ "this week").
  { right. split; [reflexivity|]. right. split; [exact Hshow|]. left.
    eexists. reflexivity. }
  destruct (includes _ "next week").
  { right. split; [reflexivity|]. right. split; [exact Hshow|]. left.
    eexists. reflexivity. }
  destruct (exec false 1 digitsRe _) as [epMatch|]; [|left; reflexivity].
  destruct (find _ (PostProState.episodes state)) as [episode|]; [|left; reflexivity].
  right. split; [reflexivity|]. right. split; [exact Hshow|]. right.
  eexists. reflexivity.
Qed.

(** X8.  A command that reports failure has changed nothing, whatever the
    input, whether the command was interpreted locally or sent to the
    backend. *)
Theorem failed_command_changes_nothing
        (now : Date) (input : string) (state : PostProState.t) :
  CommandResult.success (snd (process now input state)) = false ->
  fst (process now input state) = state.
Proof.
  unfold processCommand.
  destruct (match PostProState.currentProject state with
            | Some project =>
                if String.eqb (Project.id project) "demo-project"
                then None else Some project
            | None => None
            end) as [project|].
  - destruct (api_command _ _ _) as [response|message]; [|reflexivity].
    simpl. intros Hfail. rewrite Hfail. reflexivity.
  - intros Hfail.
    destruct (locally_cases now input state) as [Hsame | [Hok _]]; [exact Hsame|].
    rewrite Hok in Hfail. discriminate.
Qed.

(** X9.  A locally interpreted command never writes the project, the
    episodes, the catalog, the work items, the calendar events, the crew,
    the sessions or the loading flags.  Only a command parsed as a move
    writes the milestones, and only one parsed as show writes the date range
    or the selected episode. *)
Theorem local_command_frame
        (now : Date) (input : string) (state : PostProState.t) :
  let state' := fst (locally now input state) in
  sameCatalogAndEpisodes state state'
  /\ (action (parseCommand input) <> "move" ->
        PostProState.milestones state' = PostProState.milestones state)
  /\ (action (parseCommand input) <> "show" ->
        PostProState.dateRange state' = PostProState.dateRange state
        /\ PostProState.selectedEpisodeId state' = PostProState.selectedEpisodeId state)
  /\ List.length (PostProState.milestones state')
     = List.length (PostProState.milestones state).
Proof.
  cbv zeta.
  destruct (locally_cases now input state)
    as [Hsame | [_ [[Hmove [id [newDate Hst]]]
                   | [Hshow [[range Hst] | [id Hst]]]]]];
    rewrite ?Hsame, ?Hst; unfold sameCatalogAndEpisodes; simpl.
  - repeat split.
  - split; [repeat split|]. split; [intros Hc; contradiction|].
    split; [intros _; split; reflexivity|]. apply length_map.
  - split; [repeat split|]. split; [reflexivity|].
    split; [intros Hc; contradiction | reflexivity].
  - split; [repeat split|]. split; [reflexivity|].
    split; [intros Hc; contradiction | reflexivity].
Qed.

(** ** Loading *)



(** X11.  [loadProject] never reports an error: whatever the backend
    answers, afterwards [error] is null and [isLoading] is false, and when
    the request fails the store holds the demo project instead. *)
Theorem loadProject_masks_failures
        (now : Date) (projectId : string) (state : PostProState.t) :
  let state' := loadProject dateOfJson api_projects_get now projectId state in
  PostProState.error state' = None
  /\ PostProState.isLoading state' = false
  /\ (forall message,
        api_projects_get projectId = Rejected message ->
        PostProState.currentProject state' = Some (demoProject now)
        /\ PostProState.milestoneTypes state' = demoMilestoneTypes now
        /\ PostProState.milestones state' = demoMilestones now)
  /\ (forall project,
        api_projects_get projectId = Resolved project ->
        option_map Project.id (PostProState.currentProject state') = Some (Api.id project)).
Proof.
  cbv zeta. unfold loadProject, fetchProjectData.
  destruct (api_projects_get projectId) as [project|message]; simpl.
  - repeat split; try discriminate. intros p Hp. inversion Hp. reflexivity.
  - repeat split; discriminate.
Qed.

End StoreFacts.

(* ====================================================================== *)
(** * Further properties: the week shown                                   *)
(* ====================================================================== *)

Lemma week_start_is_sunday t :
  let s := (dayNumber t - weekDay (dayNumber t)) * msPerDay in
  s <= t < s + 7 * msPerDay
  /\ s mod msPerDay = 0
  /\ weekDay (dayNumber s) = 0
  /\ (dayNumber t + (6 - weekDay (dayNumber t))) * msPerDay + (msPerDay - 1)
     = s + 7 * msPerDay - 1.
Proof.
  cbv zeta. unfold dayNumber, weekDay, msPerDay.
  rewrite Z.div_mul by lia. rewrite Z.mod_mul by lia.
  repeat split; try (Z.div_mod_to_equations; lia).
Qed.

Lemma week_of_valid_date t :
  Z.abs t + 7 * msPerDay <= maxTime ->
  startOfWeek (MkDate t)
  = MkDate ((dayNumber t - weekDay (dayNumber t)) * msPerDay)
  /\ endOfWeek (MkDate t)
     = MkDate ((dayNumber t - weekDay (dayNumber t)) * msPerDay + 7 * msPerDay - 1).
Proof.
  intros Hrange.
  destruct (week_start_is_sunday t) as [Hin [_ [_ Hend]]].
  unfold startOfWeek, endOfWeek. cbv zeta. rewrite Hend.
  unfold maxTime, msPerDay in *.
  rewrite !timeClip_fits by (unfold maxTime; lia). split; reflexivity.
Qed.

Section WeekFacts.
Variable toLocaleDateString : Date -> string.
Variable parseISO : string -> option Date.

Local Abbreviation locally := (processLocally toLocaleDateString parseISO).

(** X12.  A show command whose text holds "this week" or "next week" sets
    the date range to a whole week, from midnight of a Sunday to the last
    millisecond of the following Saturday: the week of the current time for
    "this week", which takes precedence, and the week after it otherwise.
    Nothing else of the state changes. *)
Theorem show_week_is_sunday_to_saturday
        (t : Z) (input : string) (state : PostProState.t) :
  Z.abs t + 14 * msPerDay <= maxTime ->
  action (parseCommand input) = "show" ->
  let shown := toLowerCase (optText (target (parseCommand input)) "") in
  includes shown "this week" || includes shown "next week" = true ->
  exists s,
    fst (locally (MkDate t) input state) = PostProState.setDateRange state (weekFrom s)
    /\ CommandResult.success (snd (locally (MkDate t) input state)) = true
    /\ s mod msPerDay = 0
    /\ getDay (MkDate s) = Some 0
    /\ if includes shown "this week"
       then s <= t < s + 7 * msPerDay
       else s <= t + 7 * msPerDay < s + 7 * msPerDay.
Proof.
  intros Hrange Haction shown Hweek.
  unfold processLocally. subst shown. rewrite Haction. simpl String.eqb. cbv iota.
  unfold maxTime, msPerDay in Hrange.
  destruct (includes _ "this week") eqn:Hthis.
  - destruct (week_start_is_sunday t) as [Hin [Hmid [Hsun Hend]]].
    exists ((dayNumber t - weekDay (dayNumber t)) * msPerDay).
    destruct (week_of_valid_date t) as [Hs He];
      [unfold maxTime, msPerDay; lia|].
    split; [rewrite Hs, He; reflexivity|].
    split; [reflexivity|]. split; [exact Hmid|].
    split; [unfold getDay; rewrite Hsun; reflexivity | exact Hin].
  - simpl in Hweek. rewrite Hweek.
    assert (Hnext : addWeeks (MkDate t) 1 = MkDate (t + 7 * msPerDay)).
    { unfold addWeeks, addDays. unfold msPerDay.
      rewrite timeClip_fits by (unfold maxTime; lia). reflexivity. }
    rewrite Hnext.
    destruct (week_start_is_sunday (t + 7 * msPerDay)) as [Hin [Hmid [Hsun Hend]]].
    exists ((dayNumber (t + 7 * msPerDay)
             - weekDay (dayNumber (t + 7 * msPerDay))) * msPerDay).
    destruct (week_of_valid_date (t + 7 * msPerDay)) as [Hs He];
      [unfold maxTime, msPerDay; lia|].
    split; [rewrite Hs, He; reflexivity|].
    split; [reflexivity|]. split; [exact Hmid|].
    split; [unfold getDay; rewrite Hsun; reflexivity | exact Hin].
Qed.

End WeekFacts.

(* ====================================================================== *)
(** * Further properties: the milestone types of the onboarding wizard     *)
(* ====================================================================== *)

Lemma maxOf_bounds (others : list Z) (first : Z) :
  first <= Wizard.maxOf first others
  /\ Forall (fun x => x <= Wizard.maxOf first others) others.
Proof.
  unfold Wizard.maxOf. revert first.
  induction others as [|x others IH]; intros first; simpl.
  - split; [lia | constructor].
  - destruct (IH (Z.max first x)) as [H1 H2].
    split; [lia|]. constructor; [lia | exact H2].
Qed.

Lemma reaches_incl (g g' : list (string * list string)) a b :
  (forall x y, requires g x y -> requires g' x y) ->
  reaches g a b -> reaches g' a b.
Proof.
  intros Hsub Hab. induction Hab as [a b Hab | a b c Hab _ IH].
  - apply reaches_step. apply Hsub. exact Hab.
  - apply (reaches_more _ a b c); [apply Hsub; exact Hab | exact IH].
Qed.

(** X13.  [addMilestoneType] appends one blank type and keeps the others.
    The sort order of the new type is 1 in an empty list and above every
    sort order of the list otherwise, its color is one of the palette, and
    it requires nothing: the prerequisite graph has a cycle after the call
    only when it had one before. *)
Theorem addMilestoneType_appends_last
        (milestoneTypes : list OnboardingMilestoneType) :
  exists added,
    Wizard.addMilestoneType milestoneTypes = (milestoneTypes ++ [added])%list
    /\ o_code added = "" /\ o_name added = ""
    /\ o_requiresCompletionOf added = Some []
    /\ (milestoneTypes = [] -> o_sortOrder added = 1)
    /\ Forall (fun mt => o_sortOrder mt < o_sortOrder added) milestoneTypes
    /\ (exists color, o_color added = Some color /\ In color Wizard.MILESTONE_COLORS)
    /\ (cyclic (wizardGraph (Wizard.addMilestoneType milestoneTypes))
        <-> cyclic (wizardGraph milestoneTypes)).
Proof.
  unfold Wizard.addMilestoneType. eexists. split; [reflexivity|]. simpl.
  split; [reflexivity|]. split; [reflexivity|]. split; [reflexivity|].
  split; [intros ->; reflexivity|].
  split.
  { destruct milestoneTypes as [|first others]; [constructor|].
    simpl map. destruct (maxOf_bounds (map o_sortOrder others) (o_sortOrder first))
      as [H1 H2].
    constructor; [lia|].
    rewrite Forall_map in H2. eapply Forall_impl; [|exact H2].
    simpl. intros mt Hmt. lia. }
  split.
  { unfold Wizard.colorAt.
    destruct (nth_error Wizard.MILESTONE_COLORS
                        (List.length milestoneTypes
                         mod List.length Wizard.MILESTONE_COLORS)) as [color|] eqn:E.
    - exists color. split; [reflexivity|]. exact (nth_error_In _ _ E).
    - apply nth_error_None in E.
      pose proof (Nat.mod_upper_bound (List.length milestoneTypes)
                    (List.length Wizard.MILESTONE_COLORS)) as Hlt.
      simpl in *. lia. }
  assert (Hreq : forall a b,
             requires (wizardGraph (milestoneTypes ++
                         [{| o_code := ""; o_name := ""; o_sortOrder :=
                               match map o_sortOrder milestoneTypes with
                               | [] => 1
                               | first :: others => Wizard.maxOf first others + 1
                               end;
                             o_isHardDeadline := Some false;
                             o_requiresCompletionOf := Some [];
                             o_color := Wizard.colorAt (List.length milestoneTypes) |}]))
                      a b
             <-> requires (wizardGraph milestoneTypes) a b).
  { intros a b. unfold requires, wizardGraph. rewrite map_app. simpl. split.
    - intros [prereqs [Hin Hb]]. apply in_app_or in Hin.
      destruct Hin as [Hin | [Heq | []]].
      + exists prereqs. split; assumption.
      + inversion Heq. subst prereqs. destruct Hb.
    - intros [prereqs [Hin Hb]]. exists prereqs. split; [|exact Hb].
      apply in_or_app. left. exact Hin. }
  split; intros [c Hc]; exists c;
    (eapply reaches_incl; [|exact Hc]); intros x y Hxy; apply Hreq; exact Hxy.
Qed.

Lemma filteri_drops {A : Type} (index : nat) (l : list A) (k : nat) :
  Wizard.filteri (fun _ i => negb (Nat.eqb i index)) l k
  = if Nat.ltb index k then l
    else (firstn (index - k) l ++ skipn (S (index - k)) l)%list.
Proof.
  revert k. induction l as [|x l IH]; intros k; simpl.
  - destruct (Nat.ltb index k); [reflexivity|].
    rewrite firstn_nil. reflexivity.
  - rewrite IH. destruct (Nat.eqb_spec k index) as [->|Hne].
    + simpl. rewrite Nat.sub_diag. simpl.
      replace (Nat.ltb index (S index)) with true
        by (symmetry; apply Nat.ltb_lt; lia).
      rewrite Nat.ltb_irrefl. reflexivity.
    + simpl. destruct (Nat.ltb_spec index k) as [Hlt|Hge].
      * replace (Nat.ltb index (S k)) with true
          by (symmetry; apply Nat.ltb_lt; lia). reflexivity.
      * replace (Nat.ltb index (S k)) with false
          by (symmetry; apply Nat.ltb_ge; lia).
        replace (index - k)%nat with (S (index - S k)) by lia. reflexivity.
Qed.

(** X14.  [removeMilestoneType(index)] takes out the type at [index] and
    nothing else; an index past the end leaves the list as it is.  The types
    that stay are not edited: a type that required the removed one still
    lists its code.  Removing a type never creates a cycle. *)
Theorem removeMilestoneType_drops_one
        (index : nat) (milestoneTypes : list OnboardingMilestoneType) :
  Wizard.removeMilestoneType index milestoneTypes
  = (firstn index milestoneTypes ++ skipn (S index) milestoneTypes)%list
  /\ (List.length milestoneTypes <= index ->
        Wizard.removeMilestoneType index milestoneTypes = milestoneTypes)%nat
  /\ (index < List.length milestoneTypes ->
        S (List.length (Wizard.removeMilestoneType index milestoneTypes))
        = List.length milestoneTypes)%nat
  /\ (forall mt, In mt (Wizard.removeMilestoneType index milestoneTypes) ->
                 In mt milestoneTypes)
  /\ (cyclic (wizardGraph (Wizard.removeMilestoneType index milestoneTypes)) ->
      cyclic (wizardGraph milestoneTypes)).
Proof.
  assert (Heq : Wizard.removeMilestoneType index milestoneTypes
                = (firstn index milestoneTypes ++ skipn (S index) milestoneTypes)%list).
  { unfold Wizard.removeMilestoneType. rewrite filteri_drops. simpl.
    rewrite Nat.sub_0_r. reflexivity. }
  assert (Hin : forall mt, In mt (Wizard.removeMilestoneType index milestoneTypes) ->
                           In mt milestoneTypes).
  { intros mt. rewrite Heq. intros H. apply in_app_or in H.
    rewrite <- (firstn_skipn index milestoneTypes). apply in_or_app.
    destruct H as [H|H]; [left; exact H | right].
    rewrite <- (firstn_skipn 1 (skipn index milestoneTypes)).
    apply in_or_app. right. rewrite skipn_skipn. exact H. }
  split; [exact Heq|]. split.
  { intros Hlen. rewrite Heq. rewrite firstn_all2 by lia.
    rewrite skipn_all2 by lia. apply app_nil_r. }
  split.
  { intros Hlen. rewrite Heq, length_app, length_firstn, length_skipn. lia. }
  split; [exact Hin|].
  intros [c Hc]. exists c. eapply reaches_incl; [|exact Hc].
  intros x y [prereqs [Hg Hy]]. exists prereqs. split; [|exact Hy].
  unfold wizardGraph in *. apply in_map_iff in Hg. destruct Hg as [mt [Hmt Hg]].
  apply in_map_iff. exists mt. split; [exact Hmt | apply Hin; exact Hg].
Qed.

(* ====================================================================== *)
(** * Further properties: slash dates outside the calendar                 *)
(* ====================================================================== *)

Lemma parseDigits_bounds s acc :
  0 <= acc ->
  acc <= parseDigits acc s
  /\ parseDigits acc s < (acc + 1) * 10 ^ Z.of_nat (String.length s).
Proof.
  revert acc. induction s as [|c s IH]; intros acc Hacc.
  - simpl. lia.
  - cbn [parseDigits String.length]. rewrite Nat2Z.inj_succ, Z.pow_succ_r by lia.
    destruct (isDigit c) eqn:Hc.
    + unfold isDigit, between in Hc. apply andb_true_iff in Hc.
      destruct Hc as [H1 H2]. apply N.leb_le in H1, H2.
      assert (Hd : 0 <= Z.of_N (JsString.code c - 48) <= 9) by lia.
      destruct (IH (10 * acc + Z.of_N (JsString.code c - 48))) as [IH1 IH2]; [lia|].
      split; [lia|].
      pose proof (Z.pow_pos_nonneg 10 (Z.of_nat (String.length s))) as Hpos.
      nia.
    + pose proof (Z.pow_pos_nonneg 10 (Z.of_nat (String.length s))) as Hpos.
      split; [lia | nia].
Qed.

Lemma parseInt_two_digits s :
  digitString 1 2 s = true -> 0 <= parseInt s <= 99.
Proof.
  intros H. unfold digitString in H. rewrite !andb_true_iff in H.
  destruct H as [[_ _] Hlen]. apply Nat.leb_le in Hlen.
  destruct (parseDigits_bounds s 0) as [H1 H2]; [lia|].
  unfold parseInt. split; [exact H1|].
  assert (10 ^ Z.of_nat (String.length s) <= 10 ^ 2)
    by (apply Z.pow_le_mono_r; lia).
  lia.
Qed.

(** The first of the month after [m] comes [daysInMonth y m] days after the
    first of [m]. *)
Lemma month_length y m :
  1 <= m <= 12 ->
  daysFromCivil y m 1 + daysInMonth y m
  = daysFromCivil (if m =? 12 then y + 1 else y) (m mod 12 + 1) 1.
Proof.
  intros Hm.
  assert (Hcases : m = 1 \/ m = 2 \/ m = 3 \/ m = 4 \/ m = 5 \/ m = 6 \/ m = 7
                   \/ m = 8 \/ m = 9 \/ m = 10 \/ m = 11 \/ m = 12) by lia.
  unfold daysInMonth.
  destruct (isLeapYear y) eqn:Hleap.
  - apply isLeapYear_true in Hleap.
    repeat (destruct Hcases as [-> | Hcases]); [..|subst m]; settle_month.
  - unfold isLeapYear in Hleap. rewrite orb_false_iff, andb_false_iff in Hleap.
    rewrite negb_false_iff, !Z.eqb_neq, Z.eqb_eq in Hleap.
    repeat (destruct Hcases as [-> | Hcases]); [..|subst m]; settle_month.
Qed.

Lemma daysInMonth_range y m : 28 <= daysInMonth y m <= 31.
Proof.
  unfold daysInMonth. destruct (m =? 2); [destruct (isLeapYear y); lia|].
  destruct ((m =? 4) || (m =? 6) || (m =? 9) || (m =? 11)); lia.
Qed.

Lemma daysFromCivil_offset_fits y m k :
  -200000 <= y <= 200000 -> 1 <= m <= 12 -> -1000 <= k <= 1000 ->
  Z.abs ((daysFromCivil y m 1 + k) * msPerDay) <= maxTime.
Proof.
  intros Hy Hm Hk. unfold daysFromCivil, msPerDay, maxTime.
  destruct (m <=? 2); Z.div_mod_to_equations; lia.
Qed.

Lemma civil_of_midnight y m d :
  validCivil y m d = true ->
  let result := MkDate (daysFromCivil y m d * msPerDay) in
  getFullYear result = Some y /\ getMonth result = Some (m - 1)
  /\ getDate result = Some d.
Proof.
  intros Hv. cbv zeta. unfold getFullYear, getMonth, getDate, dayNumber.
  rewrite Z.div_mul by (unfold msPerDay; lia).
  rewrite (civil_round_trip _ _ _ Hv). repeat split.
Qed.

(** X15.  The date parser rejects no slash date.  For a text [M/D] or
    [M/D/Y] whose year is between 100 and 100000, whatever the two numbers
    are, the result is midnight of a valid date: the day [D - 1] days after
    the first of the month reached by counting [M - 1] months from January
    of that year.  So the day after the last of a month is read as a day of
    the next month ("2/30" in 2024 is March 1, "12/32" is January 1 of the
    next year), and month 0 is December of the year before. *)
Theorem slash_dates_roll_over
        (parseISO : string -> option Date)
        (mm dd : string) (yy : option string) (r : Date) (year : Z) :
  digitString 1 2 mm = true -> digitString 1 2 dd = true ->
  yearText 2 4 yy = true ->
  slashYear yy r = Some year -> 100 <= year <= 100000 ->
  let M := parseInt mm in
  let D := parseInt dd in
  exists t,
    parseDateReference parseISO (slashText mm dd yy) r = Some (MkDate t)
    /\ t mod msPerDay = 0
    /\ dayNumber t
       = daysFromCivil (year + (M - 1) / 12) ((M - 1) mod 12 + 1) 1 + D - 1
    /\ (1 <= M <= 12 -> daysInMonth year M < D <= daysInMonth year M + 28 ->
          getFullYear (MkDate t) = Some (if M =? 12 then year + 1 else year)
          /\ getMonth (MkDate t) = Some (M mod 12)
          /\ getDate (MkDate t) = Some (D - daysInMonth year M))
    /\ (M = 0 -> 1 <= D <= 31 ->
          getFullYear (MkDate t) = Some (year - 1)
          /\ getMonth (MkDate t) = Some 11
          /\ getDate (MkDate t) = Some D).
Proof.
  intros Hm Hd Hy Hyear Hrange M D.
  pose proof (parseInt_two_digits _ Hm) as HM.
  pose proof (parseInt_two_digits _ Hd) as HD.
  fold M in HM. fold D in HD.
  set (ym := year + (M - 1) / 12).
  set (mn := (M - 1) mod 12 + 1).
  assert (Hym : 99 <= ym <= 100009)
    by (subst ym; Z.div_mod_to_equations; lia).
  assert (Hmn : 1 <= mn <= 12)
    by (subst mn; Z.div_mod_to_equations; lia).
  exists ((daysFromCivil ym mn 1 + D - 1) * msPerDay).
  assert (Hday : dayNumber ((daysFromCivil ym mn 1 + D - 1) * msPerDay)
                 = daysFromCivil ym mn 1 + D - 1)
    by (unfold dayNumber; apply Z.div_mul; unfold msPerDay; lia).
  split.
  { rewrite (slash_text_branch parseISO _ _ _ _ Hm Hd Hy), Hyear.
    fold M D. unfold newDate.
    replace ((0 <=? year) && (year <=? 99)) with false
      by (symmetry; apply andb_false_iff; right; apply Z.leb_gt; lia).
    fold ym. fold mn.
    replace (daysFromCivil ym mn 1 + D - 1)
      with (daysFromCivil ym mn 1 + (D - 1)) by lia.
    rewrite timeClip_fits by (apply daysFromCivil_offset_fits; lia).
    reflexivity. }
  split; [apply Z.mod_mul; unfold msPerDay; lia|].
  split; [exact Hday|].
  split.
  - intros HM12 Hover.
    assert (Hym' : ym = year) by (subst ym; Z.div_mod_to_equations; lia).
    assert (Hmn' : mn = M) by (subst mn; Z.div_mod_to_equations; lia).
    rewrite Hym', Hmn'.
    pose proof (month_length year M HM12) as Hlen.
    pose proof (daysInMonth_range (if M =? 12 then year + 1 else year) (M mod 12 + 1))
      as Hnext.
    replace (daysFromCivil year M 1 + D - 1)
      with (daysFromCivil (if M =? 12 then year + 1 else year) (M mod 12 + 1) 1
            + (D - daysInMonth year M) - 1) by lia.
    rewrite daysFromCivil_day.
    replace (M mod 12) with (M mod 12 + 1 - 1) at 3 by lia.
    apply civil_of_midnight.
    unfold validCivil. rewrite !andb_true_iff, !Z.leb_le.
    repeat split; try lia; Z.div_mod_to_equations; lia.
  - intros HM0 HD31.
    assert (Hym' : ym = year - 1) by (subst ym; rewrite HM0; reflexivity).
    assert (Hmn' : mn = 12) by (subst mn; rewrite HM0; reflexivity).
    rewrite Hym', Hmn', daysFromCivil_day.
    change 11 with (12 - 1).
    apply civil_of_midnight.
    unfold validCivil, daysInMonth. simpl. rewrite !andb_true_iff, !Z.leb_le. lia.
Qed.

(* ====================================================================== *)
(** * Further properties: the shape of parsed commands                     *)
(* ====================================================================== *)

Lemma append_nil_r (s : string) : s ++ "" = s.
Proof. induction s as [|c s IH]; simpl; [reflexivity | rewrite IH; reflexivity]. Qed.

Lemma append_assoc' (a b c : string) : (a ++ b) ++ c = a ++ (b ++ c).
Proof. induction a as [|x a IH]; simpl; [reflexivity | rewrite IH; reflexivity]. Qed.

Lemma length_append (a b : string) :
  String.length (a ++ b) = (String.length a + String.length b)%nat.
Proof. induction a as [|x a IH]; simpl; [reflexivity | rewrite IH; reflexivity]. Qed.

Lemma take_append (w rest : string) : take (String.length w) (w ++ rest) = w.
Proof. induction w as [|c w IH]; simpl; [destruct rest; reflexivity | rewrite IH; reflexivity]. Qed.

Lemma consumed_append (w rest : string) : consumed (w ++ rest) rest = w.
Proof.
  unfold consumed. rewrite length_append.
  replace (String.length w + String.length rest - String.length rest)%nat
    with (String.length w) by lia.
  apply take_append.
Qed.

Section Soundness.
Variable ignoreCase : bool.
Variable A : Type.

Lemma run_sound (r : re) :
  forall s caps (k : string -> captures -> option A) res,
    run ignoreCase A r s caps k = Some res ->
    exists w rest caps',
      s = w ++ rest /\ derives ignoreCase r w caps caps' /\ k rest caps' = Some res.
Proof.
  induction r as [|c|p|a IHa b IHb|a IHa b IHb|a IHa lo hi|i a IHa];
    intros s caps k res H.
  - exists "", s, caps. simpl in *. auto.
  - simpl in H. destruct s as [|x s']; [discriminate|].
    destruct (charMatches ignoreCase c x) eqn:E; [|discriminate].
    exists (String x ""), s', caps. simpl. split; [reflexivity|].
    split; [exists x; auto | exact H].
  - simpl in H. destruct s as [|x s']; [discriminate|].
    destruct (p x) eqn:E; [|discriminate].
    exists (String x ""), s', caps. simpl. split; [reflexivity|].
    split; [exists x; auto | exact H].
  - simpl in H. apply IHa in H. destruct H as [w1 [rest1 [c1 [Hs [Ha H]]]]].
    apply IHb in H. destruct H as [w2 [rest [c2 [Hs' [Hb H]]]]].
    exists (w1 ++ w2), rest, c2. split; [rewrite append_assoc', <- Hs'; exact Hs|].
    split; [|exact H]. simpl. exists w1, w2, c1. auto.
  - simpl in H. destruct (run ignoreCase A a s caps k) eqn:E.
    + inversion H; subst. apply IHa in E. destruct E as [w [rest [c1 [Hs [Ha Hk]]]]].
      exists w, rest, c1. simpl. auto.
    + apply IHb in H. destruct H as [w [rest [c1 [Hs [Hb Hk]]]]].
      exists w, rest, c1. simpl. auto.
  - simpl in H. simpl derives.
    revert H. generalize (String.length s) at 1. generalize 0%nat.
    intros count budget. revert count s caps.
    induction budget as [|budget IH]; intros count s caps H.
    + destruct (Nat.leb_spec lo count) as [Hlo|]; [|discriminate].
      exists "", s, caps. split; [reflexivity|]. split; [|exact H].
      apply repeats_stop. exact Hlo.
    + match type of H with
      | match ?more with Some r0 => Some r0 | None => ?stop end = _ =>
          destruct more as [res'|] eqn:Hmore
      end.
      * inversion H; subst res'. clear H.
        destruct (underMax count hi) eqn:Hmax; [|discriminate].
        apply IHa in Hmore. destruct Hmore as [w1 [rest1 [c1 [Hs [Ha Hk]]]]].
        destruct (Nat.ltb_spec (String.length rest1) (String.length s)) as [Hlt|];
          [|discriminate].
        apply IH in Hk. destruct Hk as [w2 [rest [c2 [Hs' [Hrep Hk]]]]].
        exists (w1 ++ w2), rest, c2.
        split; [rewrite append_assoc', <- Hs'; exact Hs|].
        split; [|exact Hk].
        apply (repeats_more _ _ _ count w1 w2 caps c1 c2); try assumption.
        intros ->. simpl in Hs. subst s. lia.
      * destruct (Nat.leb_spec lo count) as [Hlo|]; [|discriminate].
        exists "", s, caps. split; [reflexivity|]. split; [|exact H].
        apply repeats_stop. exact Hlo.
  - simpl in H. apply IHa in H. destruct H as [w [rest [c1 [Hs [Ha Hk]]]]].
    exists w, rest, (setCapture i w c1). split; [exact Hs|].
    split; [simpl; exists c1; auto|].
    rewrite Hs, consumed_append in Hk. exact Hk.
Qed.
End Soundness.

Lemma matchHere_sound ignoreCase ngroups r s m :
  matchHere ignoreCase ngroups r s = Some m ->
  exists w rest caps',
    s = w ++ rest
    /\ derives ignoreCase r w (repeat None (S ngroups)) caps'
    /\ m = setCapture 0 w caps'.
Proof.
  unfold matchHere. intros H. apply run_sound in H.
  destruct H as [w [rest [c1 [Hs [Hd Hk]]]]]. subst s.
  rewrite consumed_append in Hk. inversion Hk.
  exists w, rest, c1. auto.
Qed.

Lemma exec_sound ignoreCase ngroups r s m :
  exec ignoreCase ngroups r s = Some m ->
  exists before w rest caps',
    s = before ++ w ++ rest
    /\ derives ignoreCase r w (repeat None (S ngroups)) caps'
    /\ m = setCapture 0 w caps'.
Proof.
  induction s as [|x s IH]; simpl; intros H.
  - destruct (matchHere ignoreCase ngroups r "") as [caps|] eqn:E; [|discriminate].
    inversion H; subst caps. apply matchHere_sound in E.
    destruct E as [w [rest [c1 [Hs [Hd Hm]]]]].
    exists "", w, rest, c1. auto.
  - destruct (matchHere ignoreCase ngroups r (String x s)) as [caps|] eqn:E.
    + inversion H; subst caps. apply matchHere_sound in E.
      destruct E as [w [rest [c1 [Hs [Hd Hm]]]]].
      exists "", w, rest, c1. auto.
    + apply IH in H. destruct H as [before [w [rest [c1 [Hs [Hd Hm]]]]]].
      exists (String x before), w, rest, c1. simpl. rewrite Hs. auto.
Qed.

(** Patterns without groups leave the match array alone. *)
Lemma derives_captureFree ignoreCase r :
  captureFree r = true ->
  forall w c0 c1, derives ignoreCase r w c0 c1 -> c1 = c0.
Proof.
  induction r as [|c|p|a IHa b IHb|a IHa b IHb|a IHa lo hi|i a IHa];
    simpl; intros Hfree w c0 c1 H.
  - tauto.
  - destruct H as [x [_ [_ H]]]. exact H.
  - destruct H as [x [_ [_ H]]]. exact H.
  - apply andb_true_iff in Hfree. destruct Hfree as [Fa Fb].
    destruct H as [w1 [w2 [cm [_ [Ha Hb]]]]].
    apply (IHa Fa) in Ha. apply (IHb Fb) in Hb. congruence.
  - apply andb_true_iff in Hfree. destruct Hfree as [Fa Fb].
    destruct H as [H|H]; [exact (IHa Fa _ _ _ H) | exact (IHb Fb _ _ _ H)].
  - induction H as [count caps Hlo | count w1 w2 c0 c1 c2 Hmax Hne Hstep Hrep IH].
    + reflexivity.
    + apply (IHa Hfree) in Hstep. congruence.
  - discriminate.
Qed.

(** One or more characters of a class. *)
Lemma repeats_class ignoreCase p lo hi count w c0 c1 :
  repeats (derives ignoreCase (Class p)) lo hi count w c0 c1 ->
  c1 = c0 /\ allChars p w = true /\ (lo <= count + String.length w)%nat.
Proof.
  intros H.
  induction H as [count caps Hlo | count w1 w2 c0 c1 c2 Hmax Hne Hstep Hrep IH].
  - simpl. split; [reflexivity|]. split; [reflexivity|]. lia.
  - simpl in Hstep. destruct Hstep as [x [-> [Hx ->]]].
    destruct IH as [-> [Hall Hlen]]. simpl. rewrite Hx, Hall.
    split; [reflexivity|]. split; [reflexivity|]. lia.
Qed.

Lemma derives_group_plus ignoreCase i p w c0 c1 :
  derives ignoreCase (Group i (plus (Class p))) w c0 c1 ->
  c1 = setCapture i w c0 /\ allChars p w = true /\ w <> "".
Proof.
  simpl. intros [cm [H ->]]. apply (repeats_class ignoreCase) in H.
  destruct H as [-> [Hall Hlen]].
  split; [reflexivity|]. split; [exact Hall|].
  intros ->. simpl in Hlen. lia.
Qed.

Lemma derives_cat_free ignoreCase a b w c0 c1 :
  captureFree a = true ->
  derives ignoreCase (Cat a b) w c0 c1 ->
  exists w1 w2, w = w1 ++ w2 /\ derives ignoreCase b w2 c0 c1.
Proof.
  intros Hfree [w1 [w2 [cm [Hw [Ha Hb]]]]].
  apply (derives_captureFree _ _ Hfree) in Ha. subst cm.
  exists w1, w2. auto.
Qed.

Lemma derives_cat_group ignoreCase i p b w c0 c1 :
  derives ignoreCase (Cat (Group i (plus (Class p))) b) w c0 c1 ->
  exists g w2, allChars p g = true /\ g <> ""
               /\ derives ignoreCase b w2 (setCapture i g c0) c1.
Proof.
  intros [w1 [w2 [cm [Hw [Ha Hb]]]]].
  apply derives_group_plus in Ha. destruct Ha as [-> [Hall Hne]].
  exists w1, w2. auto.
Qed.

Lemma moveRe_shape w c1 :
  derives true moveRe w (repeat None 4) c1 ->
  exists episode code date,
    c1 = [None; Some episode; Some code; Some date]
    /\ allChars isDigit episode = true /\ episode <> ""
    /\ allChars isWord code = true /\ code <> ""
    /\ allChars isDot date = true /\ date <> "".
Proof.
  cbv [moveRe cat]. intros H.
  apply derives_cat_free in H; [|reflexivity]. destruct H as [_ [w1 [_ H]]].
  apply derives_cat_free in H; [|reflexivity]. destruct H as [_ [w2 [_ H]]].
  apply derives_cat_group in H. destruct H as [episode [w3 [He [Hene H]]]].
  apply derives_cat_free in H; [|reflexivity]. destruct H as [_ [w4 [_ H]]].
  apply derives_cat_free in H; [|reflexivity]. destruct H as [_ [w5 [_ H]]].
  apply derives_cat_group in H. destruct H as [code [w6 [Hc [Hcne H]]]].
  apply derives_cat_free in H; [|reflexivity]. destruct H as [_ [w7 [_ H]]].
  apply derives_cat_free in H; [|reflexivity]. destruct H as [_ [w8 [_ H]]].
  apply derives_group_plus in H. destruct H as [-> [Hd Hdne]].
  exists episode, code, w8. simpl. auto 10.
Qed.

Lemma whatIfRe_shape w c1 :
  derives true whatIfRe w (repeat None 4) c1 ->
  exists episode code date,
    c1 = [None; Some episode; Some code; Some date]
    /\ allChars isDigit episode = true /\ episode <> ""
    /\ allChars isWord code = true /\ code <> ""
    /\ allChars isDot date = true /\ date <> "".
Proof.
  cbv [whatIfRe cat]. intros H.
  apply derives_cat_free in H; [|reflexivity]. destruct H as [_ [w1 [_ H]]].
  apply derives_cat_free in H; [|reflexivity]. destruct H as [_ [w2 [_ H]]].
  apply derives_cat_free in H; [|reflexivity]. destruct H as [_ [w3 [_ H]]].
  apply derives_cat_free in H; [|reflexivity]. destruct H as [_ [w4 [_ H]]].
  apply derives_cat_group in H. destruct H as [episode [w5 [He [Hene H]]]].
  apply derives_cat_free in H; [|reflexivity]. destruct H as [_ [w6 [_ H]]].
  apply derives_cat_free in H; [|reflexivity]. destruct H as [_ [w7 [_ H]]].
  apply derives_cat_group in H. destruct H as [code [w8 [Hc [Hcne H]]]].
  apply derives_cat_free in H; [|reflexivity]. destruct H as [_ [w9 [_ H]]].
  apply derives_cat_free in H; [|reflexivity]. destruct H as [_ [w10 [_ H]]].
  apply derives_cat_free in H; [|reflexivity]. destruct H as [_ [w11 [_ H]]].
  apply derives_group_plus in H. destruct H as [-> [Hd Hdne]].
  exists episode, code, w11. simpl. auto 10.
Qed.

Lemma showRe_shape w c1 :
  derives true showRe w (repeat None 2) c1 ->
  exists shown, c1 = [None; Some shown] /\ allChars isDot shown = true /\ shown <> "".
Proof.
  cbv [showRe cat]. intros H.
  apply derives_cat_free in H; [|reflexivity]. destruct H as [_ [w1 [_ H]]].
  apply derives_cat_free in H; [|reflexivity]. destruct H as [_ [w2 [_ H]]].
  apply derives_cat_free in H; [|reflexivity]. destruct H as [_ [w3 [_ H]]].
  apply derives_group_plus in H. destruct H as [-> [Hd Hdne]].
  exists w3. simpl. auto.
Qed.

Lemma blockingRe_shape w c1 :
  derives true blockingRe w (repeat None 2) c1 ->
  exists episode,
    c1 = [None; Some episode] /\ allChars isDigit episode = true /\ episode <> "".
Proof.
  cbv [blockingRe cat]. intros H.
  apply derives_cat_free in H; [|reflexivity]. destruct H as [_ [w1 [_ H]]].
  apply derives_cat_free in H; [|reflexivity]. destruct H as [_ [w2 [_ H]]].
  apply derives_cat_free in H; [|reflexivity]. destruct H as [_ [w3 [_ H]]].
  apply derives_cat_free in H; [|reflexivity]. destruct H as [_ [w4 [_ H]]].
  apply derives_cat_free in H; [|reflexivity]. destruct H as [_ [w5 [_ H]]].
  apply derives_group_plus in H. destruct H as [-> [Hd Hdne]].
  exists w5. simpl. auto.
Qed.

Lemma derives_opt_group ignoreCase i p w c0 c1 :
  derives ignoreCase (opt (Group i (plus (Class p)))) w c0 c1 ->
  c1 = c0
  \/ exists g, c1 = setCapture i g c0 /\ allChars p g = true /\ g <> "".
Proof.
  unfold opt. cbn [derives]. intros H.
  inversion H as [count caps Hlo | count w1 w2 c0' cm c2 Hmax Hne Hstep Hrep];
    subst; [left; reflexivity|].
  right. destruct Hstep as [cm' [Hstep ->]].
  apply (repeats_class ignoreCase) in Hstep. destruct Hstep as [-> [Hall Hlen]].
  inversion Hrep as [count caps Hlo | count w3 w4 c0' cm2 c2' Hmax' _ _ _];
    subst; [|discriminate Hmax'].
  exists w1. split; [reflexivity|]. split; [exact Hall|]. exact Hne.
Qed.

Lemma listRe_shape w c1 :
  derives true listRe w (repeat None 3) c1 ->
  exists type,
    allChars isWord type = true /\ type <> ""
    /\ (c1 = [None; Some type; None]
        \/ exists episode,
             c1 = [None; Some type; Some episode]
             /\ allChars isDigit episode = true /\ episode <> "").
Proof.
  cbv [listRe cat]. intros H.
  apply derives_cat_free in H; [|reflexivity]. destruct H as [_ [w1 [_ H]]].
  apply derives_cat_free in H; [|reflexivity]. destruct H as [_ [w2 [_ H]]].
  apply derives_cat_group in H. destruct H as [type [w3 [Ht [Htne H]]]].
  apply derives_cat_free in H; [|reflexivity]. destruct H as [_ [w4 [_ H]]].
  apply derives_cat_free in H; [|reflexivity]. destruct H as [_ [w5 [_ H]]].
  apply derives_cat_free in H; [|reflexivity]. destruct H as [_ [w6 [_ H]]].
  apply derives_opt_group in H.
  exists type. split; [exact Ht|]. split; [exact Htne|].
  destruct H as [-> | [episode [-> [He Hene]]]].
  - left. reflexivity.
  - right. exists episode. simpl. auto.
Qed.

Lemma upperChar_of_word c : isWord c = true -> isCodeChar (upperChar c) = true.
Proof.
  destruct c as [[] [] [] [] [] [] [] []]; vm_compute; intros H;
    first [reflexivity | discriminate H].
Qed.

Lemma toUpperCase_of_word s :
  allChars isWord s = true -> allChars isCodeChar (toUpperCase s) = true.
Proof.
  induction s as [|c s IH]; simpl; [reflexivity|].
  rewrite !andb_true_iff. intros [Hc Hs].
  split; [apply upperChar_of_word; exact Hc | apply IH; exact Hs].
Qed.

Lemma toUpperCase_nonempty s : s <> "" -> toUpperCase s <> "".
Proof. destruct s; [congruence | discriminate]. Qed.

(** What [parseCommand] returns for a move or a what-if. *)
Lemma move_parse_shape input :
  action (parseCommand input) = "move" \/ action (parseCommand input) = "what_if" ->
  exists episode code date,
    target (parseCommand input) = Some episode
    /\ params (parseCommand input)
       = [("milestoneCode", toUpperCase code); ("newDate", date)]
    /\ allChars isDigit episode = true /\ episode <> ""
    /\ allChars isWord code = true /\ code <> ""
    /\ allChars isDot date = true /\ date <> "".
Proof.
  unfold parseCommand.
  destruct (exec true 3 moveRe (trim (toLowerCase input))) as [m|] eqn:Emove.
  { intros _. apply exec_sound in Emove.
    destruct Emove as [before [w [rest [c1 [_ [Hd ->]]]]]].
    apply moveRe_shape in Hd.
    destruct Hd as [episode [code [date [-> H]]]].
    exists episode, code, date. simpl. tauto. }
  destruct (exec true 3 whatIfRe (trim (toLowerCase input))) as [m|] eqn:Ewhat.
  { intros _. apply exec_sound in Ewhat.
    destruct Ewhat as [before [w [rest [c1 [_ [Hd ->]]]]]].
    apply whatIfRe_shape in Hd.
    destruct Hd as [episode [code [date [-> H]]]].
    exists episode, code, date. simpl. tauto. }
  destruct (exec true 1 showRe _); [simpl; intros [H|H]; discriminate H|].
  destruct (exec true 1 blockingRe _); [simpl; intros [H|H]; discriminate H|].
  destruct (exec true 0 lateRe _); [simpl; intros [H|H]; discriminate H|].
  destruct (exec true 2 listRe _); simpl; intros [H|H]; discriminate H.
Qed.

Ltac each_action := repeat match goal with |- _ /\ _ => split end.

(** X16.  The shape of what [parseCommand] returns.  The action is one of
    seven.  A move or a what-if has a target made of one or more digits, a
    milestone code made of one or more capital letters, digits and
    underscores, and a date text of at least one character; a show has a
    non-empty target; a blocking query has a target of digits; a list has a
    type of word characters and a target of digits or none; only an
    unrecognized input keeps its text, under [raw]. *)
Theorem parsed_command_shape (input : string) :
  let parsed := parseCommand input in
  In (action parsed) ["move"; "what_if"; "show"; "blocking"; "late"; "list"; "unknown"]
  /\ (action parsed = "move" \/ action parsed = "what_if" ->
        exists episode code date,
          target parsed = Some episode
          /\ params parsed = [("milestoneCode", code); ("newDate", date)]
          /\ allChars isDigit episode = true /\ episode <> ""
          /\ allChars isCodeChar code = true /\ code <> ""
          /\ allChars isDot date = true /\ date <> "")
  /\ (action parsed = "show" ->
        exists shown,
          target parsed = Some shown /\ shown <> "" /\ params parsed = [])
  /\ (action parsed = "blocking" ->
        exists episode,
          target parsed = Some episode /\ allChars isDigit episode = true
          /\ episode <> "" /\ params parsed = [])
  /\ (action parsed = "late" -> target parsed = None /\ params parsed = [])
  /\ (action parsed = "list" ->
        exists type,
          params parsed = [("type", type)]
          /\ allChars isWord type = true /\ type <> ""
          /\ (target parsed = None
              \/ exists episode,
                   target parsed = Some episode
                   /\ allChars isDigit episode = true /\ episode <> ""))
  /\ (action parsed = "unknown" ->
        target parsed = None /\ params parsed = [("raw", input)]).
Proof.
  cbv zeta. split.
  { unfold parseCommand.
    destruct (exec true 3 moveRe _); [simpl; tauto|].
    destruct (exec true 3 whatIfRe _); [simpl; tauto|].
    destruct (exec true 1 showRe _); [simpl; tauto|].
    destruct (exec true 1 blockingRe _); [simpl; tauto|].
    destruct (exec true 0 lateRe _); [simpl; tauto|].
    destruct (exec true 2 listRe _); simpl; tauto. }
  split.
  { intros Haction. destruct (move_parse_shape input Haction)
      as [episode [code [date [Ht [Hp [He [Hene [Hc [Hcne [Hd Hdne]]]]]]]]]].
    exists episode, (toUpperCase code), date.
    split; [exact Ht|]. split; [exact Hp|]. split; [exact He|].
    split; [exact Hene|]. split; [apply toUpperCase_of_word; exact Hc|].
    split; [apply toUpperCase_nonempty; exact Hcne|]. split; assumption. }
  unfold parseCommand.
  destruct (exec true 3 moveRe _) as [m|];
    [simpl; each_action; intros H; discriminate H|].
  destruct (exec true 3 whatIfRe _) as [m|];
    [simpl; each_action; intros H; discriminate H|].
  destruct (exec true 1 showRe _) as [m|] eqn:Eshow.
  { apply exec_sound in Eshow.
    destruct Eshow as [before [w [rest [c1 [_ [Hd ->]]]]]].
    apply showRe_shape in Hd. destruct Hd as [shown [-> [_ Hne]]].
    simpl. each_action; intros H; try discriminate H.
    exists shown. auto. }
  destruct (exec true 1 blockingRe _) as [m|] eqn:Eblocking.
  { apply exec_sound in Eblocking.
    destruct Eblocking as [before [w [rest [c1 [_ [Hd ->]]]]]].
    apply blockingRe_shape in Hd. destruct Hd as [episode [-> [He Hne]]].
    simpl. each_action; intros H; try discriminate H.
    exists episode. auto. }
  destruct (exec true 0 lateRe _) as [m|];
    [simpl; each_action; intros H; try discriminate H; split; reflexivity|].
  destruct (exec true 2 listRe _) as [m|] eqn:Elist.
  { apply exec_sound in Elist.
    destruct Elist as [before [w [rest [c1 [_ [Hd ->]]]]]].
    apply listRe_shape in Hd.
    destruct Hd as [type [Ht [Htne [-> | [episode [-> [He Hene]]]]]]];
      simpl; each_action; intros H; try discriminate H.
    - exists type. auto.
    - exists type. split; [reflexivity|]. split; [exact Ht|]. split; [exact Htne|].
      right. exists episode. destruct episode; [congruence|]. simpl. auto. }
  simpl. each_action; intros H; try discriminate H. split; reflexivity.
Qed.


Lemma code_param_only_for_moves input c :
  param "milestoneCode" (params (parseCommand input)) = Some c ->
  action (parseCommand input) = "move" \/ action (parseCommand input) = "what_if".
Proof.
  unfold parseCommand.
  destruct (exec true 3 moveRe _); [left; reflexivity|].
  destruct (exec true 3 whatIfRe _); [right; reflexivity|].
  destruct (exec true 1 showRe _); [simpl; discriminate|].
  destruct (exec true 1 blockingRe _); [simpl; discriminate|].
  destruct (exec true 0 lateRe _); [simpl; discriminate|].
  destruct (exec true 2 listRe _); simpl; discriminate.
Qed.

Section CommandFacts.
Variable toLocaleDateString : Date -> string.
Variable parseISO : string -> option Date.

Local Abbreviation check := (checkDependencies toLocaleDateString).
Local Abbreviation move := (moveMilestone toLocaleDateString).
Local Abbreviation locally := (processLocally toLocaleDateString parseISO).

(** X17.  What a move or a what-if resolves to.  The episode is one whose
    number contains the digits of the command, the milestone type is one
    whose code is exactly the upper-cased word of the command, and the
    milestone is one of that episode and that type.  Since that word holds
    only capital letters, digits and underscores, a type whose code holds
    any other character, such as the demo catalog's M/S, is never
    resolved. *)
Theorem commands_resolve_plain_codes_only
        (now : Date) (input : string) (state : PostProState.t)
        (episode : Episode.t) (milestoneType : MilestoneType.t)
        (milestone : Milestone.t) (newDate : Date) :
  resolveTarget parseISO now (parseCommand input) state
  = inl (episode, milestoneType, milestone, newDate) ->
  (In episode (PostProState.episodes state)
   /\ exists digits,
        target (parseCommand input) = Some digits
        /\ allChars isDigit digits = true /\ digits <> ""
        /\ includes (Episode.number episode) digits = true)
  /\ (In milestoneType (PostProState.milestoneTypes state)
      /\ param "milestoneCode" (params (parseCommand input))
         = Some (MilestoneType.code milestoneType)
      /\ allChars isCodeChar (MilestoneType.code milestoneType) = true
      /\ MilestoneType.code milestoneType <> "")
  /\ (In milestone (PostProState.milestones state)
      /\ Milestone.episodeId milestone = Episode.id episode
      /\ Milestone.milestoneTypeId milestone = MilestoneType.id milestoneType).
Proof.
  unfold resolveTarget.
  destruct (findEpisode state (target (parseCommand input))) as [ep|] eqn:Hep;
    [|discriminate].
  destruct (findTypeByCode state (param "milestoneCode" (params (parseCommand input))))
    as [mt|] eqn:Hmt; [|discriminate].
  destruct (findMilestone state (Episode.id ep) (MilestoneType.id mt))
    as [m|] eqn:Hm; [|discriminate].
  destruct (parseDateReference parseISO _ now) as [d|]; [|discriminate].
  intros H. inversion H. subst ep mt m d. clear H.
  apply find_some in Hep. destruct Hep as [Hep_in Hep].
  apply find_some in Hmt. destruct Hmt as [Hmt_in Hmt].
  apply find_some in Hm. destruct Hm as [Hm_in Hm].
  destruct (param "milestoneCode" (params (parseCommand input))) as [c|] eqn:Hc;
    [|discriminate].
  apply String.eqb_eq in Hmt. subst c.
  destruct (move_parse_shape input
              (code_param_only_for_moves input _ Hc))
    as [digits [word [date [Ht [Hp [Hd [Hdne [Hw [Hwne _]]]]]]]]].
  rewrite Hp in Hc. simpl in Hc. injection Hc as Hcode.
  rewrite Ht in Hep. simpl in Hep.
  apply andb_true_iff in Hm. destruct Hm as [Hm1 Hm2].
  apply String.eqb_eq in Hm1, Hm2.
  split.
  { split; [exact Hep_in|]. exists digits.
    split; [exact Ht|]. split; [exact Hd|]. split; [exact Hdne|].
    destruct digits; [congruence | exact Hep]. }
  split.
  { split; [exact Hmt_in|].
    split; [reflexivity|]. rewrite <- Hcode.
    split; [apply toUpperCase_of_word; exact Hw
           | apply toUpperCase_nonempty; exact Hwne]. }
  split; [exact Hm_in|]. split; assumption.
Qed.

Lemma resolveTarget_reads_target_and_params now p q state :
  target p = target q -> params p = params q ->
  resolveTarget parseISO now p state = resolveTarget parseISO now q state.
Proof. intros Ht Hp. unfold resolveTarget. rewrite Ht, Hp. reflexivity. Qed.

Lemma not_listed (x : string) (l : list string) :
  existsb (String.eqb x) l = false -> ~ In x l.
Proof.
  intros H Hin. assert (existsb (String.eqb x) l = true).
  { apply existsb_exists. exists x. split; [exact Hin | apply String.eqb_refl]. }
  congruence.
Qed.

Lemma find_by_distinct_id (ms : list Milestone.t) (m : Milestone.t) :
  distinct (map Milestone.id ms) = true -> In m ms ->
  find (fun x => String.eqb (Milestone.id x) (Milestone.id m)) ms = Some m.
Proof.
  induction ms as [|x ms IH]; simpl; [intros _ []|].
  rewrite andb_true_iff, negb_true_iff. intros [Hx Hrest] [-> | Hin].
  - rewrite String.eqb_refl. reflexivity.
  - destruct (String.eqb_spec (Milestone.id x) (Milestone.id m)) as [Heq|_].
    + exfalso. apply (not_listed _ _ Hx). rewrite Heq. apply in_map. exact Hin.
    + apply IH; assumption.
Qed.

(** X18.  A what-if predicts the move.  When no two milestones share an id,
    a what-if and a move that name the same episode, code and date resolve
    alike; the move reports the conflicts the what-if reported, it succeeds
    exactly when none of them is an error, and when the what-if fails the
    move fails with the same result. *)
Theorem what_if_predicts_move
        (now : Date) (moveInput whatIfInput : string) (state : PostProState.t) :
  distinct (map Milestone.id (PostProState.milestones state)) = true ->
  action (parseCommand moveInput) = "move" ->
  action (parseCommand whatIfInput) = "what_if" ->
  target (parseCommand moveInput) = target (parseCommand whatIfInput) ->
  params (parseCommand moveInput) = params (parseCommand whatIfInput) ->
  let asked := snd (locally now whatIfInput state) in
  let moved := snd (locally now moveInput state) in
  CommandResult.conflicts moved = CommandResult.conflicts asked
  /\ (CommandResult.success asked = false -> moved = asked)
  /\ (CommandResult.success asked = true ->
        CommandResult.success moved
        = negb (existsb ScheduleConflict.isError (reported asked))).
Proof.
  intros Hids Hmove Hwhat Htarget Hparams. cbv zeta.
  unfold processLocally. rewrite Hmove, Hwhat. simpl String.eqb. cbv iota.
  rewrite (resolveTarget_reads_target_and_params now _ _ state Htarget Hparams).
  destruct (resolveTarget parseISO now (parseCommand whatIfInput) state)
    as [[[[episode milestoneType] milestone] newDate] | failure] eqn:Hres.
  - unfold resolveTarget in Hres.
    destruct (findEpisode _ _) as [ep|]; [|discriminate].
    destruct (findTypeByCode _ _) as [mt|]; [|discriminate].
    destruct (findMilestone state (Episode.id ep) (MilestoneType.id mt))
      as [m|] eqn:Hm; [|discriminate].
    destruct (parseDateReference parseISO _ now) as [d|]; [|discriminate].
    inversion Hres. subst ep mt m d. clear Hres.
    apply find_some in Hm. destruct Hm as [Hin _].
    pose proof (find_by_distinct_id _ _ Hids Hin) as Hfind.
    unfold moveMilestone. rewrite Hfind. cbv zeta.
    destruct (check milestone newDate state) as [|c cs] eqn:Hcheck.
    + simpl. repeat split; intros H; try discriminate H; reflexivity.
    + destruct (existsb ScheduleConflict.isError (c :: cs)) eqn:Herr;
        simpl; unfold reported; simpl; simpl in Herr; rewrite ?Herr;
        repeat split; intros H; try discriminate H; reflexivity.
  - simpl. split; [reflexivity|]. split; [reflexivity|].
    intros Hok. unfold resolveTarget in Hres.
    destruct (findEpisode _ _) as [ep|];
      [|inversion Hres; subst failure; discriminate Hok].
    destruct (findTypeByCode _ _) as [mt|];
      [|inversion Hres; subst failure; discriminate Hok].
    destruct (findMilestone state (Episode.id ep) (MilestoneType.id mt)) as [m|];
      [|inversion Hres; subst failure; discriminate Hok].
    destruct (parseDateReference parseISO _ now) as [d|];
      [discriminate Hres | inversion Hres; subst failure; discriminate Hok].
Qed.

End CommandFacts.

(** ** Case, padding and position *)

Lemma lowerChar_upperChar c : lowerChar (upperChar c) = lowerChar c.
Proof. destruct c as [[] [] [] [] [] [] [] []]; vm_compute; reflexivity. Qed.

Lemma toLowerCase_toUpperCase s : toLowerCase (toUpperCase s) = toLowerCase s.
Proof.
  unfold toLowerCase, toUpperCase.
  induction s as [|c s IH]; cbn [mapChars]; [reflexivity|].
  rewrite lowerChar_upperChar, IH. reflexivity.
Qed.

Lemma toLowerCase_append a b : toLowerCase (a ++ b) = toLowerCase a ++ toLowerCase b.
Proof.
  unfold toLowerCase.
  induction a as [|c a IH]; cbn [mapChars append]; [reflexivity|].
  rewrite IH. reflexivity.
Qed.

Lemma space_not_upper c : isSpace c = true -> isUpper c = false.
Proof.
  destruct c as [[] [] [] [] [] [] [] []]; vm_compute; intros H;
    first [reflexivity | discriminate H].
Qed.

Lemma trimStart_spaces pad s :
  allChars isSpace pad = true -> trimStart (pad ++ s) = trimStart s.
Proof.
  induction pad as [|c pad IH]; simpl; [reflexivity|].
  rewrite andb_true_iff. intros [Hc Hpad]. rewrite Hc. apply IH. exact Hpad.
Qed.

Lemma trimStart_only_spaces pad :
  allChars isSpace pad = true -> trimStart pad = "".
Proof.
  induction pad as [|c pad IH]; simpl; [reflexivity|].
  rewrite andb_true_iff. intros [Hc Hpad]. rewrite Hc. apply IH. exact Hpad.
Qed.

Lemma trimEnd_only_spaces pad :
  allChars isSpace pad = true -> trimEnd pad = "".
Proof.
  induction pad as [|c pad IH]; simpl; [reflexivity|].
  rewrite andb_true_iff. intros [Hc Hpad]. rewrite (IH Hpad), Hc. reflexivity.
Qed.

Lemma trimEnd_spaces s pad :
  allChars isSpace pad = true -> trimEnd (s ++ pad) = trimEnd s.
Proof.
  intros Hpad. induction s as [|c s IH]; simpl.
  - apply trimEnd_only_spaces. exact Hpad.
  - rewrite IH. reflexivity.
Qed.

Lemma trim_padding before s after :
  allChars isSpace before = true -> allChars isSpace after = true ->
  trim (before ++ s ++ after) = trim s.
Proof.
  intros Hb Ha. unfold trim. rewrite (trimStart_spaces _ _ Hb).
  induction s as [|c s IH]; simpl.
  - rewrite (trimStart_only_spaces _ Ha). reflexivity.
  - destruct (isSpace c); [exact IH|].
    change (String c (s ++ after)) with (String c s ++ after).
    apply trimEnd_spaces. exact Ha.
Qed.

Lemma normalized_padding before text after :
  allChars isSpace before = true -> allChars isSpace after = true ->
  trim (toLowerCase (before ++ toUpperCase text ++ after)) = trim (toLowerCase text).
Proof.
  intros Hb Ha. rewrite !toLowerCase_append, toLowerCase_toUpperCase.
  rewrite (toLowerCase_fixed isSpace before space_not_upper Hb).
  rewrite (toLowerCase_fixed isSpace after space_not_upper Ha).
  apply trim_padding; assumption.
Qed.

(** X19.  Both parsers ignore letter case and surrounding white space.  An
    ASCII command written in capitals between spaces, tabs or line breaks is
    parsed to the same action and target and, unless it is unrecognized, to
    the same parameters; a date text written so is resolved to the same
    date. *)
Theorem parsers_ignore_case_and_padding
        (before text after : string) :
  allChars isAscii text = true ->
  allChars isSpace before = true -> allChars isSpace after = true ->
  let padded := before ++ toUpperCase text ++ after in
  action (parseCommand padded) = action (parseCommand text)
  /\ target (parseCommand padded) = target (parseCommand text)
  /\ (action (parseCommand text) <> "unknown" ->
        parseCommand padded = parseCommand text)
  /\ (forall parseISO referenceDate,
        parseDateReference parseISO padded referenceDate
        = parseDateReference parseISO text referenceDate).
Proof.
  intros _ Hb Ha padded. subst padded.
  pose proof (normalized_padding before text after Hb Ha) as Hn.
  split; [|split; [|split]].
  4: { intros parseISO referenceDate. unfold parseDateReference.
       rewrite Hn. reflexivity. }
  all: unfold parseCommand; rewrite Hn;
    destruct (exec true 3 moveRe _); [simpl; auto|];
    destruct (exec true 3 whatIfRe _); [simpl; auto|];
    destruct (exec true 1 showRe _); [simpl; auto|];
    destruct (exec true 1 blockingRe _); [simpl; auto|];
    destruct (exec true 0 lateRe _); [simpl; auto|];
    destruct (exec true 2 listRe _); simpl; auto.
  intros H. contradiction H. reflexivity.
Qed.

Lemma exec_finds_later_match ignoreCase ngroups r before s :
  matchHere ignoreCase ngroups r s <> None ->
  exec ignoreCase ngroups r (before ++ s) <> None.
Proof.
  intros H. induction before as [|c before IH]; simpl.
  - destruct s; simpl; destruct (matchHere ignoreCase ngroups r _);
      [discriminate | contradiction | discriminate | contradiction].
  - destruct (matchHere ignoreCase ngroups r (String c (before ++ s)));
      [discriminate | exact IH].
Qed.

(** X20.  The move pattern is not anchored and is tried first: an input
    whose lower-cased, trimmed text holds a move phrase at any position is
    parsed as a move, whatever comes before it.  A question such as "what if
    we move 301 ec to wednesday" is therefore a move. *)
Theorem move_phrase_anywhere_is_a_move (input before phrase : string) :
  trim (toLowerCase input) = before ++ phrase ->
  matchHere true 3 moveRe phrase <> None ->
  action (parseCommand input) = "move".
Proof.
  intros Hn Hm. unfold parseCommand. rewrite Hn.
  pose proof (exec_finds_later_match true 3 moveRe before phrase Hm) as H.
  destruct (exec true 3 moveRe (before ++ phrase)); [reflexivity | contradiction].
Qed.


(* ====================================================================== *)
(** * Further properties: an accepted move, made again                     *)
(* ====================================================================== *)

Lemma isAfter_irreflexive d : isAfter d d = false.
Proof. destruct d as [t|]; simpl; [apply Z.ltb_irrefl | reflexivity]. Qed.

Lemma reschedule_idempotent now id newDate m :
  reschedule now id newDate (reschedule now id newDate m) = reschedule now id newDate m.
Proof.
  unfold reschedule. destruct (String.eqb (Milestone.id m) id) eqn:E.
  - simpl. rewrite E. reflexivity.
  - rewrite E. reflexivity.
Qed.

Section RepeatedMove.
Variable toLocaleDateString : Date -> string.

Local Abbreviation check := (checkDependencies toLocaleDateString).
Local Abbreviation move := (moveMilestone toLocaleDateString).

(** A prerequisite that is late after the move was late before it. *)
Lemma late_after_move now id newDate state milestone prereqCode :
  latePrerequisite (Milestone.withSchedule milestone newDate now) newDate
                   (PostProState.setMilestones state
                      (map (reschedule now id newDate) (PostProState.milestones state)))
                   prereqCode <> None ->
  latePrerequisite milestone newDate state prereqCode <> None.
Proof.
  unfold latePrerequisite. simpl.
  destruct (find _ (PostProState.milestoneTypes state)) as [prereqType|]; [|auto].
  unfold findMilestone. simpl.
  rewrite (find_map_stable _ (reschedule now id newDate)).
  - destruct (find _ (PostProState.milestones state)) as [pm|]; [|auto]. simpl.
    unfold reschedule. destruct (String.eqb (Milestone.id pm) id); [|auto].
    simpl. rewrite isAfter_irreflexive. intros H. contradiction H. reflexivity.
  - intros x. unfold reschedule. destruct (String.eqb (Milestone.id x) id); reflexivity.
Qed.

(** X21.  An accepted move can be made again.  In the state it leaves, the
    evaluator finds no error for the moved milestone on its new date, and
    the same move at the same time is accepted and changes nothing. *)
Theorem accepted_move_can_be_repeated
        (now : Date) (id : string) (newDate : Date) (state : PostProState.t) :
  CommandResult.success (snd (move now id newDate state)) = true ->
  let state' := fst (move now id newDate state) in
  (exists moved,
      find (fun m => String.eqb (Milestone.id m) id) (PostProState.milestones state')
      = Some moved
      /\ Milestone.scheduledDate moved = Some newDate
      /\ existsb ScheduleConflict.isError (check moved newDate state') = false)
  /\ CommandResult.success (snd (move now id newDate state')) = true
  /\ fst (move now id newDate state') = state'.
Proof.
  intros Hok state'.
  destruct (move_success_target toLocaleDateString _ _ _ _ Hok)
    as [milestone [Hfind Hfind']].
  assert (Herr : existsb ScheduleConflict.isError (check milestone newDate state) = false).
  { revert Hok. unfold moveMilestone. rewrite Hfind. cbv zeta.
    destruct (existsb _ _); [simpl; discriminate | reflexivity]. }
  destruct (move_applied toLocaleDateString now _ _ _ _ Hfind Herr) as [Hstate _].
  fold state' in Hfind', Hstate.
  assert (Herr' : existsb ScheduleConflict.isError
                          (check (Milestone.withSchedule milestone newDate now)
                                 newDate state') = false).
  { destruct (find (fun mt => String.eqb (MilestoneType.id mt)
                                         (Milestone.milestoneTypeId milestone))
                   (PostProState.milestoneTypes state)) as [milestoneType|] eqn:Htype.
    - assert (Htype' :
                find (fun mt => String.eqb (MilestoneType.id mt)
                                  (Milestone.milestoneTypeId
                                     (Milestone.withSchedule milestone newDate now)))
                     (PostProState.milestoneTypes state') = Some milestoneType)
        by (rewrite Hstate; exact Htype).
      rewrite (errors_iff_late toLocaleDateString _ _ _ _ Htype').
      rewrite (errors_iff_late toLocaleDateString _ _ _ _ Htype) in Herr.
      destruct (anyLate _ newDate state' milestoneType) eqn:E; [|reflexivity].
      unfold anyLate in E, Herr. apply existsb_exists in E.
      destruct E as [c [Hin Hc]].
      assert (Hlate : latePrerequisite milestone newDate state c <> None).
      { apply (late_after_move now id). rewrite <- Hstate.
        destruct (latePrerequisite _ newDate state' c); [discriminate | discriminate Hc]. }
      assert (Hex : existsb (fun prereqCode =>
                               match latePrerequisite milestone newDate state prereqCode with
                               | Some _ => true
                               | None => false
                               end)
                            (MilestoneType.requiresCompletionOf milestoneType) = true).
      { apply existsb_exists. exists c. split; [exact Hin|].
        destruct (latePrerequisite milestone newDate state c);
          [reflexivity | contradiction Hlate; reflexivity]. }
      rewrite Herr in Hex. discriminate.
    - unfold checkDependencies.
      replace (PostProState.milestoneTypes state')
        with (PostProState.milestoneTypes state) by (rewrite Hstate; reflexivity).
      simpl Milestone.milestoneTypeId. rewrite Htype. reflexivity. }
  split.
  { exists (Milestone.withSchedule milestone newDate now).
    split; [exact Hfind'|]. split; [reflexivity | exact Herr']. }
  destruct (move_applied toLocaleDateString now _ _ _ _ Hfind' Herr') as [Hstate' [Hok' _]].
  split; [exact Hok'|].
  rewrite Hstate'. clear Hstate' Hok' Herr' Hfind'. clearbody state'. subst state'.
  unfold PostProState.setMilestones. simpl. rewrite map_map.
  rewrite (map_ext _ _ (reschedule_idempotent now id newDate)). reflexivity.
Qed.

End RepeatedMove.


(* ====================================================================== *)
(** * Further properties: relative dates                                   *)
(* ====================================================================== *)

Ltac settle_keywords :=
  unfold parseDateReference;
  repeat match goal with
         | |- context [if ?b then _ else _] =>
             let v := eval vm_compute in b in change b with v; cbv iota
         end.

(** X22.  The relative keywords.  "today" is the reference date itself.  For
    a reference date at least a week inside the range of valid dates,
    "tomorrow" and "yesterday" are one day later and earlier at the same
    time of day and undo each other, and a text with "next week", without a
    day name, is seven days later: the same day of the week at the same time
    of day. *)
Theorem relative_keywords_round_trip
        (parseISO : string -> option Date) (t : Z) :
  Z.abs t + 7 * msPerDay <= maxTime ->
  let r := MkDate t in
  (forall referenceDate,
      parseDateReference parseISO "today" referenceDate = Some referenceDate)
  /\ parseDateReference parseISO "tomorrow" r = Some (MkDate (t + msPerDay))
  /\ parseDateReference parseISO "yesterday" r = Some (MkDate (t - msPerDay))
  /\ parseDateReference parseISO "yesterday" (MkDate (t + msPerDay)) = Some r
  /\ parseDateReference parseISO "tomorrow" (MkDate (t - msPerDay)) = Some r
  /\ (forall text,
        String.eqb (trim (toLowerCase text)) "today" = false ->
        String.eqb (trim (toLowerCase text)) "tomorrow" = false ->
        String.eqb (trim (toLowerCase text)) "yesterday" = false ->
        findIndex (fun d => includes (trim (toLowerCase text)) d) daysOfWeek = None ->
        includes (trim (toLowerCase text)) "next week" = true ->
        parseDateReference parseISO text r = Some (MkDate (t + 7 * msPerDay))
        /\ getDay (MkDate (t + 7 * msPerDay)) = getDay r).
Proof.
  intros Hrange r. subst r. unfold maxTime, msPerDay in Hrange.
  split; [intros referenceDate; settle_keywords; reflexivity|].
  split.
  { settle_keywords. unfold addDays.
    rewrite timeClip_fits by (unfold maxTime, msPerDay; lia).
    first [reflexivity | unfold msPerDay; repeat f_equal; lia]. }
  split.
  { settle_keywords. unfold addDays.
    rewrite timeClip_fits by (unfold maxTime, msPerDay; lia).
    first [reflexivity | unfold msPerDay; repeat f_equal; lia]. }
  split.
  { settle_keywords. unfold addDays.
    rewrite timeClip_fits by (unfold maxTime, msPerDay; lia).
    first [reflexivity | unfold msPerDay; repeat f_equal; lia]. }
  split.
  { settle_keywords. unfold addDays.
    rewrite timeClip_fits by (unfold maxTime, msPerDay; lia).
    first [reflexivity | unfold msPerDay; repeat f_equal; lia]. }
  intros text H1 H2 H3 Hday Hweek. split.
  - unfold parseDateReference. rewrite H1, H2, H3, Hday, Hweek.
    unfold addWeeks, addDays.
    rewrite timeClip_fits by (unfold maxTime, msPerDay; lia).
    f_equal.
  - unfold getDay. f_equal. rewrite dayNumber_shift, weekDay_shift.
    unfold weekDay. rewrite Z.add_mod by lia. rewrite Z.mod_mod by lia.
    change (7 mod 7) with 0. rewrite Z.add_0_r. apply Z.mod_mod. lia.
Qed.

(* ====================================================================== *)
(** * The further properties on sample inputs                              *)
(* ====================================================================== *)

(** The conflicts of moving the Director's Cut of episode 301 to midnight of
    2024-01-01 are the same when the other nine episodes have no
    milestones. *)
Lemma conflicts_of_first_episode_alone :
  checkDependencies Sample.toLocaleDateString Sample.directorsCut
                    (Sample.midnight 2024 1 1) Sample.demoState
  = checkDependencies Sample.toLocaleDateString Sample.directorsCut
                      (Sample.midnight 2024 1 1) firstEpisodeOnly.
Proof.
  apply (conflicts_depend_on_own_episode_only Sample.toLocaleDateString).
  - reflexivity.
  - vm_compute. reflexivity.
Defined.

(** The Editor's Cut of episode 301 can go to 2024-01-03, hence to
    2024-01-05. *)
Lemma editors_cut_can_go_later :
  CommandResult.success
    (snd (moveMilestone Sample.toLocaleDateString Sample.monday "ms-ep-1-mt-ec"
                        (MkDate (midnightTime 2024 1 5)) Sample.demoState)) = true.
Proof.
  apply (move_accepted_for_later_dates Sample.toLocaleDateString Sample.monday
           "ms-ep-1-mt-ec" (midnightTime 2024 1 3) (midnightTime 2024 1 5)).
  - apply Z.leb_le. vm_compute. reflexivity.
  - vm_compute. reflexivity.
Defined.

(** The Editor's Cut of episode 301 raises no conflict on 2024-01-01 and on
    2024-01-08, hence none on 2024-01-03. *)
Lemma editors_cut_free_in_between :
  checkDependencies Sample.toLocaleDateString Sample.editorsCut
                    (MkDate (midnightTime 2024 1 3)) Sample.demoState = [].
Proof.
  apply (conflict_free_dates_are_convex Sample.toLocaleDateString Sample.editorsCut
           Sample.demoState (midnightTime 2024 1 1) (midnightTime 2024 1 3)
           (midnightTime 2024 1 8)).
  - split; apply Z.leb_le; vm_compute; reflexivity.
  - vm_compute. reflexivity.
  - vm_compute. reflexivity.
Defined.

(** Moving the Director's Cut of episode 301 to an invalid date is
    applied. *)
Lemma invalid_date_is_applied :
  exists moved,
    find (fun m => String.eqb (Milestone.id m) "ms-ep-1-mt-dc")
         (PostProState.milestones
            (fst (moveMilestone Sample.toLocaleDateString Sample.monday "ms-ep-1-mt-dc"
                                InvalidDate Sample.demoState)))
    = Some moved
    /\ Milestone.scheduledDate moved = Some InvalidDate
    /\ Milestone.updatedAt moved = Sample.monday
    /\ sameButSchedule Sample.directorsCut moved.
Proof.
  refine (proj1 (proj2 (proj2 (unchecked_moves_are_applied
                                 Sample.toLocaleDateString Sample.monday
                                 "ms-ep-1-mt-dc" InvalidDate Sample.demoState
                                 Sample.directorsCut _ _)))).
  - vm_compute. reflexivity.
  - right. reflexivity.
Defined.

(** [updateMilestone] puts the Director's Cut of episode 301 on midnight of
    2024-01-01, before the Editor's Cut, which [moveMilestone] refuses. *)
Lemma update_bypasses_the_check :
  fst (moveMilestone Sample.toLocaleDateString Sample.monday "ms-ep-1-mt-dc"
                     (Sample.midnight 2024 1 1) Sample.demoState)
  = Sample.demoState
  /\ exists m',
       find (fun m => String.eqb (Milestone.id m) "ms-ep-1-mt-dc")
            (PostProState.milestones
               (updateMilestone Sample.monday "ms-ep-1-mt-dc"
                  (MilestoneUpdates.schedule (Sample.midnight 2024 1 1))
                  Sample.demoState))
       = Some m'
       /\ Milestone.scheduledDate m' = Some (Sample.midnight 2024 1 1).
Proof.
  refine (proj2 (proj2 (updateMilestone_applies_unchecked
                          Sample.toLocaleDateString Sample.monday "ms-ep-1-mt-dc"
                          (MilestoneUpdates.schedule (Sample.midnight 2024 1 1))
                          Sample.demoState))
                Sample.directorsCut (Sample.midnight 2024 1 1) _ _).
  - vm_compute. reflexivity.
  - vm_compute. reflexivity.
Defined.

(** An input that is no command fails and leaves the demo schedule as it
    is. *)
Lemma gibberish_changes_nothing :
  fst (processCommand Sample.toLocaleDateString Sample.parseISO Sample.dateOfJson
                      Sample.api_projects_get Sample.api_command
                      Sample.monday "gibberish" Sample.demoState)
  = Sample.demoState.
Proof.
  apply (failed_command_changes_nothing
           Sample.toLocaleDateString Sample.parseISO Sample.dateOfJson
           Sample.api_projects_get Sample.api_command).
  vm_compute. reflexivity.
Defined.

(** "what's late?" writes neither the milestones nor the date range. *)
Lemma late_query_writes_nothing :
  PostProState.milestones
    (fst (processLocally Sample.toLocaleDateString Sample.parseISO
                         Sample.monday "what's late?" Sample.demoState))
  = PostProState.milestones Sample.demoState
  /\ PostProState.dateRange
       (fst (processLocally Sample.toLocaleDateString Sample.parseISO
                            Sample.monday "what's late?" Sample.demoState))
     = PostProState.dateRange Sample.demoState.
Proof.
  pose proof (local_command_frame Sample.toLocaleDateString Sample.parseISO
                Sample.monday "what's late?" Sample.demoState) as F.
  cbv zeta in F. destruct F as [_ [Hm [Hs _]]].
  split.
  - apply Hm. vm_compute. discriminate.
  - apply Hs. vm_compute. discriminate.
Defined.


(** A project that cannot be fetched: the demo project is shown and no
    error is recorded. *)
Lemma failed_load_shows_demo_project :
  PostProState.error
    (loadProject Sample.dateOfJson Sample.api_projects_get Sample.monday "p1"
                 (initialState Sample.monday)) = None
  /\ PostProState.currentProject
       (loadProject Sample.dateOfJson Sample.api_projects_get Sample.monday "p1"
                    (initialState Sample.monday))
     = Some (demoProject Sample.monday).
Proof.
  pose proof (loadProject_masks_failures Sample.dateOfJson Sample.api_projects_get
                Sample.monday "p1" (initialState Sample.monday)) as F.
  cbv zeta in F. destruct F as [Herror [_ [Hdemo _]]].
  split; [exact Herror|]. exact (proj1 (Hdemo None eq_refl)).
Defined.

(** "show me this week" on Monday 2024-01-01 shows the week from Sunday
    2023-12-31. *)
Lemma this_week_on_a_monday :
  exists s,
    fst (processLocally Sample.toLocaleDateString Sample.parseISO
                        (MkDate mondayTime) "show me this week" Sample.demoState)
    = PostProState.setDateRange Sample.demoState (weekFrom s)
    /\ s mod msPerDay = 0
    /\ getDay (MkDate s) = Some 0
    /\ s <= mondayTime < s + 7 * msPerDay.
Proof.
  destruct (show_week_is_sunday_to_saturday
              Sample.toLocaleDateString Sample.parseISO
              mondayTime "show me this week" Sample.demoState)
    as [s [Hstate [_ [Hmid [Hsun Hin]]]]].
  - apply Z.leb_le. vm_compute. reflexivity.
  - vm_compute. reflexivity.
  - vm_compute. reflexivity.
  - exists s. split; [exact Hstate|]. split; [exact Hmid|]. split; [exact Hsun|].
    exact Hin.
Defined.

(** The first type added to an empty list has sort order 1; the type added
    to the two types of the wizard comes after both. *)
Lemma added_types_come_last :
  (exists added,
      Wizard.addMilestoneType [] = [added] /\ o_sortOrder added = 1)
  /\ exists added,
       Wizard.addMilestoneType wizardTypes = (wizardTypes ++ [added])%list
       /\ Forall (fun mt => o_sortOrder mt < o_sortOrder added) wizardTypes.
Proof.
  split.
  - destruct (addMilestoneType_appends_last [])
      as [added [Happ [_ [_ [_ [Hfirst _]]]]]].
    exists added. split; [exact Happ | exact (Hfirst eq_refl)].
  - destruct (addMilestoneType_appends_last wizardTypes)
      as [added [Happ [_ [_ [_ [_ [Hlast _]]]]]]].
    exists added. split; [exact Happ | exact Hlast].
Defined.

(** Removing the first of the two types leaves one; removing a type at
    index 5 leaves both. *)
Lemma removing_wizard_types :
  S (List.length (Wizard.removeMilestoneType 0 wizardTypes)) = List.length wizardTypes
  /\ Wizard.removeMilestoneType 5 wizardTypes = wizardTypes.
Proof.
  pose proof (removeMilestoneType_drops_one 0 wizardTypes) as [_ [_ [Hone _]]].
  pose proof (removeMilestoneType_drops_one 5 wizardTypes) as [_ [Hnone _]].
  split.
  - apply Hone. simpl. lia.
  - apply Hnone. simpl. lia.
Defined.

(** "2/30" on Monday 2024-01-01 is the first of March 2024. *)
Lemma february_30_is_march_1 :
  exists t,
    parseDateReference Sample.parseISO "2/30" Sample.monday = Some (MkDate t)
    /\ getFullYear (MkDate t) = Some 2024
    /\ getMonth (MkDate t) = Some 2
    /\ getDate (MkDate t) = Some 1.
Proof.
  destruct (slash_dates_roll_over Sample.parseISO "2" "30" None Sample.monday 2024)
    as [t [Hparse [_ [_ [Hover _]]]]].
  - reflexivity.
  - reflexivity.
  - reflexivity.
  - vm_compute. reflexivity.
  - lia.
  - exists t. split; [exact Hparse|]. apply Hover.
    + vm_compute. split; discriminate.
    + vm_compute. split; [reflexivity | discriminate].
Defined.

(** "move 304 lock to Friday" is a move of 304, code LOCK, to "friday". *)
Lemma move_304_lock_shape :
  exists episode code date,
    target (parseCommand "move 304 lock to Friday") = Some episode
    /\ params (parseCommand "move 304 lock to Friday")
       = [("milestoneCode", code); ("newDate", date)]
    /\ allChars isDigit episode = true
    /\ allChars isCodeChar code = true.
Proof.
  pose proof (parsed_command_shape "move 304 lock to Friday") as F.
  cbv zeta in F. destruct F as [_ [Hmove _]].
  destruct Hmove as [episode [code [date [Ht [Hp [He [_ [Hc _]]]]]]]].
  - left. vm_compute. reflexivity.
  - exists episode, code, date. auto.
Defined.

(** "move 301 ec to wednesday" on the demo schedule resolves to the Editor's
    Cut of episode 301, whose code is plain. *)
Lemma editors_cut_code_is_plain :
  allChars isCodeChar (MilestoneType.code Sample.editorsCutType) = true
  /\ In Sample.editorsCut (PostProState.milestones Sample.demoState).
Proof.
  pose proof (commands_resolve_plain_codes_only
                Sample.parseISO Sample.monday "move 301 ec to wednesday"
                Sample.demoState (demoEpisode Sample.monday 0) Sample.editorsCutType
                Sample.editorsCut (addDays Sample.monday (Some 2))) as F.
  destruct F as [_ [[_ [_ [Hplain _]]] [Hin _]]].
  - vm_compute. reflexivity.
  - split; [exact Hplain | exact Hin].
Defined.

(** On the demo schedule, "what if 301 dc slips to 1/1" reports an error
    and "move 301 dc to 1/1" is refused with the same conflicts. *)
Lemma what_if_and_move_of_directors_cut :
  CommandResult.conflicts
    (snd (processLocally Sample.toLocaleDateString Sample.parseISO Sample.monday
                         "move 301 dc to 1/1" Sample.demoState))
  = CommandResult.conflicts
      (snd (processLocally Sample.toLocaleDateString Sample.parseISO Sample.monday
                           "what if 301 dc slips to 1/1" Sample.demoState)).
Proof.
  refine (proj1 (what_if_predicts_move
                   Sample.toLocaleDateString Sample.parseISO Sample.monday
                   "move 301 dc to 1/1" "what if 301 dc slips to 1/1"
                   Sample.demoState _ _ _ _ _)).
  - vm_compute. reflexivity.
  - vm_compute. reflexivity.
  - vm_compute. reflexivity.
  - vm_compute. reflexivity.
  - vm_compute. reflexivity.
Defined.

(** "  MOVE 304 LOCK TO FRIDAY " is the command "Move 304 Lock to Friday". *)
Lemma shouted_move_is_the_same :
  parseCommand ("  " ++ toUpperCase "Move 304 Lock to Friday" ++ " ")
  = parseCommand "Move 304 Lock to Friday".
Proof.
  pose proof (parsers_ignore_case_and_padding "  " "Move 304 Lock to Friday" " "
                eq_refl eq_refl eq_refl) as F.
  cbv zeta in F. destruct F as [_ [_ [Hsame _]]].
  apply Hsame. vm_compute. discriminate.
Defined.

(** "what if we move 301 ec to wednesday" is a move. *)
Lemma what_if_we_move_is_a_move :
  action (parseCommand "what if we move 301 ec to wednesday") = "move".
Proof.
  apply (move_phrase_anywhere_is_a_move "what if we move 301 ec to wednesday"
           "what if we " "move 301 ec to wednesday").
  - vm_compute. reflexivity.
  - vm_compute. discriminate.
Defined.

(** The move of the Editor's Cut of episode 301 to 2024-01-03, made twice. *)
Lemma editors_cut_moved_twice :
  fst (moveMilestone Sample.toLocaleDateString Sample.monday "ms-ep-1-mt-ec"
         (Sample.midnight 2024 1 3)
         (fst (moveMilestone Sample.toLocaleDateString Sample.monday "ms-ep-1-mt-ec"
                             (Sample.midnight 2024 1 3) Sample.demoState)))
  = fst (moveMilestone Sample.toLocaleDateString Sample.monday "ms-ep-1-mt-ec"
                       (Sample.midnight 2024 1 3) Sample.demoState).
Proof.
  refine (proj2 (proj2 (accepted_move_can_be_repeated
                          Sample.toLocaleDateString Sample.monday "ms-ep-1-mt-ec"
                          (Sample.midnight 2024 1 3) Sample.demoState _))).
  vm_compute. reflexivity.
Defined.

(** On Monday 2024-01-01 at 09:30, "tomorrow" is Tuesday at 09:30 and
    "the week after next week" is the Monday after. *)
Lemma tomorrow_and_next_week_on_a_monday :
  parseDateReference Sample.parseISO "tomorrow" (MkDate mondayTime)
  = Some (MkDate (mondayTime + msPerDay))
  /\ parseDateReference Sample.parseISO "the week after next week" (MkDate mondayTime)
     = Some (MkDate (mondayTime + 7 * msPerDay)).
Proof.
  pose proof (relative_keywords_round_trip Sample.parseISO mondayTime) as F.
  cbv zeta in F. destruct F as [_ [Htomorrow [_ [_ [_ Hweek]]]]].
  - apply Z.leb_le. vm_compute. reflexivity.
  - split; [exact Htomorrow|].
    apply (Hweek "the week after next week"); vm_compute; reflexivity.
Defined.
